(** * Rail Nexus: conflict detection and priority-greedy train scheduling

    A shallow embedding of the scheduling core of the repository
    ([src/models], [src/optimization]) and the properties its
    specification states about it.

    Conventions of the embedding.
    - A [datetime] is the number of microseconds since
      0001-01-01T00:00:00, a [timedelta] a number of microseconds.
      Python raises [OverflowError] when datetime arithmetic leaves the
      years 1..9999, and when a timedelta exceeds 999999999 days; both
      are modelled.
    - Python floats are idealised as exact rationals ([Q]): the delay in
      minutes, the total delay, the throughput percentage, the metrics
      and the processing time.  For [int(d.total_seconds() / 60)] the
      idealisation gives what the code computes as long as [d] is
      below 2^51 microseconds (about 71 years): up to there the rounding
      of the two divisions is smaller than the distance, at least
      1/60000000, of a fractional quotient to the next whole minute.
      Beyond that the code may return one minute more.  The processing
      time [int(d.total_seconds() * 1000)] may be one millisecond below
      the exact value (the product is rounded); it is only ever handled
      as an opaque value.
    - A track segment is described by the value of its occupancy
      list.  The list is an object that [add_train] and [remove_train]
      change in place; where a property depends on whether two segments
      share one list, the lists are kept in a heap ([TrackSegmentRef],
      [SectionRef]).
    - A computation is an [outcome]: it returns a value, raises an
      exception, or does not terminate.  Loops that Python writes as
      [while] take a fuel argument, one unit per iteration; [Diverge]
      is what is left when the fuel is used up.
    - Random identifiers (uuid4), log lines, human-readable descriptions
      and ISO formatting of timestamps are not modelled. *)

From Stdlib Require Import ZArith QArith Qminmax Lqa Lia String List Permutation Sorted.
From stdpp Require Import base gmap strings list pretty.

Open Scope Z_scope.

(** ** Python runtime: exceptions, outcomes, datetime *)

Inductive exn : Type :=
| OverflowError (msg : string).

(** [str(e)] *)
Definition str_exn (e : exn) : string :=
  match e with OverflowError msg => msg end.

Inductive outcome (A : Type) : Type :=
| Ret (a : A)
| Raise (e : exn)
| Diverge.

Arguments Ret {A} a.
Arguments Raise {A} e.
Arguments Diverge {A}.

#[global] Instance outcome_ret : MRet outcome := @Ret.

#[global] Instance outcome_bind : MBind outcome :=
  fun A B f m =>
    match m with
    | Ret a => f a
    | Raise e => Raise e
    | Diverge => Diverge
    end.

(** [for x in xs: acc = body(acc, x)], stopping at the first exception. *)
Fixpoint for_each {A S : Type} (body : S -> A -> outcome S)
    (xs : list A) (acc : S) : outcome S :=
  match xs with
  | [] => Ret acc
  | x :: xs' => acc' ← body acc x; for_each body xs' acc'
  end.

Definition datetime : Type := Z.
Definition timedelta : Type := Z.

Definition us_per_minute : Z := 60000000.
Definition us_per_day : Z := 86400000000.

(** [datetime.max], 9999-12-31T23:59:59.999999 *)
Definition datetime_max : datetime := 3652059 * us_per_day - 1.

Definition MAX_DELTA_DAYS : Z := 999999999.

(** [timedelta(minutes=m)] for an int [m]: the day count is first
    converted to a C int, then checked against the timedelta range. *)
Definition timedelta_minutes (m : Z) : outcome timedelta :=
  let us := m * us_per_minute in
  let days := us / us_per_day in
  if decide (- 2 ^ 31 <= days < 2 ^ 31) then
    if decide (- MAX_DELTA_DAYS <= days <= MAX_DELTA_DAYS) then Ret us
    else Raise (OverflowError
                  ("days=" +:+ pretty days +:+ "; must have magnitude <= 999999999"))
  else Raise (OverflowError "Python int too large to convert to C int").

(** [t + d] on a datetime *)
Definition datetime_add (t : datetime) (d : timedelta) : outcome datetime :=
  if decide (0 <= t + d <= datetime_max) then Ret (t + d)
  else Raise (OverflowError "date value out of range").

(** [(a - b).total_seconds() / 60]; the difference of two datetimes is
    always a valid timedelta. *)
Definition minutes_between (a b : datetime) : Q := (a - b) # 60000000.

(** [int(x)] on a float: truncation towards zero. *)
Definition int_of_float (x : Q) : Z := Z.quot (Qnum x) (Z.pos (Qden x)).

(** A stable sort: [le x y] says that [x] may stay in front of [y].
    [sorted] and [list.sort] are stable, and a stable sort has only one
    possible result, so insertion from the right computes what they
    return. *)
Fixpoint insert_by {A : Type} (le : A -> A -> bool) (x : A) (l : list A) : list A :=
  match l with
  | [] => [x]
  | y :: l' => if le x y then x :: y :: l' else y :: insert_by le x l'
  end.

Fixpoint stable_sort {A : Type} (le : A -> A -> bool) (l : list A) : list A :=
  match l with
  | [] => []
  | x :: l' => insert_by le x (stable_sort le l')
  end.

(** [l.remove(x)] on a list that holds [x]: the first occurrence goes. *)
Fixpoint remove_first (x : string) (l : list string) : list string :=
match l with
| [] => []
| y :: l' => if decide (y = x) then l' else y :: remove_first x l'
end.

(** ** models/enums.py *)

Inductive TrainType : Type := FREIGHT | PASSENGER | EXPRESS.

(** [int(train_type)], the value of the [IntEnum] member *)
Definition int_of_TrainType (ty : TrainType) : Z :=
  match ty with FREIGHT => 1 | PASSENGER => 2 | EXPRESS => 3 end.

Definition TrainType_name (ty : TrainType) : string :=
  match ty with FREIGHT => "FREIGHT" | PASSENGER => "PASSENGER" | EXPRESS => "EXPRESS" end.

Inductive TrainStatus : Type := SCHEDULED | RUNNING | DELAYED | HELD | COMPLETED.

Inductive ConflictType : Type := SAME_TRACK | CROSSING | PLATFORM | HEADWAY.

#[global] Instance TrainType_eq_dec : EqDecision TrainType.
Proof. solve_decision. Defined.

#[global] Instance TrainStatus_eq_dec : EqDecision TrainStatus.
Proof. solve_decision. Defined.

#[global] Instance ConflictType_eq_dec : EqDecision ConflictType.
Proof. solve_decision. Defined.

(** Truthiness of an [Optional[str]]: [None] and the empty string are falsy. *)
Definition truthy (o : option string) : bool :=
  match o with
  | Some s => if decide (s = "") then false else true
  | None => false
  end.

(** ** models/train.py *)

Module Train.

Record t : Type := mk {
  train_id : string;
  train_number : string;
  train_type : TrainType;
  scheduled_arrival : datetime;
  scheduled_departure : option datetime;
  current_position : option string;
  status : TrainStatus;
  actual_arrival : option datetime;
  actual_departure : option datetime;
  priority_score : Z
}.

Definition with_status (self : t) (s : TrainStatus) : t :=
  mk (train_id self) (train_number self) (train_type self)
     (scheduled_arrival self) (scheduled_departure self)
     (current_position self) s (actual_arrival self)
     (actual_departure self) (priority_score self).

Definition with_actual_arrival (self : t) (a : option datetime) : t :=
  mk (train_id self) (train_number self) (train_type self)
     (scheduled_arrival self) (scheduled_departure self)
     (current_position self) (status self) a
     (actual_departure self) (priority_score self).

Definition with_current_position (self : t) (p : option string) : t :=
  mk (train_id self) (train_number self) (train_type self)
     (scheduled_arrival self) (scheduled_departure self)
     p (status self) (actual_arrival self)
     (actual_departure self) (priority_score self).

Definition with_priority_score (self : t) (p : Z) : t :=
  mk (train_id self) (train_number self) (train_type self)
     (scheduled_arrival self) (scheduled_departure self)
     (current_position self) (status self) (actual_arrival self)
     (actual_departure self) p.

Definition calculate_priority (self : t) : Z :=
  let base_priority := int_of_TrainType (train_type self) in
  let delay_penalty := if decide (status self = DELAYED) then -10 else 0 in
  base_priority * 100 + delay_penalty.

(** The dataclass constructor followed by [__post_init__]: the score
    is computed only when the caller passed none.  The field of the
    object under construction is [None] until then; [calculate_priority]
    does not read it. *)
Definition __post_init__ (self : t) (priority_score : option Z) : t :=
  match priority_score with
  | None => with_priority_score self (calculate_priority self)
  | Some p => with_priority_score self p
  end.

Definition init (train_id train_number : string) (train_type : TrainType)
    (scheduled_arrival : datetime) (scheduled_departure : option datetime)
    (current_position : option string) (status : TrainStatus)
    (actual_arrival actual_departure : option datetime)
    (priority_score : option Z) : t :=
  __post_init__
    (mk train_id train_number train_type scheduled_arrival scheduled_departure
        current_position status actual_arrival actual_departure 0)
    priority_score.

Definition is_delayed (self : t) : bool :=
  match actual_arrival self with
  | Some a => bool_decide (a > scheduled_arrival self)
  | None => bool_decide (status self = DELAYED)
  end.

Definition delay_minutes (self : t) : Z :=
  match actual_arrival self with
  | Some a =>
      if is_delayed self
      then int_of_float (minutes_between a (scheduled_arrival self))
      else 0
  | None => 0
  end.

Definition expected_travel_time (self : t) : timedelta :=
  match train_type self with
  | EXPRESS => 15 * us_per_minute
  | PASSENGER => 20 * us_per_minute
  | FREIGHT => 30 * us_per_minute
  end.

Definition update_position (self : t) (new_position : string) : t :=
  let self := with_current_position self (Some new_position) in
  if decide (status self = SCHEDULED) then with_status self RUNNING else self.

Definition set_delay (self : t) (delay_minutes : Z) : outcome t :=
  if decide (delay_minutes > 0) then
    let self := with_status self DELAYED in
    match actual_arrival self with
    | None =>
        d ← timedelta_minutes delay_minutes;
        a ← datetime_add (scheduled_arrival self) d;
        Ret (with_actual_arrival self (Some a))
    | Some _ => Ret self
    end
  else Ret (with_status self RUNNING).

(** [scheduled_departure or (scheduled_arrival + expected_travel_time)],
    the occupancy end both the detector and the scheduler use. *)
Definition departure_or_expected (self : t) : outcome datetime :=
  match scheduled_departure self with
  | Some d => Ret d
  | None => datetime_add (scheduled_arrival self) (expected_travel_time self)
  end.

End Train.

(** ** models/section.py *)

Module TrackSegment.

Record t : Type := mk {
  segment_id : string;
  name : string;
  length_km : Q;
  capacity : Z;
  is_platform : bool;
  platform_capacity : Z;
  current_occupancy : list string
}.

(** [platform_capacity if is_platform else capacity] *)
Definition max_capacity (self : t) : Z :=
  if is_platform self then platform_capacity self else capacity self.

Definition is_available (self : t) : bool :=
  bool_decide (Z.of_nat (length (current_occupancy self)) < max_capacity self).

Definition add_train (self : t) (train_id : string) : t * bool :=
  if is_available self && negb (bool_decide (train_id ∈ current_occupancy self))
  then (mk (segment_id self) (name self) (length_km self) (capacity self)
           (is_platform self) (platform_capacity self)
           (current_occupancy self ++ [train_id]), true)
  else (self, false).

Definition occupancy_rate (self : t) : Q :=
if decide (max_capacity self > 0)
then (inject_Z (Z.of_nat (length (current_occupancy self))) / inject_Z (max_capacity self))%Q
else 0%Q.

Definition remove_train (self : t) (train_id : string) : t * bool :=
if bool_decide (train_id ∈ current_occupancy self)
then (mk (segment_id self) (name self) (length_km self) (capacity self)
         (is_platform self) (platform_capacity self)
         (remove_first train_id (current_occupancy self)), true)
else (self, false).

End TrackSegment.

Module Section.

Record t : Type := mk {
  section_id : string;
  name : string;
  track_segments : list TrackSegment.t;
  min_headway_minutes : Z
}.

(** [{seg.segment_id: seg for seg in track_segments}]: a later segment
    with the same id replaces an earlier one. *)
Definition _segment_lookup (self : t) : gmap string TrackSegment.t :=
  foldl (fun m seg => <[TrackSegment.segment_id seg := seg]> m) ∅
        (track_segments self).

Definition get_segment (self : t) (segment_id : string) : option TrackSegment.t :=
  _segment_lookup self !! segment_id.

Definition get_available_segments (self : t) : list TrackSegment.t :=
  List.filter TrackSegment.is_available (track_segments self).

Definition get_platform_segments (self : t) : list TrackSegment.t :=
  List.filter TrackSegment.is_platform (track_segments self).

Definition total_capacity (self : t) : Z :=
  foldr Z.add 0 (map TrackSegment.capacity (track_segments self)).

Definition current_occupancy (self : t) : Z :=
  foldr Z.add 0
    (map (fun seg => Z.of_nat (length (TrackSegment.current_occupancy seg)))
         (track_segments self)).

Definition utilization_rate (self : t) : Q :=
  if decide (total_capacity self > 0)
  then (inject_Z (current_occupancy self) / inject_Z (total_capacity self))%Q
  else 0%Q.

Definition can_accommodate_train (self : t) (segment_id : string) : bool :=
match get_segment self segment_id with
| Some segment => TrackSegment.is_available segment
| None => false
end.

(** The segment object [get_segment] returns is the last one of the list
    with that id (the segments of the list being distinct objects); a
    method that mutates it changes that element of the list.  The flag
    tells whether an element was found. *)
Fixpoint update_last (segment_id : string) (f : TrackSegment.t -> TrackSegment.t)
    (segments : list TrackSegment.t) : list TrackSegment.t * bool :=
match segments with
| [] => ([], false)
| seg :: rest =>
    let '(rest', found) := update_last segment_id f rest in
    if found then (seg :: rest', true)
    else if decide (TrackSegment.segment_id seg = segment_id)
         then (f seg :: rest', true)
         else (seg :: rest', false)
end.

Definition with_track_segments (self : t) (segments : list TrackSegment.t) : t :=
mk (section_id self) (name self) segments (min_headway_minutes self).

Definition assign_train_to_segment (self : t) (train_id segment_id : string) : t * bool :=
match get_segment self segment_id with
| Some segment =>
    (with_track_segments self
       (update_last segment_id (fun seg => (TrackSegment.add_train seg train_id).1)
                    (track_segments self)).1,
     (TrackSegment.add_train segment train_id).2)
| None => (self, false)
end.

Definition remove_train_from_segment (self : t) (train_id segment_id : string) : t * bool :=
match get_segment self segment_id with
| Some segment =>
    (with_track_segments self
       (update_last segment_id (fun seg => (TrackSegment.remove_train seg train_id).1)
                    (track_segments self)).1,
     (TrackSegment.remove_train segment train_id).2)
| None => (self, false)
end.

Definition find_train_position (self : t) (train_id : string) : option string :=
TrackSegment.segment_id
  <$> List.find (fun seg => bool_decide (train_id ∈ TrackSegment.current_occupancy seg))
                (track_segments self).

End Section.

(** ** Segments that share an occupancy list

    [current_occupancy] is a Python list.  [add_train] and
    [remove_train] change that list object in place and never rebind
    the field, so segments constructed on one list change together.
    The records above describe each segment by the value of its list,
    which is what the program does when every segment has a list of its
    own (the default: [__post_init__] gives a segment without a list a
    fresh one).  Here the list objects live in a heap, a finite map
    from locations to lists, and a segment refers to its list by
    location. *)

Definition loc : Type := nat.

Module TrackSegmentRef.

Record t : Type := mk {
  segment_id : string;
  name : string;
  length_km : Q;
  capacity : Z;
  is_platform : bool;
  platform_capacity : Z;
  current_occupancy : loc
}.

(** The list a segment refers to. *)
Definition occupancy (h : gmap loc (list string)) (self : t) : list string :=
  default [] (h !! current_occupancy self).

Definition max_capacity (self : t) : Z :=
  if is_platform self then platform_capacity self else capacity self.

Definition is_available (h : gmap loc (list string)) (self : t) : bool :=
  bool_decide (Z.of_nat (length (occupancy h self)) < max_capacity self).

(** [self.current_occupancy.append(train_id)] *)
Definition add_train (h : gmap loc (list string)) (self : t) (train_id : string) : gmap loc (list string) * bool :=
  if is_available h self && negb (bool_decide (train_id ∈ occupancy h self))
  then (<[current_occupancy self := occupancy h self ++ [train_id]]> h, true)
  else (h, false).

(** The segment with the present value of its list. *)
Definition snapshot (h : gmap loc (list string)) (self : t) : TrackSegment.t :=
  TrackSegment.mk (segment_id self) (name self) (length_km self) (capacity self)
                  (is_platform self) (platform_capacity self) (occupancy h self).

End TrackSegmentRef.

Module SectionRef.

Record t : Type := mk {
  section_id : string;
  name : string;
  track_segments : list TrackSegmentRef.t;
  min_headway_minutes : Z
}.

Definition _segment_lookup (self : t) : gmap string TrackSegmentRef.t :=
  foldl (fun m seg => <[TrackSegmentRef.segment_id seg := seg]> m) ∅
        (track_segments self).

Definition get_segment (self : t) (segment_id : string) : option TrackSegmentRef.t :=
  _segment_lookup self !! segment_id.

Definition current_occupancy (h : gmap loc (list string)) (self : t) : Z :=
  foldr Z.add 0
    (map (fun seg => Z.of_nat (length (TrackSegmentRef.occupancy h seg)))
         (track_segments self)).

Definition can_accommodate_train (h : gmap loc (list string)) (self : t) (segment_id : string) : bool :=
  match get_segment self segment_id with
  | Some segment => TrackSegmentRef.is_available h segment
  | None => false
  end.

Definition assign_train_to_segment (h : gmap loc (list string)) (self : t) (train_id segment_id : string)
    : gmap loc (list string) * bool :=
  match get_segment self segment_id with
  | Some segment => TrackSegmentRef.add_train h segment train_id
  | None => (h, false)
  end.

Definition find_train_position (h : gmap loc (list string)) (self : t) (train_id : string) : option string :=
  TrackSegmentRef.segment_id
    <$> List.find (fun seg => bool_decide (train_id ∈ TrackSegmentRef.occupancy h seg))
                  (track_segments self).

Definition snapshot (h : gmap loc (list string)) (self : t) : Section.t :=
  Section.mk (section_id self) (name self)
             (map (TrackSegmentRef.snapshot h) (track_segments self))
             (min_headway_minutes self).

End SectionRef.

(** ** models/conflict.py *)

Module Conflict.

Record t : Type := mk {
  conflict_type : ConflictType;
  train_ids : list string;
  segment_id : option string;
  scheduled_time : option datetime;
  severity : Z;
  is_resolved : bool;
  resolution_action : option string
}.

Definition affected_train_count (self : t) : Z :=
  Z.of_nat (length (train_ids self)).

Definition priority_weight (self : t) : Z :=
  severity self * 10 + affected_train_count self.

Definition with_train_ids (self : t) (ids : list string) : t :=
mk (conflict_type self) ids (segment_id self) (scheduled_time self) (severity self)
   (is_resolved self) (resolution_action self).

Definition add_train (self : t) (train_id : string) : t :=
if bool_decide (train_id ∈ train_ids self) then self
else with_train_ids self (train_ids self ++ [train_id]).

Definition remove_train (self : t) (train_id : string) : t :=
if bool_decide (train_id ∈ train_ids self)
then with_train_ids self (remove_first train_id (train_ids self))
else self.

(** [resolve(action)]; the time of resolution is not kept. *)
Definition resolve (self : t) (action : string) : t :=
mk (conflict_type self) (train_ids self) (segment_id self) (scheduled_time self)
   (severity self) true (Some action).

End Conflict.

(** ** optimization/conflict_detector.py *)

Module ConflictDetector.

(** One entry of a segment's schedule: [{'train', 'start', 'end'}]. *)
Record occupancy : Type := mk_occupancy {
  train : Train.t;
  start : datetime;
  end_ : datetime
}.

(** [segment_schedules[segment_id].append(entry)] on a dict that keeps
    its keys in insertion order. *)
Fixpoint schedule_append (schedules : list (string * list occupancy))
    (segment_id : string) (entry : occupancy) : list (string * list occupancy) :=
  match schedules with
  | [] => [(segment_id, [entry])]
  | (k, sched) :: rest =>
      if decide (k = segment_id) then (k, sched ++ [entry]) :: rest
      else (k, sched) :: schedule_append rest segment_id entry
  end.

(** The first loop of [_detect_track_conflicts]. *)
Definition collect_schedule (schedules : list (string * list occupancy))
    (tr : Train.t) : outcome (list (string * list occupancy)) :=
  if truthy (Train.current_position tr) then
    let segment_id := default "" (Train.current_position tr) in
    let start_time := Train.scheduled_arrival tr in
    end_time ← Train.departure_or_expected tr;
    Ret (schedule_append schedules segment_id (mk_occupancy tr start_time end_time))
  else Ret schedules.

(** The inner [for j] loop: trains join while they start before the
    running end of the cluster; the scan stops at the first that does
    not. *)
Fixpoint chain_overlap (overlapping_trains : list Train.t) (current_end : datetime)
    (rest : list occupancy) : list Train.t :=
  match rest with
  | [] => overlapping_trains
  | e :: rest' =>
      if decide (start e < current_end)
      then chain_overlap (overlapping_trains ++ [train e])
                         (Z.max current_end (end_ e)) rest'
      else overlapping_trains
  end.

(** The [for i] loop over one sorted schedule. *)
Fixpoint segment_conflicts (segment_id : string) (segment : TrackSegment.t)
    (schedule : list occupancy) : list Conflict.t :=
  match schedule with
  | [] => []
  | e :: rest =>
      let overlapping_trains := chain_overlap [train e] (end_ e) rest in
      let n := Z.of_nat (length overlapping_trains) in
      (if decide (n > TrackSegment.capacity segment)
       then [Conflict.mk SAME_TRACK (map Train.train_id overlapping_trains)
                         (Some segment_id) (Some (start e)) (Z.min 5 n) false None]
       else [])
      ++ segment_conflicts segment_id segment rest
  end.

Definition _detect_track_conflicts (section : Section.t) (trains : list Train.t)
    : outcome (list Conflict.t) :=
  segment_schedules ← for_each collect_schedule trains [];
  Ret (concat
         (map (fun '(segment_id, schedule) =>
                 match Section.get_segment section segment_id with
                 | None => []
                 | Some segment =>
                     segment_conflicts segment_id segment
                       (stable_sort (fun x y => bool_decide (start x <= start y)) schedule)
                 end)
              segment_schedules)).

(** For MVP: trains are on the same path if both have positions. *)
Definition _trains_on_same_path (train1 train2 : Train.t) : bool :=
  truthy (Train.current_position train1) && truthy (Train.current_position train2).

(** The body of the loop over consecutive trains. *)
Fixpoint headway_pairs (min_headway : timedelta) (trains : list Train.t)
    : outcome (list Conflict.t) :=
  match trains with
  | current_train :: ((next_train :: _) as rest) =>
      here ←
        (if _trains_on_same_path current_train next_train then
           current_departure ← Train.departure_or_expected current_train;
           let actual_headway := Train.scheduled_arrival next_train - current_departure in
           Ret (if decide (actual_headway < min_headway)
                then [Conflict.mk HEADWAY
                        [Train.train_id current_train; Train.train_id next_train]
                        None (Some (Train.scheduled_arrival next_train)) 3 false None]
                else [])
         else Ret []);
      later ← headway_pairs min_headway rest;
      Ret (here ++ later)
  | _ => Ret []
  end.

Definition _detect_headway_conflicts (section : Section.t) (trains : list Train.t)
    : outcome (list Conflict.t) :=
  min_headway ← timedelta_minutes (Section.min_headway_minutes section);
  headway_pairs min_headway trains.

Definition _detect_platform_conflicts (section : Section.t) (trains : list Train.t)
    : list Conflict.t :=
  concat
    (map (fun platform =>
            let platform_trains :=
              List.filter
                (fun tr => bool_decide (Train.current_position tr
                                        = Some (TrackSegment.segment_id platform)))
                trains in
            if decide (Z.of_nat (length platform_trains)
                       > TrackSegment.platform_capacity platform)
            then [Conflict.mk PLATFORM (map Train.train_id platform_trains)
                              (Some (TrackSegment.segment_id platform)) None 4 false None]
            else [])
         (Section.get_platform_segments section)).

Definition detect_conflicts (section : Section.t) (trains : list Train.t)
    : outcome (list Conflict.t) :=
  let sorted_trains :=
    stable_sort (fun x y => bool_decide (Train.scheduled_arrival x <= Train.scheduled_arrival y))
                trains in
  track ← _detect_track_conflicts section sorted_trains;
  headway ← _detect_headway_conflicts section sorted_trains;
  Ret (track ++ headway ++ _detect_platform_conflicts section sorted_trains).

(** [get_conflict_summary]: the counts, by key. *)
Record summary : Type := mk_summary {
  total_conflicts : nat;
  resolved_conflicts : nat;
  pending_conflicts : nat;
  high_severity : nat;
  medium_severity : nat;
  low_severity : nat;
  same_track_conflicts : nat;
  crossing_conflicts : nat;
  platform_conflicts : nat;
  headway_conflicts : nat
}.

Definition count_if (p : Conflict.t -> bool) (conflicts : list Conflict.t) : nat :=
  length (List.filter p conflicts).

Definition get_conflict_summary (conflicts : list Conflict.t) : summary :=
  let by_type ty := count_if (fun c => bool_decide (Conflict.conflict_type c = ty)) conflicts in
  mk_summary
    (length conflicts)
    (count_if Conflict.is_resolved conflicts)
    (count_if (fun c => negb (Conflict.is_resolved c)) conflicts)
    (count_if (fun c => bool_decide (Conflict.severity c >= 4)) conflicts)
    (count_if (fun c => bool_decide (Conflict.severity c = 3)) conflicts)
    (count_if (fun c => bool_decide (Conflict.severity c <= 2)) conflicts)
    (by_type SAME_TRACK) (by_type CROSSING) (by_type PLATFORM) (by_type HEADWAY).

(** What a conflict reported for [trains] on [section] looks like. *)
Definition reported_for (section : Section.t) (trains : list Train.t) (c : Conflict.t)
    : Prop :=
let n := Z.of_nat (length (Conflict.train_ids c)) in
let positioned_at sid :=
  Forall (fun id => exists tr,
                      tr ∈ trains /\ Train.train_id tr = id
                      /\ Train.current_position tr = Some sid)
         (Conflict.train_ids c) in
Conflict.is_resolved c = false
/\ 1 <= Conflict.severity c <= 5
/\ match Conflict.conflict_type c with
   | SAME_TRACK =>
       exists sid segment,
         Conflict.segment_id c = Some sid
         /\ Section.get_segment section sid = Some segment
         /\ n > TrackSegment.capacity segment
         /\ Conflict.severity c = Z.min 5 n
         /\ positioned_at sid
   | HEADWAY =>
       Conflict.segment_id c = None
       /\ Conflict.severity c = 3
       /\ exists a b,
            a ∈ trains /\ b ∈ trains
            /\ Conflict.train_ids c = [Train.train_id a; Train.train_id b]
            /\ Train.scheduled_arrival a <= Train.scheduled_arrival b
            /\ Conflict.scheduled_time c = Some (Train.scheduled_arrival b)
   | PLATFORM =>
       exists platform,
         platform ∈ Section.track_segments section
         /\ TrackSegment.is_platform platform = true
         /\ Conflict.segment_id c = Some (TrackSegment.segment_id platform)
         /\ n > TrackSegment.platform_capacity platform
         /\ Conflict.severity c = 4
         /\ positioned_at (TrackSegment.segment_id platform)
   | CROSSING => False
   end.

End ConflictDetector.

(** ** optimization/scheduler.py *)

Module TrainScheduler.

(** A reservation tuple [(start_time, end_time, train_id)]. *)
Definition reservation : Type := datetime * datetime * string.

(** The order of Python tuples: lexicographic, strings by code point. *)
Definition reservation_le (a b : reservation) : bool :=
  let '(s1, e1, i1) := a in
  let '(s2, e2, i2) := b in
  if decide (s1 < s2) then true
  else if decide (s2 < s1) then false
  else if decide (e1 < e2) then true
  else if decide (e2 < e1) then false
  else String.leb i1 i2.

(** The dict a successful slot search returns. *)
Record slot : Type := mk_slot {
  segment_id : string;
  arrival_time : datetime;
  departure_time : datetime
}.

Inductive recommendation : Type :=
| Delay (train_id : string) (delay_minutes : Z) (new_arrival : datetime) (segment_id : string)
| Proceed (train_id : string) (segment_id : option string)
          (priority_explanation : option string)
| Hold (train_id : string) (recommended_delay : Z).

Definition rec_train_id (r : recommendation) : string :=
  match r with
  | Delay i _ _ _ => i
  | Proceed i _ _ => i
  | Hold i _ => i
  end.

Definition action (r : recommendation) : string :=
  match r with
  | Delay _ _ _ _ => "delay"
  | Proceed _ _ _ => "proceed"
  | Hold _ _ => "hold"
  end.

Definition reason (r : recommendation) : string :=
  match r with
  | Delay _ _ _ _ => "Priority-based rescheduling to resolve conflicts"
  | Proceed _ _ _ => "No conflicts detected"
  | Hold _ _ => "No available slots found"
  end.

(** The dict [optimize_schedule] returns (without its timestamp). *)
Record result : Type := mk_result {
  optimized_trains : list Train.t;
  recommendations : list recommendation;
  total_delay_minutes : Q;
  throughput_improvement : Q
}.

(** The body of the loop of [_slot_is_available]; [or] evaluates its
    second operand only when the first is false. *)
Fixpoint slot_clear (min_headway : timedelta) (start_time end_time : datetime)
    (reservations : list reservation) : outcome bool :=
  match reservations with
  | [] => Ret true
  | (res_start, res_end, _) :: rest =>
      end_h ← datetime_add end_time min_headway;
      separated ←
        (if decide (end_h <= res_start) then Ret true
         else res_h ← datetime_add res_end min_headway;
              Ret (bool_decide (start_time >= res_h)));
      if separated : bool then slot_clear min_headway start_time end_time rest
      else Ret false
  end.

Definition _slot_is_available (section : Section.t) (start_time end_time : datetime)
    (reservations : list reservation) : outcome bool :=
  min_headway ← timedelta_minutes (Section.min_headway_minutes section);
  slot_clear min_headway start_time end_time reservations.

Definition _get_best_segment_for_train (section : Section.t) (tr : Train.t)
    : option string :=
  let available_segments := Section.get_available_segments section in
  match available_segments with
  | [] => None
  | first :: _ =>
      let fallback := Some (TrackSegment.segment_id first) in
      match Train.train_type tr with
      | EXPRESS =>
          match List.filter (fun s => negb (TrackSegment.is_platform s)) available_segments with
          | s :: _ => Some (TrackSegment.segment_id s)
          | [] => fallback
          end
      | PASSENGER =>
          match List.filter TrackSegment.is_platform available_segments with
          | s :: _ => Some (TrackSegment.segment_id s)
          | [] => fallback
          end
      | FREIGHT => fallback
      end
  end.

(** The [while search_time < max_search_time] loop.  One unit of fuel
    per iteration. *)
Fixpoint search_slot (fuel : nat) (section : Section.t) (tr : Train.t)
    (preferred_segment : string) (existing_reservations : list reservation)
    (min_headway : timedelta) (max_search_time search_time : datetime)
    : outcome (option slot) :=
  if decide (search_time < max_search_time) then
    match fuel with
    | O => Diverge
    | S fuel' =>
        slot_end ← datetime_add search_time (Train.expected_travel_time tr);
        free ← _slot_is_available section search_time slot_end existing_reservations;
        if free : bool then Ret (Some (mk_slot preferred_segment search_time slot_end))
        else
          next ← datetime_add search_time min_headway;
          search_slot fuel' section tr preferred_segment existing_reservations
                      min_headway max_search_time next
    end
  else Ret None.

(** [train.current_position or self._get_best_segment_for_train(train)] *)
Definition preferred_segment_of (section : Section.t) (tr : Train.t) : option string :=
  if truthy (Train.current_position tr) then Train.current_position tr
  else _get_best_segment_for_train section tr.

(** [reservations.get(segment_id, [])]: the list stored in the table,
    or a fresh empty list that is not stored. *)
Definition reservations_on (reservations : gmap string (list reservation))
    (segment_id : string) : list reservation :=
  default [] (reservations !! segment_id).

(** The table after [reservations.get(segment_id, []).sort()]: a list
    stored under [segment_id] is sorted in place. *)
Definition sort_in_place (reservations : gmap string (list reservation))
    (segment_id : string) : gmap string (list reservation) :=
  match reservations !! segment_id with
  | Some l => <[segment_id := stable_sort reservation_le l]> reservations
  | None => reservations
  end.

(** [_find_optimal_slot] also sorts, in place, the reservation list it
    reads from the table, so the table is returned with the slot. *)
Definition _find_optimal_slot (fuel : nat) (section : Section.t) (tr : Train.t)
    (reservations : gmap string (list reservation))
    : outcome (option slot * gmap string (list reservation)) :=
  let preferred := preferred_segment_of section tr in
  if truthy preferred then
    let preferred_segment := default "" preferred in
    match Section.get_segment section preferred_segment with
    | None => Ret (None, reservations)
    | Some _ =>
        let existing_reservations :=
          stable_sort reservation_le (reservations_on reservations preferred_segment) in
        let reservations := sort_in_place reservations preferred_segment in
        let desired_start := Train.scheduled_arrival tr in
        desired_end ← Train.departure_or_expected tr;
        free ← _slot_is_available section desired_start desired_end existing_reservations;
        if free : bool
        then Ret (Some (mk_slot preferred_segment desired_start desired_end), reservations)
        else
          min_headway ← timedelta_minutes (Section.min_headway_minutes section);
          max_search_time ← datetime_add desired_start (120 * us_per_minute);
          found ← search_slot fuel section tr preferred_segment existing_reservations
                              min_headway max_search_time desired_start;
          Ret (found, reservations)
    end
  else Ret (None, reservations).

Definition _create_optimized_train (original_train : Train.t) (new_schedule : slot)
    : outcome Train.t :=
  let optimized_train :=
    Train.init (Train.train_id original_train) (Train.train_number original_train)
               (Train.train_type original_train)
               (arrival_time new_schedule) (Some (departure_time new_schedule))
               (Some (segment_id new_schedule))
               (Train.status original_train)
               (Train.actual_arrival original_train)
               (Train.actual_departure original_train)
               (Some (Train.priority_score original_train)) in
  let delay_minutes :=
    minutes_between (arrival_time new_schedule) (Train.scheduled_arrival original_train) in
  if Qlt_le_dec 0 delay_minutes
  then Train.set_delay optimized_train (int_of_float delay_minutes)
  else Ret optimized_train.

(** The local variables of [optimize_schedule] that its loop updates. *)
Record loop_state : Type := mk_state {
  st_optimized_trains : list Train.t;
  st_recommendations : list recommendation;
  st_total_delay : Q;
  segment_reservations : gmap string (list reservation)
}.

(** The body of [for train in sorted_trains]. *)
Definition schedule_train (fuel : nat) (section : Section.t)
    (st : loop_state) (tr : Train.t) : outcome loop_state :=
  let original_arrival := Train.scheduled_arrival tr in
  '(new_schedule, reservations) ←
    _find_optimal_slot fuel section tr (segment_reservations st);
  match new_schedule with
  | Some new_schedule =>
      optimized_train ← _create_optimized_train tr new_schedule;
      let segment_id := segment_id new_schedule in
      let reservations :=
        <[segment_id :=
            reservations_on reservations segment_id
            ++ [(arrival_time new_schedule, departure_time new_schedule,
                 Train.train_id tr)]]> reservations in
      let delay := minutes_between (arrival_time new_schedule) original_arrival in
      if Qlt_le_dec 0 delay then
        Ret (mk_state
               (st_optimized_trains st ++ [optimized_train])
               (st_recommendations st
                ++ [Delay (Train.train_id tr) (int_of_float delay)
                          (arrival_time new_schedule) segment_id])
               (st_total_delay st + delay)%Q
               reservations)
      else
        Ret (mk_state
               (st_optimized_trains st ++ [optimized_train])
               (st_recommendations st ++ [Proceed (Train.train_id tr) (Some segment_id) None])
               (st_total_delay st)
               reservations)
  | None =>
      Ret (mk_state
             (st_optimized_trains st ++ [tr])
             (st_recommendations st ++ [Hold (Train.train_id tr) 15])
             (st_total_delay st + 15)%Q
             reservations)
  end.

Definition count_delayed (trains : list Train.t) : Z :=
  Z.of_nat (length (List.filter Train.is_delayed trains)).

Definition _calculate_throughput_improvement
    (original_trains optimized_trains : list Train.t) : Q :=
  let original_conflicts := count_delayed original_trains in
  let optimized_conflicts := count_delayed optimized_trains in
  if decide (original_conflicts = 0) then 0%Q
  else
    let improvement :=
      (inject_Z (original_conflicts - optimized_conflicts)
       / inject_Z original_conflicts * 100)%Q in
    if Qlt_le_dec 0 improvement then improvement else 0%Q.

(** [sorted(trains, key=lambda t: t.priority_score, reverse=True)] *)
Definition sort_by_priority (trains : list Train.t) : list Train.t :=
  stable_sort (fun x y => bool_decide (Train.priority_score y <= Train.priority_score x))
              trains.

Definition initial_state : loop_state := mk_state [] [] 0%Q ∅.

(** The loop of [optimize_schedule], with its final local variables. *)
Definition schedule_all (fuel : nat) (section : Section.t) (trains : list Train.t)
    : outcome loop_state :=
  for_each (schedule_train fuel section) (sort_by_priority trains) initial_state.

Definition optimize_schedule (fuel : nat) (section : Section.t)
    (trains : list Train.t) (conflicts : list Conflict.t) : outcome result :=
  st ← schedule_all fuel section trains;
  Ret (mk_result
         (st_optimized_trains st)
         (st_recommendations st)
         (st_total_delay st)
         (_calculate_throughput_improvement trains (st_optimized_trains st))).

(** *** Occupancy of a segment by the accepted slots

    The vocabulary of the capacity property: which entries of the
    result were placed by a successful slot search, and the intervals
    they occupy. *)

(** [rec['action'] == 'hold'] *)
Definition held (r : recommendation) : bool :=
  match r with Hold _ _ => true | _ => false end.

(** Two intervals [(start, end)] kept apart by the headway [h]. *)
Definition separated (h : timedelta) (a b : datetime * datetime) : Prop :=
  a.2 + h <= b.1 \/ b.2 + h <= a.1.

(** The interval an optimized train occupies on segment [sid], when it
    was not returned through the hold path. *)
Definition accepted_interval (sid : string) (p : Train.t * recommendation)
    : option (datetime * datetime) :=
  let '(ot, rec) := p in
  if held rec then None
  else if bool_decide (Train.current_position ot = Some sid) then
    match Train.scheduled_departure ot with
    | Some d => Some (Train.scheduled_arrival ot, d)
    | None => None
    end
  else None.

Definition accepted_intervals (optimized : list Train.t) (recs : list recommendation)
    (sid : string) : list (datetime * datetime) :=
  omap (accepted_interval sid) (zip optimized recs).

(** How many accepted occupancy intervals [[arrival, departure]] on
    [sid] contain the instant [t]; both ends belong to the interval. *)
Definition occupancy_count (r : result) (sid : string) (t : datetime) : nat :=
  length (List.filter (fun i : datetime * datetime => bool_decide (i.1 <= t <= i.2))
                      (accepted_intervals (optimized_trains r) (recommendations r) sid)).

(** How an entry of the result (an optimized train and its
    recommendation) relates to the input train it was made from. *)
Definition entry_of (section : Section.t) (tr : Train.t)
    (entry : Train.t * recommendation) : Prop :=
let '(ot, rec) := entry in
Train.train_id ot = Train.train_id tr
/\ rec_train_id rec = Train.train_id tr
/\ match rec with
   | Delay _ d new_arrival seg =>
       1 <= d < 120
       /\ (Section.min_headway_minutes section | d)
       /\ new_arrival = Train.scheduled_arrival tr + d * us_per_minute
       /\ Train.scheduled_arrival ot = new_arrival
       /\ Train.current_position ot = Some seg
       /\ Train.status ot = DELAYED
   | Proceed _ seg explanation =>
       seg = Train.current_position ot
       /\ explanation = None
       /\ Train.scheduled_arrival ot <= Train.scheduled_arrival tr
       /\ Train.status ot = Train.status tr
   | Hold _ d => d = 15 /\ ot = tr
   end.

Definition generate_priority_explanation (tr : Train.t) : string :=
  let base_priority := int_of_TrainType (Train.train_type tr) in
  "Base priority: " +:+ TrainType_name (Train.train_type tr) +:+ " = " +:+ pretty base_priority
  +:+ (if Train.is_delayed tr then "; Delay penalty: -10 points" else "")
  +:+ "; Final priority score: " +:+ pretty (Train.priority_score tr).

End TrainScheduler.

(** ** optimization/optimizer.py *)

Module OptimizationEngine.

(** The four groups of [_calculate_metrics], flattened. *)
Record metrics : Type := mk_metrics {
  total_trains : nat;
  delayed_trains : nat;
  on_time_percentage : Q;
  express_trains : nat;
  passenger_trains : nat;
  freight_trains : nat;
  total_conflicts : nat;
  resolved_conflicts : nat;
  resolution_rate : Q;
  utilization_rate : Q;
  available_capacity : Z;
  total_capacity : Z;
  proceed_recommendations : nat;
  delay_recommendations : nat;
  hold_recommendations : nat;
  total_delay_minutes : Q;
  throughput_improvement : Q
}.

(** The dict [optimize] returns: the two shapes it can have. *)
Inductive result : Type :=
| Success (timestamp : datetime) (section_id : string) (trains_analyzed : nat)
          (conflicts : list Conflict.t) (conflict_summary : ConflictDetector.summary)
          (optimization_result : TrainScheduler.result) (metrics_ : metrics)
          (processing_time_ms : Z)
          (recommendations : list TrainScheduler.recommendation)
| Error (timestamp : datetime) (section_id : string) (error_message : string)
        (processing_time_ms : Z).

Definition status (r : result) : string :=
  match r with
  | Success _ _ _ _ _ _ _ _ _ => "success"
  | Error _ _ _ _ => "error"
  end.

Definition error_message (r : result) : option string :=
  match r with
  | Success _ _ _ _ _ _ _ _ _ => None
  | Error _ _ msg _ => Some msg
  end.

Definition processing_time_ms (r : result) : Z :=
  match r with
  | Success _ _ _ _ _ _ _ ms _ => ms
  | Error _ _ _ ms => ms
  end.

Definition recommendations (r : result) : list TrainScheduler.recommendation :=
  match r with
  | Success _ _ _ _ _ _ _ _ recs => recs
  | Error _ _ _ _ => []
  end.

Definition optimization_result (r : result) : option TrainScheduler.result :=
  match r with
  | Success _ _ _ _ _ o _ _ _ => Some o
  | Error _ _ _ _ => None
  end.

Record t : Type := mk {
  section : Section.t;
  optimization_history : list result
}.

Definition init (section : Section.t) : t := mk section [].

(** [int((now - start_time).total_seconds() * 1000)], with the exact
    product where the code rounds it. *)
Definition elapsed_ms (start_time now : datetime) : Z :=
  int_of_float (((now - start_time) # 1000000) * 1000)%Q.

Definition _generate_default_recommendations (trains : list Train.t)
    : TrainScheduler.result :=
  TrainScheduler.mk_result
    trains
    (map (fun tr =>
            TrainScheduler.Proceed (Train.train_id tr) (Train.current_position tr)
              (Some (TrainScheduler.generate_priority_explanation tr)))
         trains)
    0%Q 0%Q.

Definition percentage (part whole : nat) : Q :=
  if decide (0 < whole)%nat
  then (inject_Z (Z.of_nat part) / inject_Z (Z.of_nat whole) * 100)%Q
  else 100%Q.

Definition count_action (a : string) (recs : list TrainScheduler.recommendation) : nat :=
  length (List.filter (fun r => bool_decide (TrainScheduler.action r = a)) recs).

Definition count_type (ty : TrainType) (trains : list Train.t) : nat :=
  length (List.filter (fun tr => bool_decide (Train.train_type tr = ty)) trains).

Definition _calculate_metrics (self : t) (trains : list Train.t)
    (conflicts : list Conflict.t) (optimization_result : TrainScheduler.result)
    : metrics :=
  let total_trains := length trains in
  let delayed_trains := length (List.filter Train.is_delayed trains) in
  let total_conflicts := length conflicts in
  let resolved_conflicts := length (List.filter Conflict.is_resolved conflicts) in
  let recs := TrainScheduler.recommendations optimization_result in
  mk_metrics
    total_trains delayed_trains
    (percentage (total_trains - delayed_trains) total_trains)
    (count_type EXPRESS trains) (count_type PASSENGER trains) (count_type FREIGHT trains)
    total_conflicts resolved_conflicts
    (percentage resolved_conflicts total_conflicts)
    (Section.utilization_rate (section self))
    (Section.total_capacity (section self) - Section.current_occupancy (section self))
    (Section.total_capacity (section self))
    (count_action "proceed" recs) (count_action "delay" recs) (count_action "hold" recs)
    (TrainScheduler.total_delay_minutes optimization_result)
    (TrainScheduler.throughput_improvement optimization_result).

(** [history.append(result)], then keep the last 100. *)
Definition store (history : list result) (r : result) : list result :=
  let history := history ++ [r] in
  if decide (100 < length history)%nat
  then drop (length history - 100) history
  else history.

Section Collaborators.

(** [self.conflict_detector.detect_conflicts] and
    [self.scheduler.optimize_schedule], the two calls [optimize]
    makes on the objects built by [__init__]. *)
Variable detect_conflicts : list Train.t -> outcome (list Conflict.t).
Variable optimize_schedule :
  list Train.t -> list Conflict.t -> outcome TrainScheduler.result.

(** The body of the [try] block. *)
Definition try_optimize (self : t) (start_time now : datetime)
    (trains : list Train.t) : outcome (result * t) :=
  conflicts ← detect_conflicts trains;
  let conflict_summary := ConflictDetector.get_conflict_summary conflicts in
  optimization_result ←
    (match conflicts with
     | _ :: _ => optimize_schedule trains conflicts
     | [] => Ret (_generate_default_recommendations trains)
     end);
  let metrics := _calculate_metrics self trains conflicts optimization_result in
  let result :=
    Success start_time (Section.section_id (section self)) (length trains)
            conflicts conflict_summary optimization_result metrics
            (elapsed_ms start_time now)
            (TrainScheduler.recommendations optimization_result) in
  Ret (result, mk (section self) (store (optimization_history self) result)).

(** [try: ... except Exception as e: ...] *)
Definition optimize_with (self : t) (start_time now : datetime)
    (trains : list Train.t) : outcome (result * t) :=
  match try_optimize self start_time now trains with
  | Ret r => Ret r
  | Raise e =>
      Ret (Error start_time (Section.section_id (section self)) (str_exn e)
                 (elapsed_ms start_time now),
           self)
  | Diverge => Diverge
  end.

End Collaborators.

(** [optimize] on an engine built by [__init__]: detector and scheduler
    share the engine's section.  [start_time] and [now] are the two
    readings of the clock. *)
Definition optimize (fuel : nat) (self : t) (start_time now : datetime)
    (trains : list Train.t) : outcome (result * t) :=
  optimize_with (ConflictDetector.detect_conflicts (section self))
                (TrainScheduler.optimize_schedule fuel (section self))
                self start_time now trains.

Definition timestamp (r : result) : datetime :=
match r with
| Success ts _ _ _ _ _ _ _ _ => ts
| Error ts _ _ _ => ts
end.

(** [self.optimization_history[-limit:]]: the last [limit] entries for a
    positive [limit]; the slice [[-0:]] is the whole list, and a
    negative [limit] drops that many entries from the front. *)
Definition get_optimization_history (self : t) (limit : Z) : list result :=
let history := optimization_history self in
if decide (limit > 0) then drop (length history - Z.to_nat limit) history
else drop (Z.to_nat (- limit)) history.

(** The two figures of [get_section_status] that depend on the history:
    ['optimization_count'] and ['last_optimization']. *)
Definition optimization_count (self : t) : nat := length (optimization_history self).

Definition last_optimization (self : t) : option datetime :=
timestamp <$> last (optimization_history self).

(** The engines a caller can hold: the one [__init__] builds, and those
    left by calls of [optimize] that returned. *)
Inductive reachable (sec : Section.t) : t -> Prop :=
| reachable_init : reachable sec (init sec)
| reachable_optimize (fuel : nat) (self self' : t) (start_time now : datetime)
    (trains : list Train.t) (r : result) :
    reachable sec self ->
    optimize fuel self start_time now trains = Ret (r, self') ->
    reachable sec self'.

End OptimizationEngine.

(** ** interface/data_service.py *)

Module DataService.

(** [for x in xs: f(x)] over objects mutated in place, collecting the
    objects after the call; it stops at the first exception. *)
Fixpoint map_each {A B : Type} (f : A -> outcome B) (xs : list A) : outcome (list B) :=
match xs with
| [] => Ret []
| x :: xs' => y ← f x; ys ← map_each f xs'; Ret (y :: ys)
end.

(** [apply_modifications]: [train_delays] is the dict found under
    ['train_delays'], empty when the key is absent. *)
Definition apply_modifications (trains : list Train.t) (train_delays : gmap string Z)
    : outcome (list Train.t) :=
map_each (fun tr =>
            match train_delays !! Train.train_id tr with
            | Some delay_minutes => Train.set_delay tr delay_minutes
            | None => Ret tr
            end)
         trains.

Definition _copy_train (tr : Train.t) : Train.t :=
Train.init (Train.train_id tr) (Train.train_number tr) (Train.train_type tr)
           (Train.scheduled_arrival tr) (Train.scheduled_departure tr)
           (Train.current_position tr) (Train.status tr)
           (Train.actual_arrival tr) (Train.actual_departure tr)
           (Some (Train.priority_score tr)).

End DataService.

(** ** Concrete trains and sections used to exercise the definitions *)

Module Examples.

(** 2024-01-01T00:00:00 is day 738886 of the proleptic calendar. *)
Definition midnight : datetime := 738885 * us_per_day.

Definition at_minute (m : Z) : datetime := midnight + m * us_per_minute.

Definition track (segment_id : string) (capacity : Z) : TrackSegment.t :=
  TrackSegment.mk segment_id segment_id 1%Q capacity false 1 [].

Definition section_with (segments : list TrackSegment.t) (min_headway_minutes : Z)
    : Section.t :=
  Section.mk "SEC1" "Main line" segments min_headway_minutes.

(** A train built without a priority score, status SCHEDULED. *)
Definition train (train_id : string) (ty : TrainType) (arrival : Z)
    (departure : option Z) (position : option string) : Train.t :=
  Train.init train_id train_id ty (at_minute arrival)
             (at_minute <$> departure) position SCHEDULED None None None.

Definition freight_on_time : Train.t :=
  train "T1" FREIGHT 0 (Some 10) (Some "S1").

Definition two_tracks : Section.t :=
  section_with [track "S1" 1; track "S2" 1] 5.

(** An express due at the last representable instant, with no
    departure time: its expected departure is out of range. *)
Definition last_express : Train.t :=
  Train.init "T9" "T9" EXPRESS datetime_max None (Some "S1") SCHEDULED None None None.

(** Three trains on one track, minutes 0-10, 3-12 and 3-(3+20). *)
Definition crowded : list Train.t :=
  [train "F" FREIGHT 0 (Some 10) (Some "S1");
   train "E" EXPRESS 3 (Some 12) (Some "S1");
   train "P" PASSENGER 3 None (Some "S1")].

(** One track and a minimum headway of zero minutes. *)
Definition no_headway : Section.t := section_with [track "S1" 1] 0.

(** An express at minutes 0-10 and a freight at minutes 5-15, both on
    track S1. *)
Definition express_first : Train.t := train "E" EXPRESS 0 (Some 10) (Some "S1").
Definition freight_behind : Train.t := train "F" FREIGHT 5 (Some 15) (Some "S1").
Definition overlapping_pair : list Train.t := [express_first; freight_behind].

(** A section whose only track has capacity 0. *)
Definition closed_track : Section.t := section_with [track "S1" 0] 5.



Definition all_morning : Train.t := train "A" EXPRESS 0 (Some 300) (Some "S1").

(** A freight that arrived a minute and a half after its time. *)
Definition ninety_seconds_late : Train.t :=
  Train.init "T3" "T3" FREIGHT (at_minute 0) (Some (at_minute 10)) (Some "S1") RUNNING
             (Some (at_minute 0 + 90000000)) None None.

(** Two tracks on the list objects 0 and 1, and two tracks that were
    built on the one list object 0. *)
Definition track_at (segment_id : string) (capacity : Z) (l : loc) : TrackSegmentRef.t :=
  TrackSegmentRef.mk segment_id segment_id 1%Q capacity false 1 l.

Definition own_lists : SectionRef.t :=
  SectionRef.mk "SEC1" "Main line" [track_at "S1" 1 0%nat; track_at "S2" 1 1%nat] 5.

Definition shared_list : SectionRef.t :=
  SectionRef.mk "SEC1" "Main line" [track_at "S1" 1 0%nat; track_at "S2" 1 0%nat] 5.

(** Three trains far apart in time, on two tracks. *)
Definition spaced : list Train.t :=
  [train "A" FREIGHT 0 (Some 10) (Some "S1");
   train "B" EXPRESS 20 (Some 30) (Some "S2");
   train "C" PASSENGER 40 (Some 50) (Some "S1")].

End Examples.

(** * Properties *)

(** ** Priority score *)

(** C3: a train built without a priority score gets 100 times the rank
    of its type (FREIGHT 1, PASSENGER 2, EXPRESS 3), minus 10 exactly
    when its status is DELAYED; so an on-time freight scores 100, an
    on-time passenger 200 and a delayed express 290. *)
Theorem priority_score_computed :
  (forall id num ty arr dep pos st aa ad,
     Train.priority_score (Train.init id num ty arr dep pos st aa ad None)
     = 100 * match ty with FREIGHT => 1 | PASSENGER => 2 | EXPRESS => 3 end
       - (if decide (st = DELAYED) then 10 else 0))
  /\ (forall id num arr dep pos aa ad,
        Train.priority_score
          (Train.init id num FREIGHT arr dep pos SCHEDULED aa ad None) = 100
        /\ Train.priority_score
             (Train.init id num PASSENGER arr dep pos RUNNING aa ad None) = 200
        /\ Train.priority_score
             (Train.init id num EXPRESS arr dep pos DELAYED aa ad None) = 290).
Proof.
  split.
  - intros id num ty arr dep pos st aa ad.
    unfold Train.init, Train.__post_init__, Train.calculate_priority; simpl.
    destruct ty; simpl; destruct (decide (st = DELAYED)); lia.
  - intros; repeat split; reflexivity.
Qed.

Lemma set_delay_fields (tr tr' : Train.t) (d : Z) :
  Train.set_delay tr d = Ret tr' ->
  Train.priority_score tr' = Train.priority_score tr
  /\ Train.status tr' = (if decide (d > 0) then DELAYED else RUNNING)
  /\ Train.train_id tr' = Train.train_id tr
  /\ Train.scheduled_arrival tr' = Train.scheduled_arrival tr
  /\ Train.scheduled_departure tr' = Train.scheduled_departure tr
  /\ Train.current_position tr' = Train.current_position tr.
Proof.
  unfold Train.set_delay. case_decide.
  - destruct (Train.actual_arrival (Train.with_status tr DELAYED)) eqn:Ha.
    + intros [= <-]. by repeat split.
    + destruct (timedelta_minutes d) as [td| |]; simpl; try discriminate.
      destruct (datetime_add _ td) as [a| |]; simpl; try discriminate.
      intros [= <-]. by repeat split.
  - intros [= <-]. by repeat split.
Qed.

(** What [set_delay] does to the score, for every train: the score
    stays what the constructor made it (the supplied value, or else the
    value computed from the status at that time), while the status
    becomes DELAYED or RUNNING. *)
Theorem priority_score_fixed_at_construction
    id num ty arr dep pos st aa ad (supplied : option Z) (d : Z) (tr' : Train.t) :
  Train.set_delay (Train.init id num ty arr dep pos st aa ad supplied) d = Ret tr' ->
  Train.priority_score tr'
  = match supplied with
    | Some p => p
    | None => 100 * int_of_TrainType ty - (if decide (st = DELAYED) then 10 else 0)
    end
  /\ Train.status tr' = (if decide (d > 0) then DELAYED else RUNNING).
Proof.
  intros H. apply set_delay_fields in H as (Hp & Hs & _).
  split; [|exact Hs]. rewrite Hp.
  destruct supplied; simpl; [reflexivity|].
  unfold Train.calculate_priority; simpl. destruct ty; simpl; destruct (decide (st = DELAYED)); lia.
Qed.

Lemma priority_score_fixed_at_construction_witness :
  exists tr',
    Train.set_delay Examples.freight_on_time 10 = Ret tr'
    /\ Train.priority_score tr' = 100
    /\ Train.status tr' = DELAYED.
Proof.
  destruct (Train.set_delay Examples.freight_on_time 10) as [tr'| |] eqn:E;
    try (vm_compute in E; discriminate).
  exists tr'. split; [reflexivity|].
  exact (priority_score_fixed_at_construction
           "T1" "T1" FREIGHT (Examples.at_minute 0) (Some (Examples.at_minute 10))
           (Some "S1") SCHEDULED None None None 10 tr' E).
Defined.

(** C4: the code misses the recomputation the claim asks for.  A
    freight built on time without a score has score 100.  After
    [set_delay 10] its status is DELAYED and it reports itself delayed;
    [calculate_priority] now gives 90, but the stored score is still
    100.  The explanation the scheduler writes for this train names the
    delay penalty of 10 points and, next to it, a final score that does
    not contain it. *)
Theorem priority_score_not_recomputed :
  exists tr',
    Train.set_delay Examples.freight_on_time 10 = Ret tr'
    /\ Train.status Examples.freight_on_time = SCHEDULED
    /\ Train.priority_score Examples.freight_on_time = 100
    /\ Train.status tr' = DELAYED
    /\ Train.is_delayed tr' = true
    /\ Train.priority_score tr' = 100
    /\ Train.calculate_priority tr' = 90
    /\ Train.priority_score tr' <> Train.calculate_priority tr'
    /\ TrainScheduler.generate_priority_explanation tr'
       = "Base priority: FREIGHT = 1; Delay penalty: -10 points; Final priority score: 100".
Proof.
  eexists. split; [vm_compute; reflexivity|].
  repeat split; try reflexivity; vm_compute; (reflexivity || discriminate).
Qed.

(** ** Outcomes and loops *)

Lemma bind_Ret_inv {A B : Type} (m : outcome A) (f : A -> outcome B) (b : B) :
  (a ← m; f a) = Ret b -> exists a, m = Ret a /\ f a = Ret b.
Proof. destruct m as [a| |]; simpl; try discriminate. eauto. Qed.

Lemma bind_Raise_inv {A B : Type} (m : outcome A) (f : A -> outcome B) (e : exn) :
  (a ← m; f a) = Raise e -> m = Raise e \/ exists a, m = Ret a /\ f a = Raise e.
Proof.
  destruct m as [a| |]; simpl; try discriminate; intros H.
  - right. eauto.
  - left. congruence.
Qed.

(** A loop invariant for [for_each]: it may mention the elements
    already processed. *)
Lemma for_each_invariant {A S : Type} (body : S -> A -> outcome S)
    (I : list A -> S -> Prop) (xs : list A) (acc0 acc' : S) :
  I [] acc0 ->
  (forall done x acc acc1,
     I done acc -> body acc x = Ret acc1 -> I (done ++ [x]) acc1) ->
  for_each body xs acc0 = Ret acc' ->
  I xs acc'.
Proof.
  intros H0 Hstep.
  assert (Hgen : forall done acc,
             I done acc -> for_each body xs acc = Ret acc' -> I (done ++ xs) acc').
  { induction xs as [|x xs IH]; intros done acc Hacc Hrun; simpl in Hrun.
    - injection Hrun as <-. by rewrite app_nil_r.
    - apply bind_Ret_inv in Hrun as (acc1 & Hb & Hrun).
      replace (done ++ x :: xs) with ((done ++ [x]) ++ xs)
        by (by rewrite <- app_assoc).
      eapply IH; eauto. }
  exact (Hgen [] acc0 H0).
Qed.

(** ** The stable sort *)

Section StableSort.

Context {A : Type} (le : A -> A -> bool).

Lemma insert_by_Permutation (x : A) (l : list A) :
  Permutation (insert_by le x l) (x :: l).
Proof.
  induction l as [|y l IH]; simpl; [reflexivity|].
  destruct (le x y); [reflexivity|].
  rewrite IH. apply perm_swap.
Qed.

Lemma stable_sort_Permutation (l : list A) :
  Permutation (stable_sort le l) l.
Proof.
  induction l as [|x l IH]; simpl; [reflexivity|].
  rewrite insert_by_Permutation. by constructor.
Qed.

Hypothesis le_total : forall x y, le x y = true \/ le y x = true.
Hypothesis le_trans : forall x y z, le x y = true -> le y z = true -> le x z = true.

Lemma insert_by_sorted (x : A) (l : list A) :
  StronglySorted (fun a b => le a b = true) l ->
  StronglySorted (fun a b => le a b = true) (insert_by le x l).
Proof.
  induction 1 as [|y l Hs IH Hy]; simpl.
  - repeat constructor.
  - destruct (le x y) eqn:Hxy.
    + constructor; [by constructor|].
      constructor; [exact Hxy|].
      eapply Forall_impl; [exact Hy|]. intros z Hz. simpl in Hz. eauto.
    + constructor; [exact IH|].
      eapply Permutation_Forall; [symmetry; apply insert_by_Permutation|].
      constructor; [|exact Hy].
      destruct (le_total x y) as [H|H]; congruence.
Qed.

Lemma stable_sort_sorted (l : list A) :
  StronglySorted (fun a b => le a b = true) (stable_sort le l).
Proof.
  induction l as [|x l IH]; simpl; [constructor|].
  by apply insert_by_sorted.
Qed.

End StableSort.

(** Elements that the order does not separate keep their input order:
    [p] picks a class of elements any of which may stay in front of any
    other. *)
Lemma insert_by_filter {A : Type} (le : A -> A -> bool) (p : A -> bool)
    (x : A) (l : list A) :
  (forall a b, p a = true -> p b = true -> le a b = true) ->
  List.filter p (insert_by le x l) = List.filter p (x :: l).
Proof.
  intros Hp. induction l as [|y l IH]; simpl; [reflexivity|].
  destruct (le x y) eqn:Hxy; [reflexivity|].
  simpl. rewrite IH. simpl.
  destruct (p x) eqn:Hx, (p y) eqn:Hy; try reflexivity.
  rewrite (Hp x y Hx Hy) in Hxy. discriminate.
Qed.

Lemma stable_sort_filter {A : Type} (le : A -> A -> bool) (p : A -> bool)
    (l : list A) :
  (forall a b, p a = true -> p b = true -> le a b = true) ->
  List.filter p (stable_sort le l) = List.filter p l.
Proof.
  intros Hp. induction l as [|x l IH]; simpl; [reflexivity|].
  rewrite insert_by_filter by exact Hp. simpl. by rewrite IH.
Qed.

Lemma StronglySorted_weaken {A : Type} (R1 R2 : A -> A -> Prop) (l : list A) :
  (forall a b, R1 a b -> R2 a b) -> StronglySorted R1 l -> StronglySorted R2 l.
Proof.
  intros HR. induction 1 as [|x l Hs IH Hx]; constructor; [exact IH|].
  eapply Forall_impl; [exact Hx|]. intros b. apply HR.
Qed.

(** ** One step of the scheduling loop *)

Lemma create_optimized_train_fields (tr ot : Train.t) (ns : TrainScheduler.slot) :
  TrainScheduler._create_optimized_train tr ns = Ret ot ->
  Train.train_id ot = Train.train_id tr
  /\ Train.priority_score ot = Train.priority_score tr
  /\ Train.scheduled_arrival ot = TrainScheduler.arrival_time ns
  /\ Train.scheduled_departure ot = Some (TrainScheduler.departure_time ns)
  /\ Train.current_position ot = Some (TrainScheduler.segment_id ns).
Proof.
  unfold TrainScheduler._create_optimized_train.
  destruct (Qlt_le_dec _ _).
  - intros H. apply set_delay_fields in H as (-> & _ & -> & -> & -> & ->).
    by repeat split.
  - intros [= <-]. by repeat split.
Qed.

(** What an iteration of the loop does to the local variables. *)
Lemma schedule_train_inv (fuel : nat) (section : Section.t)
    (st st' : TrainScheduler.loop_state) (tr : Train.t) :
  TrainScheduler.schedule_train fuel section st tr = Ret st' ->
  exists found resv,
    TrainScheduler._find_optimal_slot fuel section tr
      (TrainScheduler.segment_reservations st) = Ret (found, resv)
    /\ match found with
       | None =>
           st' = TrainScheduler.mk_state
                   (TrainScheduler.st_optimized_trains st ++ [tr])
                   (TrainScheduler.st_recommendations st
                    ++ [TrainScheduler.Hold (Train.train_id tr) 15])
                   (TrainScheduler.st_total_delay st + 15)%Q
                   resv
       | Some ns =>
           let seg := TrainScheduler.segment_id ns in
           let delay :=
             minutes_between (TrainScheduler.arrival_time ns) (Train.scheduled_arrival tr) in
           exists ot rec,
             TrainScheduler._create_optimized_train tr ns = Ret ot
             /\ TrainScheduler.st_optimized_trains st'
                = TrainScheduler.st_optimized_trains st ++ [ot]
             /\ TrainScheduler.st_recommendations st'
                = TrainScheduler.st_recommendations st ++ [rec]
             /\ TrainScheduler.segment_reservations st'
                = <[seg := TrainScheduler.reservations_on resv seg
                           ++ [(TrainScheduler.arrival_time ns,
                                TrainScheduler.departure_time ns,
                                Train.train_id tr)]]> resv
             /\ ((0 < delay)%Q
                 /\ rec = TrainScheduler.Delay (Train.train_id tr) (int_of_float delay)
                            (TrainScheduler.arrival_time ns) seg
                 /\ TrainScheduler.st_total_delay st'
                    = (TrainScheduler.st_total_delay st + delay)%Q
                 \/ (delay <= 0)%Q
                    /\ rec = TrainScheduler.Proceed (Train.train_id tr) (Some seg) None
                    /\ TrainScheduler.st_total_delay st'
                       = TrainScheduler.st_total_delay st)
       end.
Proof.
  unfold TrainScheduler.schedule_train. intros H.
  apply bind_Ret_inv in H as ([found resv] & Hfind & H).
  exists found, resv. split; [exact Hfind|].
  destruct found as [ns|].
  - apply bind_Ret_inv in H as (ot & Hot & H).
    destruct (Qlt_le_dec _ _) as [Hd|Hd]; injection H as <-; simpl.
    + eexists ot, _. repeat split; try reflexivity; [exact Hot|]. left. by repeat split.
    + eexists ot, _. repeat split; try reflexivity; [exact Hot|]. right. by repeat split.
  - by injection H as <-.
Qed.

Lemma schedule_train_emits (fuel : nat) (section : Section.t)
    (st st' : TrainScheduler.loop_state) (tr : Train.t) :
  TrainScheduler.schedule_train fuel section st tr = Ret st' ->
  exists ot rec,
    TrainScheduler.st_optimized_trains st' = TrainScheduler.st_optimized_trains st ++ [ot]
    /\ TrainScheduler.st_recommendations st' = TrainScheduler.st_recommendations st ++ [rec]
    /\ Train.train_id ot = Train.train_id tr
    /\ Train.priority_score ot = Train.priority_score tr
    /\ TrainScheduler.rec_train_id rec = Train.train_id tr.
Proof.
  intros H. apply schedule_train_inv in H as (found & resv & _ & H).
  destruct found as [ns|].
  - destruct H as (ot & rec & Hot & Ho & Hr & _ & Hrec).
    apply create_optimized_train_fields in Hot as (Hid & Hp & _).
    exists ot, rec. repeat split; try assumption.
    destruct Hrec as [(_ & -> & _)|(_ & -> & _)]; reflexivity.
  - subst st'. simpl. eexists _, _. by repeat split.
Qed.

(** ** Processing order *)

Lemma schedule_all_order (fuel : nat) (section : Section.t) (trains : list Train.t)
    (st : TrainScheduler.loop_state) :
  TrainScheduler.schedule_all fuel section trains = Ret st ->
  map Train.train_id (TrainScheduler.st_optimized_trains st)
  = map Train.train_id (TrainScheduler.sort_by_priority trains)
  /\ map Train.priority_score (TrainScheduler.st_optimized_trains st)
     = map Train.priority_score (TrainScheduler.sort_by_priority trains)
  /\ map TrainScheduler.rec_train_id (TrainScheduler.st_recommendations st)
     = map Train.train_id (TrainScheduler.sort_by_priority trains).
Proof.
  unfold TrainScheduler.schedule_all.
  apply (for_each_invariant _
           (fun done s =>
              map Train.train_id (TrainScheduler.st_optimized_trains s)
              = map Train.train_id done
              /\ map Train.priority_score (TrainScheduler.st_optimized_trains s)
                 = map Train.priority_score done
              /\ map TrainScheduler.rec_train_id (TrainScheduler.st_recommendations s)
                 = map Train.train_id done)).
  - by repeat split.
  - intros done x acc acc1 (H1 & H2 & H3) Hstep.
    apply schedule_train_emits in Hstep as (ot & rec & -> & -> & Hid & Hp & Hr).
    rewrite !map_app; simpl. by rewrite H1, H2, H3, Hid, Hp, Hr.
Qed.

(** C5: the scheduler processes the trains sorted by priority score,
    highest first; the sort only permutes the input and keeps trains of
    equal score in their input order; the optimized trains and the
    recommendations come out in that processing order. *)
Theorem priority_order_is_stable (trains : list Train.t) :
  Permutation (TrainScheduler.sort_by_priority trains) trains
  /\ StronglySorted (fun a b => Train.priority_score b <= Train.priority_score a)
                    (TrainScheduler.sort_by_priority trains)
  /\ (forall score,
        List.filter (fun tr => bool_decide (Train.priority_score tr = score))
                    (TrainScheduler.sort_by_priority trains)
        = List.filter (fun tr => bool_decide (Train.priority_score tr = score)) trains)
  /\ (forall fuel section conflicts r,
        TrainScheduler.optimize_schedule fuel section trains conflicts = Ret r ->
        map Train.train_id (TrainScheduler.optimized_trains r)
        = map Train.train_id (TrainScheduler.sort_by_priority trains)
        /\ map TrainScheduler.rec_train_id (TrainScheduler.recommendations r)
           = map Train.train_id (TrainScheduler.sort_by_priority trains)).
Proof.
  unfold TrainScheduler.sort_by_priority. repeat split.
  - apply stable_sort_Permutation.
  - eapply StronglySorted_weaken; [|apply stable_sort_sorted].
    + intros a b H. simpl in H. by apply bool_decide_eq_true in H.
    + intros x y. destruct (Z.le_ge_cases (Train.priority_score y) (Train.priority_score x));
        [left|right]; apply bool_decide_eq_true; lia.
    + intros x y z Hxy Hyz. apply bool_decide_eq_true in Hxy, Hyz.
      apply bool_decide_eq_true. lia.
  - intros score. apply stable_sort_filter.
    intros a b Ha Hb. apply bool_decide_eq_true in Ha, Hb.
    apply bool_decide_eq_true. lia.
  - unfold TrainScheduler.optimize_schedule in H.
    apply bind_Ret_inv in H as (st & Hst & [= <-]).
    apply schedule_all_order in Hst as (H1 & _ & _). exact H1.
  - unfold TrainScheduler.optimize_schedule in H.
    apply bind_Ret_inv in H as (st & Hst & [= <-]).
    apply schedule_all_order in Hst as (_ & _ & H3). exact H3.
Qed.

(** ** Delay and throughput figures *)







(** ** The engine boundary *)

Section Boundary.

Variable detect : list Train.t -> outcome (list Conflict.t).
Variable schedule : list Train.t -> list Conflict.t -> outcome TrainScheduler.result.

Lemma try_optimize_success (self self' : OptimizationEngine.t)
    (start_time now : datetime) (trains : list Train.t) (r : OptimizationEngine.result) :
  OptimizationEngine.try_optimize detect schedule self start_time now trains
  = Ret (r, self') ->
  OptimizationEngine.status r = "success"
  /\ OptimizationEngine.section self' = OptimizationEngine.section self
  /\ OptimizationEngine.optimization_history self'
     = OptimizationEngine.store (OptimizationEngine.optimization_history self) r.
Proof.
  unfold OptimizationEngine.try_optimize. intros H.
  apply bind_Ret_inv in H as (conflicts & _ & H).
  apply bind_Ret_inv in H as (res & _ & H).
  injection H as <- <-. by repeat split.
Qed.

Lemma try_optimize_raises (self : OptimizationEngine.t)
    (start_time now : datetime) (trains : list Train.t) (e : exn) :
  OptimizationEngine.try_optimize detect schedule self start_time now trains = Raise e
  <-> detect trains = Raise e
      \/ exists conflicts,
           detect trains = Ret conflicts /\ conflicts <> []
           /\ schedule trains conflicts = Raise e.
Proof.
  unfold OptimizationEngine.try_optimize. split.
  - intros H. apply bind_Raise_inv in H as [H|(conflicts & Hd & H)]; [by left|].
    right. exists conflicts. split; [exact Hd|].
    apply bind_Raise_inv in H as [H|(res & _ & H)]; [|discriminate].
    destruct conflicts; [discriminate|]. split; [discriminate|exact H].
  - intros [->|(conflicts & -> & Hne & Hs)]; [reflexivity|].
    destruct conflicts; [contradiction|]. simpl. by rewrite Hs.
Qed.

(** C2: [optimize] lets no exception through.  Whatever the detector
    and the scheduler do, the outcome of [optimize] is never a raised
    exception; when the detector raises, or finds conflicts and the
    scheduler raises, [optimize] returns the error result: status
    'error', the message of the exception, the elapsed time. *)
Theorem optimize_catches_exceptions (self : OptimizationEngine.t)
    (start_time now : datetime) (trains : list Train.t) :
  (forall e,
     OptimizationEngine.optimize_with detect schedule self start_time now trains
     <> Raise e)
  /\ (forall e,
        (detect trains = Raise e
         \/ exists conflicts,
              detect trains = Ret conflicts /\ conflicts <> []
              /\ schedule trains conflicts = Raise e) ->
        exists r,
          OptimizationEngine.optimize_with detect schedule self start_time now trains
          = Ret (r, self)
          /\ OptimizationEngine.status r = "error"
          /\ OptimizationEngine.error_message r = Some (str_exn e)
          /\ OptimizationEngine.processing_time_ms r
             = OptimizationEngine.elapsed_ms start_time now).
Proof.
  split.
  - intros e. unfold OptimizationEngine.optimize_with.
    destruct (OptimizationEngine.try_optimize _ _ _ _ _ _); discriminate.
  - intros e He. apply try_optimize_raises with (self := self)
      (start_time := start_time) (now := now) in He.
    unfold OptimizationEngine.optimize_with. rewrite He.
    eexists. split; [reflexivity|]. by repeat split.
Qed.

(** An error result leaves the engine as it was, a success result is
    stored; a history of success results stays one. *)
Lemma optimize_with_history (self self' : OptimizationEngine.t)
    (start_time now : datetime) (trains : list Train.t) (r : OptimizationEngine.result) :
  OptimizationEngine.optimize_with detect schedule self start_time now trains
  = Ret (r, self') ->
  (OptimizationEngine.status r = "error" ->
   self' = self
   /\ OptimizationEngine.optimization_history self'
      = OptimizationEngine.optimization_history self)
  /\ (OptimizationEngine.status r = "success" ->
      OptimizationEngine.optimization_history self'
      = OptimizationEngine.store (OptimizationEngine.optimization_history self) r)
  /\ (Forall (fun x => OptimizationEngine.status x = "success")
             (OptimizationEngine.optimization_history self) ->
      Forall (fun x => OptimizationEngine.status x = "success")
             (OptimizationEngine.optimization_history self')).
Proof.
  unfold OptimizationEngine.optimize_with.
  destruct (OptimizationEngine.try_optimize _ _ _ _ _ _) as [[r0 s0]|e|] eqn:Htry;
    try discriminate.
  - intros [= -> ->].
    apply try_optimize_success in Htry as (Hok & _ & Hh).
    split; [rewrite Hok; discriminate|].
    split; [intros _; exact Hh|].
    intros Hall. rewrite Hh. unfold OptimizationEngine.store.
    assert (Forall (fun x => OptimizationEngine.status x = "success")
                   (OptimizationEngine.optimization_history self ++ [r])) as Hall'.
    { apply Forall_app. split; [exact Hall|]. by constructor. }
    case_decide; [|exact Hall'].
    by apply Forall_drop.
  - intros [= <- <-]. split; [by intros _|].
    split; [discriminate|]. by intros H.
Qed.

(** C7: when the detector finds no conflict, [optimize] returns a
    success result built without the scheduler (whatever [schedule]
    is): one 'proceed' recommendation per input train, in input order,
    total delay 0 and throughput improvement 0. *)
Theorem no_conflicts_all_proceed (self : OptimizationEngine.t)
    (start_time now : datetime) (trains : list Train.t) :
  detect trains = Ret [] ->
  let res := OptimizationEngine._generate_default_recommendations trains in
  let r := OptimizationEngine.Success start_time
             (Section.section_id (OptimizationEngine.section self))
             (length trains) [] (ConflictDetector.get_conflict_summary [])
             res
             (OptimizationEngine._calculate_metrics self trains [] res)
             (OptimizationEngine.elapsed_ms start_time now)
             (TrainScheduler.recommendations res) in
  OptimizationEngine.optimize_with detect schedule self start_time now trains
  = Ret (r, OptimizationEngine.mk
              (OptimizationEngine.section self)
              (OptimizationEngine.store (OptimizationEngine.optimization_history self) r))
  /\ OptimizationEngine.status r = "success"
  /\ length (OptimizationEngine.recommendations r) = length trains
  /\ map TrainScheduler.rec_train_id (OptimizationEngine.recommendations r)
     = map Train.train_id trains
  /\ Forall (fun rec => TrainScheduler.action rec = "proceed")
            (OptimizationEngine.recommendations r)
  /\ TrainScheduler.optimized_trains res = trains
  /\ TrainScheduler.total_delay_minutes res = 0%Q
  /\ TrainScheduler.throughput_improvement res = 0%Q.
Proof.
  intros Hd res r.
  unfold OptimizationEngine.optimize_with, OptimizationEngine.try_optimize.
  rewrite Hd. simpl.
  split; [reflexivity|]. split; [reflexivity|].
  split; [by rewrite length_map|].
  split; [by rewrite map_map|].
  split; [|by repeat split].
  apply Forall_map. by apply Forall_true.
Qed.

End Boundary.

Lemma reachable_history_success (sec : Section.t) (self : OptimizationEngine.t) :
  OptimizationEngine.reachable sec self ->
  Forall (fun x => OptimizationEngine.status x = "success")
         (OptimizationEngine.optimization_history self).
Proof.
  induction 1 as [|fuel self self' start_time now trains r _ IH Hrun].
  - constructor.
  - unfold OptimizationEngine.optimize in Hrun.
    apply optimize_with_history in Hrun as (_ & _ & Hkeep). by apply Hkeep.
Qed.

(** C10: a call of [optimize] that returns an error result leaves the
    engine, and so the length and the contents of its history, exactly
    as they were: the error result is not stored.  Every entry of the
    history of an engine, before and after the call, has status
    'success'. *)
Theorem history_unchanged_on_error (sec : Section.t) (fuel : nat)
    (self self' : OptimizationEngine.t) (start_time now : datetime)
    (trains : list Train.t) (r : OptimizationEngine.result) :
  OptimizationEngine.reachable sec self ->
  OptimizationEngine.optimize fuel self start_time now trains = Ret (r, self') ->
  OptimizationEngine.status r = "error" ->
  self' = self
  /\ OptimizationEngine.optimization_history self'
     = OptimizationEngine.optimization_history self
  /\ (r ∉ OptimizationEngine.optimization_history self')
  /\ Forall (fun x => OptimizationEngine.status x = "success")
            (OptimizationEngine.optimization_history self').
Proof.
  intros Hreach Hrun Herr.
  pose proof (reachable_history_success sec self Hreach) as Hall.
  unfold OptimizationEngine.optimize in Hrun.
  apply optimize_with_history in Hrun as (Hsame & _ & _).
  destruct (Hsame Herr) as [-> Hh].
  repeat split; try assumption.
  intros Hin. rewrite Forall_forall in Hall. apply Hall in Hin. congruence.
Qed.

(** ** Equations of the slot search *)

Lemma for_each_cons {A S : Type} (body : S -> A -> outcome S) (x : A) (xs : list A)
    (acc : S) :
  for_each body (x :: xs) acc = (acc' ← body acc x; for_each body xs acc').
Proof. reflexivity. Qed.

Section SlotSearch.

Variables (section : Section.t) (tr : Train.t) (seg : string).
Variable existing : list TrainScheduler.reservation.
Variables (min_headway : timedelta) (max_search_time : datetime).

Lemma search_slot_out_of_fuel (search_time : datetime) :
  search_time < max_search_time ->
  TrainScheduler.search_slot 0 section tr seg existing min_headway
                             max_search_time search_time = Diverge.
Proof. intros Hlt. simpl. case_decide; [reflexivity|lia]. Qed.

Lemma search_slot_past_horizon (fuel : nat) (search_time : datetime) :
  max_search_time <= search_time ->
  TrainScheduler.search_slot fuel section tr seg existing min_headway
                             max_search_time search_time = Ret None.
Proof. intros Hge. destruct fuel; simpl; case_decide; (reflexivity || lia). Qed.

Lemma search_slot_found (fuel : nat) (search_time slot_end : datetime) :
  search_time < max_search_time ->
  datetime_add search_time (Train.expected_travel_time tr) = Ret slot_end ->
  TrainScheduler._slot_is_available section search_time slot_end existing = Ret true ->
  TrainScheduler.search_slot (S fuel) section tr seg existing min_headway
                             max_search_time search_time
  = Ret (Some (TrainScheduler.mk_slot seg search_time slot_end)).
Proof.
  intros Hlt Hend Hfree. simpl.
  case_decide; [|lia]. rewrite Hend. simpl. by rewrite Hfree.
Qed.

Lemma search_slot_retry (fuel : nat) (search_time slot_end next : datetime) :
  search_time < max_search_time ->
  datetime_add search_time (Train.expected_travel_time tr) = Ret slot_end ->
  TrainScheduler._slot_is_available section search_time slot_end existing = Ret false ->
  datetime_add search_time min_headway = Ret next ->
  TrainScheduler.search_slot (S fuel) section tr seg existing min_headway
                             max_search_time search_time
  = TrainScheduler.search_slot fuel section tr seg existing min_headway
                               max_search_time next.
Proof.
  intros Hlt Hend Hfree Hnext. simpl.
  case_decide; [|lia]. rewrite Hend. simpl. rewrite Hfree. simpl. by rewrite Hnext.
Qed.

End SlotSearch.

(** With a step of zero the search never leaves its first probe. *)
Lemma search_slot_zero_step (fuel : nat) (section : Section.t) (tr : Train.t)
    (seg : string) (existing : list TrainScheduler.reservation)
    (max_search_time search_time slot_end : datetime) :
  search_time < max_search_time ->
  datetime_add search_time (Train.expected_travel_time tr) = Ret slot_end ->
  TrainScheduler._slot_is_available section search_time slot_end existing = Ret false ->
  datetime_add search_time 0 = Ret search_time ->
  TrainScheduler.search_slot fuel section tr seg existing 0
                             max_search_time search_time = Diverge.
Proof.
  intros Hlt Hend Hfree Hnext. induction fuel as [|fuel IH].
  - by apply search_slot_out_of_fuel.
  - by rewrite (search_slot_retry section tr seg existing 0 max_search_time
                  fuel search_time slot_end search_time).
Qed.

Section FindSlot.

Variables (fuel : nat) (section : Section.t) (tr : Train.t).
Variable reservations : gmap string (list TrainScheduler.reservation).
Variables (seg : string) (segment : TrackSegment.t) (desired_end : datetime).

Hypothesis Hpreferred : TrainScheduler.preferred_segment_of section tr = Some seg.
Hypothesis Hseg : seg <> "".
Hypothesis Hsegment : Section.get_segment section seg = Some segment.
Hypothesis Hend : Train.departure_or_expected tr = Ret desired_end.

Let existing :=
  stable_sort TrainScheduler.reservation_le
              (TrainScheduler.reservations_on reservations seg).

Lemma find_optimal_slot_desired :
  TrainScheduler._slot_is_available section (Train.scheduled_arrival tr)
                                    desired_end existing = Ret true ->
  TrainScheduler._find_optimal_slot fuel section tr reservations
  = Ret (Some (TrainScheduler.mk_slot seg (Train.scheduled_arrival tr) desired_end),
         TrainScheduler.sort_in_place reservations seg).
Proof.
  intros Hfree. unfold TrainScheduler._find_optimal_slot.
  rewrite Hpreferred. simpl. case_decide; [contradiction|].
  rewrite Hsegment, Hend. simpl. fold existing. by rewrite Hfree.
Qed.

Lemma find_optimal_slot_probe (min_headway : timedelta) (max_search_time : datetime) :
  TrainScheduler._slot_is_available section (Train.scheduled_arrival tr)
                                    desired_end existing = Ret false ->
  timedelta_minutes (Section.min_headway_minutes section) = Ret min_headway ->
  datetime_add (Train.scheduled_arrival tr) (120 * us_per_minute) = Ret max_search_time ->
  TrainScheduler._find_optimal_slot fuel section tr reservations
  = (found ← TrainScheduler.search_slot fuel section tr seg existing min_headway
               max_search_time (Train.scheduled_arrival tr);
     Ret (found, TrainScheduler.sort_in_place reservations seg)).
Proof.
  intros Hfree Hh Hmax. unfold TrainScheduler._find_optimal_slot.
  rewrite Hpreferred. simpl. case_decide; [contradiction|].
  rewrite Hsegment, Hend. simpl. fold existing. rewrite Hfree. simpl.
  rewrite Hh. simpl. by rewrite Hmax.
Qed.

End FindSlot.


Lemma schedule_train_diverges (fuel : nat) (section : Section.t)
    (st : TrainScheduler.loop_state) (tr : Train.t) :
  TrainScheduler._find_optimal_slot fuel section tr
    (TrainScheduler.segment_reservations st) = Diverge ->
  TrainScheduler.schedule_train fuel section st tr = Diverge.
Proof. intros H. unfold TrainScheduler.schedule_train. by rewrite H. Qed.

Lemma schedule_train_on_time (fuel : nat) (section : Section.t)
    (st : TrainScheduler.loop_state) (tr ot : Train.t) (ns : TrainScheduler.slot)
    (resv : gmap string (list TrainScheduler.reservation)) :
  TrainScheduler._find_optimal_slot fuel section tr
    (TrainScheduler.segment_reservations st) = Ret (Some ns, resv) ->
  TrainScheduler._create_optimized_train tr ns = Ret ot ->
  TrainScheduler.arrival_time ns <= Train.scheduled_arrival tr ->
  TrainScheduler.schedule_train fuel section st tr
  = Ret (TrainScheduler.mk_state
           (TrainScheduler.st_optimized_trains st ++ [ot])
           (TrainScheduler.st_recommendations st
            ++ [TrainScheduler.Proceed (Train.train_id tr)
                  (Some (TrainScheduler.segment_id ns)) None])
           (TrainScheduler.st_total_delay st)
           (<[TrainScheduler.segment_id ns :=
                TrainScheduler.reservations_on resv (TrainScheduler.segment_id ns)
                ++ [(TrainScheduler.arrival_time ns, TrainScheduler.departure_time ns,
                     Train.train_id tr)]]> resv)).
Proof.
  intros Hfind Hot Hle. unfold TrainScheduler.schedule_train.
  rewrite Hfind. simpl. rewrite Hot. simpl.
  destruct (Qlt_le_dec _ _) as [Hd|Hd]; [|reflexivity].
  unfold minutes_between, Qlt in Hd. simpl in Hd. lia.
Qed.

Lemma bind_Ret {A B : Type} (x : A) (f : A -> outcome B) : (a ← Ret x; f a) = f x.
Proof. reflexivity. Qed.

(** ** A minimum headway of zero *)

Lemma express_first_step (fuel : nat) :
  exists st1,
    TrainScheduler.schedule_train fuel Examples.no_headway TrainScheduler.initial_state
                                  Examples.express_first = Ret st1
    /\ TrainScheduler.segment_reservations st1
       = {[ "S1" := [(Examples.at_minute 0, Examples.at_minute 10, "E")] ]}.
Proof.
  eexists. split.
  - eapply schedule_train_on_time.
    + eapply (find_optimal_slot_desired fuel Examples.no_headway Examples.express_first ∅ "S1");
        [reflexivity|done|by vm_compute|reflexivity|by vm_compute].
    + by vm_compute.
    + simpl. lia.
  - simpl. by vm_compute.
Qed.

Lemma zero_headway_schedule_diverges (fuel : nat) (conflicts : list Conflict.t) :
  TrainScheduler.optimize_schedule fuel Examples.no_headway Examples.overlapping_pair
                                   conflicts = Diverge.
Proof.
  unfold TrainScheduler.optimize_schedule, TrainScheduler.schedule_all.
  replace (TrainScheduler.sort_by_priority Examples.overlapping_pair)
    with Examples.overlapping_pair by (by vm_compute).
  unfold Examples.overlapping_pair. rewrite for_each_cons.
  destruct (express_first_step fuel) as (st1 & -> & Hres).
  rewrite bind_Ret, for_each_cons.
  rewrite schedule_train_diverges; [reflexivity|].
  rewrite Hres.
  erewrite (find_optimal_slot_probe fuel Examples.no_headway Examples.freight_behind _ "S1");
    [|reflexivity|done|by vm_compute|reflexivity|by vm_compute|by vm_compute|by vm_compute].
  erewrite search_slot_zero_step; [reflexivity|by vm_compute..].
Qed.

(** C9 does not hold of the code: on a section whose minimum headway is
    0 minutes, with an express at minutes 0-10 and a freight at minutes
    5-15 on the same track, the detector returns conflicts, the express
    takes its slot, and the forward search for the freight probes minute
    5 again and again; no amount of fuel makes [optimize] return. *)
Theorem zero_headway_optimize_diverges (fuel : nat) (start_time now : datetime) :
  (exists c cs,
     ConflictDetector.detect_conflicts Examples.no_headway Examples.overlapping_pair
     = Ret (c :: cs))
  /\ OptimizationEngine.optimize fuel (OptimizationEngine.init Examples.no_headway)
                                 start_time now Examples.overlapping_pair
     = Diverge.
Proof.
  assert (Hd : exists c cs,
             ConflictDetector.detect_conflicts Examples.no_headway Examples.overlapping_pair
             = Ret (c :: cs)) by (vm_compute; eauto).
  split; [exact Hd|]. destruct Hd as (c & cs & Hd).
  unfold OptimizationEngine.optimize, OptimizationEngine.optimize_with,
    OptimizationEngine.try_optimize.
  simpl OptimizationEngine.section. rewrite Hd, bind_Ret.
  by rewrite zero_headway_schedule_diverges.
Qed.

(** ** The hold path *)

Lemma timedelta_minutes_Ret (m : Z) (d : timedelta) :
  timedelta_minutes m = Ret d -> d = m * us_per_minute.
Proof.
  unfold timedelta_minutes. repeat case_decide; try discriminate. by intros [= <-].
Qed.

Lemma datetime_add_Ret (t : datetime) (d : timedelta) (t' : datetime) :
  datetime_add t d = Ret t' -> t' = t + d /\ 0 <= t' <= datetime_max.
Proof.
  unfold datetime_add. case_decide; try discriminate. intros [= <-]. by split.
Qed.


Section Exhausted.

Variables (section : Section.t) (tr : Train.t) (seg : string).
Variable existing : list TrainScheduler.reservation.
Variables (min_headway : timedelta) (max_search_time : datetime).

Let arrival := Train.scheduled_arrival tr.

Hypothesis Hstep : 0 < min_headway.
Hypothesis Harrival : 0 <= arrival.
Hypothesis Hroom : max_search_time + min_headway <= datetime_max.
Hypothesis Hprobes :
  forall k : Z,
    0 <= k -> arrival + k * min_headway < max_search_time ->
    exists slot_end,
      datetime_add (arrival + k * min_headway) (Train.expected_travel_time tr)
      = Ret slot_end
      /\ TrainScheduler._slot_is_available section (arrival + k * min_headway)
                                           slot_end existing = Ret false.


End Exhausted.



(** ** What an available slot guarantees *)

Lemma slot_clear_true (h : timedelta) (s e : datetime)
    (l : list TrainScheduler.reservation) :
  TrainScheduler.slot_clear h s e l = Ret true ->
  Forall (fun r => TrainScheduler.separated h (s, e) r.1) l.
Proof.
  induction l as [|[[rs re] id] l IH]; simpl; intros Hc; [constructor|].
  apply bind_Ret_inv in Hc as (end_h & Hend & Hc).
  apply datetime_add_Ret in Hend as [-> _].
  apply bind_Ret_inv in Hc as (sep & Hsep & Hc).
  destruct sep; [|discriminate].
  constructor; [|by apply IH].
  unfold TrainScheduler.separated; simpl.
  case_decide as Hle; [by left|].
  apply bind_Ret_inv in Hsep as (res_h & Hres & Hsep).
  apply datetime_add_Ret in Hres as [-> _].
  injection Hsep as Hsep. apply bool_decide_eq_true in Hsep. right. lia.
Qed.

Lemma slot_is_available_true (section : Section.t) (s e : datetime)
    (l : list TrainScheduler.reservation) :
  TrainScheduler._slot_is_available section s e l = Ret true ->
  Forall (fun r => TrainScheduler.separated
                     (Section.min_headway_minutes section * us_per_minute) (s, e) r.1) l.
Proof.
  unfold TrainScheduler._slot_is_available. intros H.
  apply bind_Ret_inv in H as (h & Hh & H).
  apply timedelta_minutes_Ret in Hh as ->. by apply slot_clear_true.
Qed.

Lemma search_slot_Some (fuel : nat) (section : Section.t) (tr : Train.t) (seg : string)
    (existing : list TrainScheduler.reservation) (min_headway : timedelta)
    (max_search_time search_time : datetime) (ns : TrainScheduler.slot) :
  TrainScheduler.search_slot fuel section tr seg existing min_headway
                             max_search_time search_time = Ret (Some ns) ->
  TrainScheduler.segment_id ns = seg
  /\ TrainScheduler._slot_is_available section (TrainScheduler.arrival_time ns)
       (TrainScheduler.departure_time ns) existing = Ret true.
Proof.
  revert search_time. induction fuel as [|fuel IH]; intros search_time; simpl;
    case_decide as Hlt; try discriminate.
  intros Hs. apply bind_Ret_inv in Hs as (slot_end & _ & Hs).
  apply bind_Ret_inv in Hs as (free & Hfree & Hs).
  destruct free.
  - injection Hs as <-. by split.
  - apply bind_Ret_inv in Hs as (next & _ & Hs). by apply IH in Hs.
Qed.

Lemma sort_in_place_Permutation
    (reservations : gmap string (list TrainScheduler.reservation)) (seg sid : string) :
  TrainScheduler.reservations_on (TrainScheduler.sort_in_place reservations seg) sid
  ≡ₚ TrainScheduler.reservations_on reservations sid.
Proof.
  unfold TrainScheduler.sort_in_place, TrainScheduler.reservations_on.
  destruct (reservations !! seg) as [l|] eqn:Hl; [|reflexivity].
  destruct (decide (seg = sid)) as [->|Hne].
  - rewrite lookup_insert_eq, Hl. simpl. apply stable_sort_Permutation.
  - by rewrite lookup_insert_ne.
Qed.

(** What [_find_optimal_slot] returns: the table holds the same
    reservations as before, and a slot it returns is on a segment of the
    section and was found available against that segment's
    reservations. *)
Lemma find_optimal_slot_inv (fuel : nat) (section : Section.t) (tr : Train.t)
    (reservations resv : gmap string (list TrainScheduler.reservation))
    (found : option TrainScheduler.slot) :
  TrainScheduler._find_optimal_slot fuel section tr reservations = Ret (found, resv) ->
  (forall sid,
     TrainScheduler.reservations_on resv sid
     ≡ₚ TrainScheduler.reservations_on reservations sid)
  /\ match found with
     | Some ns =>
         is_Some (Section.get_segment section (TrainScheduler.segment_id ns))
         /\ Forall (fun r => TrainScheduler.separated
                               (Section.min_headway_minutes section * us_per_minute)
                               (TrainScheduler.arrival_time ns,
                                TrainScheduler.departure_time ns) r.1)
                   (TrainScheduler.reservations_on reservations
                      (TrainScheduler.segment_id ns))
     | None => True
     end.
Proof.
  unfold TrainScheduler._find_optimal_slot.
  destruct (truthy _); [|intros [= <- <-]; by split].
  set (seg := default "" _).
  destruct (Section.get_segment section seg) as [segment|] eqn:Hseg;
    [|intros [= <- <-]; by split].
  intros H. apply bind_Ret_inv in H as (desired_end & _ & H).
  apply bind_Ret_inv in H as (free & Hfree & H).
  assert (Hsorted : forall P : TrainScheduler.reservation -> Prop,
             Forall P (stable_sort TrainScheduler.reservation_le
                         (TrainScheduler.reservations_on reservations seg)) ->
             Forall P (TrainScheduler.reservations_on reservations seg)).
  { intros P. apply Permutation_Forall, stable_sort_Permutation. }
  destruct free.
  - injection H as <- <-. split; [intros sid; apply sort_in_place_Permutation|].
    simpl. split; [by rewrite Hseg|].
    by apply Hsorted, slot_is_available_true.
  - apply bind_Ret_inv in H as (min_headway & _ & H).
    apply bind_Ret_inv in H as (max_search_time & _ & H).
    apply bind_Ret_inv in H as (found' & Hsearch & H).
    injection H as <- <-. split; [intros sid; apply sort_in_place_Permutation|].
    destruct found' as [ns|]; [|exact I].
    apply search_slot_Some in Hsearch as [-> Havail].
    split; [by rewrite Hseg|].
    by apply Hsorted, slot_is_available_true.
Qed.
(** ** Accepted slots keep the headway *)

Lemma ForallOrdPairs_snoc {A : Type} (R : A -> A -> Prop) (l : list A) (x : A) :
  ForallOrdPairs R l -> Forall (fun y => R y x) l -> ForallOrdPairs R (l ++ [x]).
Proof.
  induction 1 as [|a l Ha Hl IH]; intros Hx; simpl.
  - repeat constructor.
  - apply Forall_cons_1 in Hx as [Hax Hx]. constructor; [|by apply IH].
    apply Forall_app. split; [exact Ha|]. by constructor.
Qed.

Lemma separated_sym (h : timedelta) (a b : datetime * datetime) :
  TrainScheduler.separated h a b -> TrainScheduler.separated h b a.
Proof. unfold TrainScheduler.separated. tauto. Qed.

Lemma accepted_intervals_snoc (optimized : list Train.t)
    (recs : list TrainScheduler.recommendation) (ot : Train.t)
    (rec : TrainScheduler.recommendation) (sid : string) :
  length optimized = length recs ->
  TrainScheduler.accepted_intervals (optimized ++ [ot]) (recs ++ [rec]) sid
  = TrainScheduler.accepted_intervals optimized recs sid
    ++ option_list (TrainScheduler.accepted_interval sid (ot, rec)).
Proof.
  intros Hlen. unfold TrainScheduler.accepted_intervals.
  rewrite zip_with_app by exact Hlen. rewrite omap_app. simpl.
  by destruct (TrainScheduler.accepted_interval sid (ot, rec)).
Qed.

(** The invariant of the scheduling loop: the reservation table holds
    exactly the accepted intervals, segment by segment, and these keep
    the headway pairwise. *)
Lemma schedule_all_invariant (fuel : nat) (section : Section.t) (trains : list Train.t)
    (st : TrainScheduler.loop_state) :
  TrainScheduler.schedule_all fuel section trains = Ret st ->
  let h := Section.min_headway_minutes section * us_per_minute in
  let optimized := TrainScheduler.st_optimized_trains st in
  let recs := TrainScheduler.st_recommendations st in
  length optimized = length recs
  /\ (forall sid,
        map fst (TrainScheduler.reservations_on (TrainScheduler.segment_reservations st) sid)
        ≡ₚ TrainScheduler.accepted_intervals optimized recs sid)
  /\ (forall sid,
        ForallOrdPairs (TrainScheduler.separated h)
                       (TrainScheduler.accepted_intervals optimized recs sid))
  /\ (forall ot rec,
        (ot, rec) ∈ zip optimized recs ->
        TrainScheduler.held rec = false ->
        exists sid d,
          Train.current_position ot = Some sid
          /\ Train.scheduled_departure ot = Some d
          /\ is_Some (Section.get_segment section sid)).
Proof.
  intros Hrun h optimized recs. subst optimized recs. revert Hrun.
  unfold TrainScheduler.schedule_all.
  apply (for_each_invariant _
    (fun _ s =>
       length (TrainScheduler.st_optimized_trains s)
       = length (TrainScheduler.st_recommendations s)
       /\ (forall sid,
             map fst (TrainScheduler.reservations_on
                        (TrainScheduler.segment_reservations s) sid)
             ≡ₚ TrainScheduler.accepted_intervals
                  (TrainScheduler.st_optimized_trains s)
                  (TrainScheduler.st_recommendations s) sid)
       /\ (forall sid,
             ForallOrdPairs (TrainScheduler.separated h)
               (TrainScheduler.accepted_intervals
                  (TrainScheduler.st_optimized_trains s)
                  (TrainScheduler.st_recommendations s) sid))
       /\ (forall ot rec,
             (ot, rec) ∈ zip (TrainScheduler.st_optimized_trains s)
                             (TrainScheduler.st_recommendations s) ->
             TrainScheduler.held rec = false ->
             exists sid d,
               Train.current_position ot = Some sid
               /\ Train.scheduled_departure ot = Some d
               /\ is_Some (Section.get_segment section sid)))).
  - simpl. split; [reflexivity|]. split; [by intros sid|].
    split; [intros sid; constructor|]. intros ot rec Hin. by apply elem_of_nil in Hin.
  - intros _ tr s s' (Hlen & Htable & Hsep & Hpos) Hstep.
    apply schedule_train_inv in Hstep as (found & resv & Hfind & Hs').
    apply find_optimal_slot_inv in Hfind as [Hperm Hfound].
    destruct found as [ns|].
    + destruct Hfound as [Hseg Hfree].
      destruct Hs' as (ot & rec & Hot & Ho & Hr & Hres & Hrec).
      apply create_optimized_train_fields in Hot as (_ & _ & Harr & Hdep & Hcp).
      assert (Hheld : TrainScheduler.held rec = false)
        by (destruct Hrec as [(_ & -> & _)|(_ & -> & _)]; reflexivity).
      assert (Hnew : forall sid,
                 TrainScheduler.accepted_interval sid (ot, rec)
                 = if decide (TrainScheduler.segment_id ns = sid)
                   then Some (TrainScheduler.arrival_time ns,
                              TrainScheduler.departure_time ns)
                   else None).
      { intros sid. unfold TrainScheduler.accepted_interval.
        rewrite Hheld, Hcp, Hdep, Harr.
        destruct (decide (TrainScheduler.segment_id ns = sid)) as [->|Hne].
        - by rewrite bool_decide_eq_true_2.
        - rewrite bool_decide_eq_false_2; [reflexivity|congruence]. }
      rewrite Ho, Hr, Hres. rewrite !length_app, Hlen.
      split; [reflexivity|].
      split; [|split].
      * intros sid. rewrite accepted_intervals_snoc by exact Hlen. rewrite Hnew.
        unfold TrainScheduler.reservations_on at 1.
        destruct (decide (TrainScheduler.segment_id ns = sid)) as [->|Hne].
        -- rewrite lookup_insert_eq. simpl. rewrite map_app. simpl.
           by rewrite Hperm, Htable.
        -- rewrite lookup_insert_ne by exact Hne. simpl. rewrite app_nil_r.
           fold (TrainScheduler.reservations_on resv sid).
           by rewrite Hperm, Htable.
      * intros sid. rewrite accepted_intervals_snoc by exact Hlen. rewrite Hnew.
        destruct (decide (TrainScheduler.segment_id ns = sid)) as [<-|Hne]; simpl.
        -- apply ForallOrdPairs_snoc; [apply Hsep|].
           eapply Permutation_Forall; [apply Htable|].
           apply Forall_map. eapply Forall_impl; [exact Hfree|].
           intros r. apply separated_sym.
        -- rewrite app_nil_r. apply Hsep.
      * intros ot' rec'. rewrite zip_with_app by exact Hlen.
        intros [Hin|Hin]%elem_of_app; [by apply Hpos|].
        apply list_elem_of_singleton in Hin as [= -> ->]. intros _.
        eexists _, _. by repeat split.
    + subst s'. simpl. rewrite !length_app, Hlen.
      split; [reflexivity|].
      split; [|split].
      * intros sid. rewrite accepted_intervals_snoc by exact Hlen. simpl.
        rewrite app_nil_r. by rewrite Hperm, Htable.
      * intros sid. rewrite accepted_intervals_snoc by exact Hlen. simpl.
        rewrite app_nil_r. apply Hsep.
      * intros ot' rec'. rewrite zip_with_app by exact Hlen.
        intros [Hin|Hin]%elem_of_app; [by apply Hpos|].
        apply list_elem_of_singleton in Hin as [= -> ->]. discriminate.
Qed.

Lemma at_most_one_covers (h : timedelta) (t : datetime)
    (l : list (datetime * datetime)) :
  0 < h ->
  ForallOrdPairs (TrainScheduler.separated h) l ->
  (length (List.filter (fun i : datetime * datetime => bool_decide (i.1 <= t <= i.2)%Z) l)
   <= 1)%nat.
Proof.
  intros Hh. induction 1 as [|a l Ha _ IH]; simpl; [lia|].
  destruct (bool_decide (a.1 <= t <= a.2)) eqn:Hcov; [|exact IH].
  apply bool_decide_eq_true in Hcov. simpl.
  replace (List.filter _ l) with (@nil (datetime * datetime)); [simpl; lia|].
  symmetry. clear IH. induction Ha as [|b l Hab _ IHl]; simpl; [reflexivity|].
  rewrite bool_decide_eq_false_2; [exact IHl|].
  unfold TrainScheduler.separated in Hab. lia.
Qed.

(** C1, as the code has it: among the optimized trains that were not
    returned through the hold path, each sits on a segment of the
    section with an arrival and a departure, and any two on the same
    segment are separated by at least the minimum headway.  When the
    headway is positive, at most one accepted occupancy interval
    [[arrival, departure]] of a segment contains any given instant,
    which is within the effective capacity of every segment whose
    effective capacity is at least 1. *)
Theorem accepted_slots_keep_headway (fuel : nat) (section : Section.t)
    (trains : list Train.t) (conflicts : list Conflict.t) (r : TrainScheduler.result) :
  TrainScheduler.optimize_schedule fuel section trains conflicts = Ret r ->
  let h := Section.min_headway_minutes section * us_per_minute in
  (forall ot rec,
     (ot, rec) ∈ zip (TrainScheduler.optimized_trains r) (TrainScheduler.recommendations r) ->
     TrainScheduler.held rec = false ->
     exists sid d,
       Train.current_position ot = Some sid
       /\ Train.scheduled_departure ot = Some d
       /\ is_Some (Section.get_segment section sid))
  /\ (forall sid,
        ForallOrdPairs (TrainScheduler.separated h)
          (TrainScheduler.accepted_intervals
             (TrainScheduler.optimized_trains r) (TrainScheduler.recommendations r) sid))
  /\ (0 < Section.min_headway_minutes section ->
      forall sid segment t,
        Section.get_segment section sid = Some segment ->
        1 <= TrackSegment.max_capacity segment ->
        Z.of_nat (TrainScheduler.occupancy_count r sid t)
        <= TrackSegment.max_capacity segment).
Proof.
  intros H h. unfold TrainScheduler.optimize_schedule in H.
  apply bind_Ret_inv in H as (st & Hst & [= <-]).
  apply schedule_all_invariant in Hst as (_ & _ & Hsep & Hpos). simpl.
  split; [exact Hpos|]. split; [exact Hsep|].
  intros Hh sid segment t _ Hcap. unfold TrainScheduler.occupancy_count. simpl.
  pose proof (at_most_one_covers h t _ ltac:(unfold h, us_per_minute; lia) (Hsep sid)).
  lia.
Qed.

Lemma accepted_slots_keep_headway_witness :
  exists r,
    TrainScheduler.optimize_schedule 200 Examples.two_tracks Examples.crowded [] = Ret r
    /\ ForallOrdPairs (TrainScheduler.separated (5 * us_per_minute))
         (TrainScheduler.accepted_intervals
            (TrainScheduler.optimized_trains r) (TrainScheduler.recommendations r) "S1")
    /\ (Z.of_nat (TrainScheduler.occupancy_count r "S1" (Examples.at_minute 20)) <= 1).
Proof.
  destruct (TrainScheduler.optimize_schedule 200 Examples.two_tracks Examples.crowded [])
    as [r| |] eqn:E; try (vm_compute in E; discriminate).
  exists r. split; [reflexivity|].
  destruct (accepted_slots_keep_headway 200 Examples.two_tracks Examples.crowded [] r E)
    as (_ & Hsep & Hcount).
  split; [exact (Hsep "S1")|].
  apply (Hcount ltac:(vm_compute; reflexivity) "S1" (Examples.track "S1" 1));
    [reflexivity|vm_compute; discriminate].
Defined.

(** C1 as stated fails: the availability test of a slot compares the
    slot with the reservations of the segment and never with the
    segment's capacity (the capacities are read only when a segment is
    picked for a train that has no position).  On a section whose track
    S1 has capacity 0, a freight positioned on S1 for minutes 0-10 is
    given that slot ('proceed'), so at minute 0 one accepted interval
    occupies a segment of effective capacity 0. *)
Lemma closed_track_is_reserved :
  exists r segment,
    TrainScheduler.optimize_schedule 200 Examples.closed_track
                                     [Examples.freight_on_time] [] = Ret r
    /\ TrainScheduler.recommendations r = [TrainScheduler.Proceed "T1" (Some "S1") None]
    /\ Section.get_segment Examples.closed_track "S1" = Some segment
    /\ TrackSegment.max_capacity segment = 0
    /\ TrainScheduler.occupancy_count r "S1" (Examples.at_minute 0) = 1%nat
    /\ ~ (Z.of_nat (TrainScheduler.occupancy_count r "S1" (Examples.at_minute 0))
          <= TrackSegment.max_capacity segment).
Proof.
  eexists _, _. split; [vm_compute; reflexivity|].
  split; [reflexivity|]. split; [reflexivity|]. split; [reflexivity|].
  split; [vm_compute; reflexivity|]. vm_compute. intros H. by apply H.
Qed.

(** Why the headway has to be positive: with a minimum headway of 0, an
    express on S1 for minutes 0-10 and a freight on S1 for minutes
    10-20 both keep their slots, and at minute 10 both occupancy
    intervals hold the track, whose capacity is 1. *)
Lemma touching_slots_share_an_instant :
  exists r,
    TrainScheduler.optimize_schedule 200 Examples.no_headway
      [Examples.express_first; Examples.train "F" FREIGHT 10 (Some 20) (Some "S1")] []
    = Ret r
    /\ TrainScheduler.recommendations r
       = [TrainScheduler.Proceed "E" (Some "S1") None;
          TrainScheduler.Proceed "F" (Some "S1") None]
    /\ TrainScheduler.occupancy_count r "S1" (Examples.at_minute 10) = 2%nat.
Proof.
  eexists. split; [vm_compute; reflexivity|].
  split; [reflexivity|]. vm_compute. reflexivity.
Qed.


(** ** The properties at work on concrete runs *)

Lemma priority_order_is_stable_witness :
  exists r,
    TrainScheduler.optimize_schedule 200 Examples.two_tracks Examples.crowded [] = Ret r
    /\ map Train.train_id (TrainScheduler.optimized_trains r) = ["E"; "P"; "F"]
    /\ map TrainScheduler.rec_train_id (TrainScheduler.recommendations r) = ["E"; "P"; "F"].
Proof.
  destruct (TrainScheduler.optimize_schedule 200 Examples.two_tracks Examples.crowded [])
    as [r| |] eqn:E; try (vm_compute in E; discriminate).
  exists r. split; [reflexivity|].
  destruct (priority_order_is_stable Examples.crowded) as (_ & _ & _ & Horder).
  destruct (Horder 200%nat Examples.two_tracks [] r E) as [H1 H2].
  split; [exact H1|exact H2].
Defined.


Lemma optimize_catches_exceptions_witness :
  exists r,
    OptimizationEngine.optimize 10 (OptimizationEngine.init Examples.two_tracks)
      (Examples.at_minute 0) (Examples.at_minute 1) [Examples.last_express]
    = Ret (r, OptimizationEngine.init Examples.two_tracks)
    /\ OptimizationEngine.status r = "error"
    /\ OptimizationEngine.error_message r = Some "date value out of range".
Proof.
  destruct (optimize_catches_exceptions
              (ConflictDetector.detect_conflicts Examples.two_tracks)
              (TrainScheduler.optimize_schedule 10 Examples.two_tracks)
              (OptimizationEngine.init Examples.two_tracks)
              (Examples.at_minute 0) (Examples.at_minute 1) [Examples.last_express])
    as [_ Hcaught].
  destruct (Hcaught (OverflowError "date value out of range"))
    as (r & Hrun & Hstatus & Hmsg & _).
  - left. vm_compute. reflexivity.
  - exists r. split; [exact Hrun|]. split; [exact Hstatus|exact Hmsg].
Defined.

Lemma no_conflicts_all_proceed_witness :
  exists r self',
    OptimizationEngine.optimize 0 (OptimizationEngine.init Examples.two_tracks)
      (Examples.at_minute 0) (Examples.at_minute 1) Examples.spaced
    = Ret (r, self')
    /\ OptimizationEngine.status r = "success"
    /\ length (OptimizationEngine.recommendations r) = 3%nat
    /\ Forall (fun rec => TrainScheduler.action rec = "proceed")
              (OptimizationEngine.recommendations r).
Proof.
  destruct (no_conflicts_all_proceed
              (ConflictDetector.detect_conflicts Examples.two_tracks)
              (TrainScheduler.optimize_schedule 0 Examples.two_tracks)
              (OptimizationEngine.init Examples.two_tracks)
              (Examples.at_minute 0) (Examples.at_minute 1) Examples.spaced)
    as (Hrun & Hstatus & Hlen & _ & Hall & _).
  - vm_compute. reflexivity.
  - eexists _, _. split; [exact Hrun|]. split; [exact Hstatus|].
    split; [exact Hlen|exact Hall].
Defined.

Lemma history_unchanged_on_error_witness :
  let self := OptimizationEngine.init Examples.two_tracks in
  let r := OptimizationEngine.Error (Examples.at_minute 0) "SEC1" "date value out of range"
             (OptimizationEngine.elapsed_ms (Examples.at_minute 0) (Examples.at_minute 1)) in
  OptimizationEngine.optimize 10 self (Examples.at_minute 0) (Examples.at_minute 1)
                              [Examples.last_express] = Ret (r, self)
  /\ OptimizationEngine.optimization_history self = []
  /\ (r ∉ OptimizationEngine.optimization_history self).
Proof.
  intros self r.
  assert (Hrun : OptimizationEngine.optimize 10 self (Examples.at_minute 0)
                   (Examples.at_minute 1) [Examples.last_express] = Ret (r, self))
    by (vm_compute; reflexivity).
  split; [exact Hrun|].
  destruct (history_unchanged_on_error Examples.two_tracks 10 self self
              (Examples.at_minute 0) (Examples.at_minute 1) [Examples.last_express] r
              (OptimizationEngine.reachable_init Examples.two_tracks) Hrun eq_refl)
    as (_ & _ & Hnot & _).
  split; [reflexivity|exact Hnot].
Defined.

(** ** Termination with a positive headway *)

Lemma bind_not_Diverge {A B : Type} (m : outcome A) (f : A -> outcome B) :
  m <> Diverge ->
  (forall a, m = Ret a -> f a <> Diverge) ->
  (a ← m; f a) <> Diverge.
Proof.
  intros Hm Hf. destruct m as [a| |]; simpl; [by apply Hf|discriminate|contradiction].
Qed.

Lemma for_each_not_Diverge {A S : Type} (body : S -> A -> outcome S) (xs : list A) :
  (forall acc x, x ∈ xs -> body acc x <> Diverge) ->
  forall acc, for_each body xs acc <> Diverge.
Proof.
  induction xs as [|x xs IH]; intros Hbody acc; simpl; [discriminate|].
  apply bind_not_Diverge.
  - apply Hbody. by left.
  - intros acc' _. apply IH. intros acc'' y Hy. apply Hbody. by right.
Qed.

Lemma timedelta_minutes_not_Diverge (m : Z) : timedelta_minutes m <> Diverge.
Proof. unfold timedelta_minutes. repeat case_decide; discriminate. Qed.

Lemma datetime_add_not_Diverge (t : datetime) (d : timedelta) : datetime_add t d <> Diverge.
Proof. unfold datetime_add. case_decide; discriminate. Qed.

Lemma departure_or_expected_not_Diverge (tr : Train.t) :
  Train.departure_or_expected tr <> Diverge.
Proof.
  unfold Train.departure_or_expected.
  destruct (Train.scheduled_departure tr); [discriminate|apply datetime_add_not_Diverge].
Qed.

Lemma set_delay_not_Diverge (tr : Train.t) (d : Z) : Train.set_delay tr d <> Diverge.
Proof.
  unfold Train.set_delay. case_decide; [|discriminate].
  destruct (Train.actual_arrival _); [discriminate|].
  apply bind_not_Diverge; [apply timedelta_minutes_not_Diverge|].
  intros td _. apply bind_not_Diverge; [apply datetime_add_not_Diverge|discriminate].
Qed.

Lemma slot_clear_not_Diverge (h : timedelta) (s e : datetime)
    (l : list TrainScheduler.reservation) :
  TrainScheduler.slot_clear h s e l <> Diverge.
Proof.
  induction l as [|[[rs re] id] l IH]; simpl; [discriminate|].
  apply bind_not_Diverge; [apply datetime_add_not_Diverge|]. intros end_h _.
  apply bind_not_Diverge.
  - case_decide; [discriminate|].
    apply bind_not_Diverge; [apply datetime_add_not_Diverge|discriminate].
  - intros [] _; [exact IH|discriminate].
Qed.

Lemma slot_is_available_not_Diverge (section : Section.t) (s e : datetime)
    (l : list TrainScheduler.reservation) :
  TrainScheduler._slot_is_available section s e l <> Diverge.
Proof.
  unfold TrainScheduler._slot_is_available.
  apply bind_not_Diverge; [apply timedelta_minutes_not_Diverge|].
  intros h _. apply slot_clear_not_Diverge.
Qed.

(** Enough fuel for the probes that fit between [search_time] and the
    horizon: the search returns or raises. *)
Lemma search_slot_terminates (fuel : nat) (section : Section.t) (tr : Train.t)
    (seg : string) (existing : list TrainScheduler.reservation)
    (min_headway : timedelta) (max_search_time search_time : datetime) :
  0 < min_headway ->
  max_search_time - search_time <= Z.of_nat fuel * min_headway ->
  TrainScheduler.search_slot fuel section tr seg existing min_headway
                             max_search_time search_time <> Diverge.
Proof.
  intros Hpos. revert search_time.
  induction fuel as [|fuel IH]; intros search_time Hfuel.
  - rewrite search_slot_past_horizon by lia. discriminate.
  - simpl. case_decide as Hlt; [|discriminate].
    apply bind_not_Diverge; [apply datetime_add_not_Diverge|]. intros slot_end _.
    apply bind_not_Diverge; [apply slot_is_available_not_Diverge|].
    intros [] _; [discriminate|].
    apply bind_not_Diverge; [apply datetime_add_not_Diverge|].
    intros next Hnext. apply datetime_add_Ret in Hnext as [-> _].
    apply IH. lia.
Qed.

Lemma find_optimal_slot_terminates (fuel : nat) (section : Section.t) (tr : Train.t)
    (reservations : gmap string (list TrainScheduler.reservation)) :
  0 < Section.min_headway_minutes section ->
  (120 <= fuel)%nat ->
  TrainScheduler._find_optimal_slot fuel section tr reservations <> Diverge.
Proof.
  intros Hpos Hfuel. unfold TrainScheduler._find_optimal_slot.
  destruct (truthy _); [|discriminate].
  destruct (Section.get_segment _ _); [|discriminate].
  apply bind_not_Diverge; [apply departure_or_expected_not_Diverge|]. intros desired_end _.
  apply bind_not_Diverge; [apply slot_is_available_not_Diverge|].
  intros [] _; [discriminate|].
  apply bind_not_Diverge; [apply timedelta_minutes_not_Diverge|].
  intros min_headway Hh. apply timedelta_minutes_Ret in Hh as ->.
  apply bind_not_Diverge; [apply datetime_add_not_Diverge|].
  intros max_search_time Hmax. apply datetime_add_Ret in Hmax as [-> _].
  apply bind_not_Diverge; [|discriminate].
  apply search_slot_terminates; unfold us_per_minute; nia.
Qed.

Lemma schedule_train_terminates (fuel : nat) (section : Section.t)
    (st : TrainScheduler.loop_state) (tr : Train.t) :
  0 < Section.min_headway_minutes section ->
  (120 <= fuel)%nat ->
  TrainScheduler.schedule_train fuel section st tr <> Diverge.
Proof.
  intros Hpos Hfuel. unfold TrainScheduler.schedule_train.
  apply bind_not_Diverge; [by apply find_optimal_slot_terminates|].
  intros [[ns|] resv] _; [|discriminate].
  apply bind_not_Diverge.
  - unfold TrainScheduler._create_optimized_train.
    destruct (Qlt_le_dec _ _); [apply set_delay_not_Diverge|discriminate].
  - intros ot _. destruct (Qlt_le_dec _ _); discriminate.
Qed.

Lemma optimize_schedule_terminates (fuel : nat) (section : Section.t)
    (trains : list Train.t) (conflicts : list Conflict.t) :
  0 < Section.min_headway_minutes section ->
  (120 <= fuel)%nat ->
  TrainScheduler.optimize_schedule fuel section trains conflicts <> Diverge.
Proof.
  intros Hpos Hfuel. unfold TrainScheduler.optimize_schedule, TrainScheduler.schedule_all.
  apply bind_not_Diverge; [|discriminate].
  apply for_each_not_Diverge. intros acc x _. by apply schedule_train_terminates.
Qed.

Lemma headway_pairs_not_Diverge (min_headway : timedelta) (trains : list Train.t) :
  ConflictDetector.headway_pairs min_headway trains <> Diverge.
Proof.
  induction trains as [|a [|b rest] IH]; try discriminate.
  change (ConflictDetector.headway_pairs min_headway (a :: b :: rest))
    with (here ←
            (if ConflictDetector._trains_on_same_path a b then
               current_departure ← Train.departure_or_expected a;
               Ret (if decide (Train.scheduled_arrival b - current_departure < min_headway)
                    then [Conflict.mk HEADWAY [Train.train_id a; Train.train_id b]
                            None (Some (Train.scheduled_arrival b)) 3 false None]
                    else [])
             else Ret []);
          later ← ConflictDetector.headway_pairs min_headway (b :: rest);
          Ret (here ++ later)).
  apply bind_not_Diverge.
  - destruct (ConflictDetector._trains_on_same_path a b); [|discriminate].
    apply bind_not_Diverge; [apply departure_or_expected_not_Diverge|discriminate].
  - intros here _. apply bind_not_Diverge; [exact IH|discriminate].
Qed.

Lemma detect_conflicts_not_Diverge (section : Section.t) (trains : list Train.t) :
  ConflictDetector.detect_conflicts section trains <> Diverge.
Proof.
  unfold ConflictDetector.detect_conflicts.
  apply bind_not_Diverge.
  - unfold ConflictDetector._detect_track_conflicts.
    apply bind_not_Diverge; [|discriminate].
    apply for_each_not_Diverge. intros acc x _. unfold ConflictDetector.collect_schedule.
    destruct (truthy _); [|discriminate].
    apply bind_not_Diverge; [apply departure_or_expected_not_Diverge|discriminate].
  - intros track _. apply bind_not_Diverge; [|discriminate].
    unfold ConflictDetector._detect_headway_conflicts.
    apply bind_not_Diverge; [apply timedelta_minutes_not_Diverge|].
    intros h _. apply headway_pairs_not_Diverge.
Qed.

(** With a positive minimum headway, 120 units of fuel are enough for
    every call: [optimize] returns a result (success or error), whatever
    the trains. *)
Theorem optimize_returns_with_positive_headway (fuel : nat)
    (self : OptimizationEngine.t) (start_time now : datetime) (trains : list Train.t) :
  0 < Section.min_headway_minutes (OptimizationEngine.section self) ->
  (120 <= fuel)%nat ->
  exists r self',
    OptimizationEngine.optimize fuel self start_time now trains = Ret (r, self').
Proof.
  intros Hpos Hfuel.
  unfold OptimizationEngine.optimize, OptimizationEngine.optimize_with.
  destruct (OptimizationEngine.try_optimize _ _ _ _ _ _) as [[r self']|e|] eqn:Htry;
    [by eauto|by eauto|].
  exfalso. revert Htry. unfold OptimizationEngine.try_optimize.
  apply bind_not_Diverge; [apply detect_conflicts_not_Diverge|].
  intros conflicts _. apply bind_not_Diverge; [|discriminate].
  destruct conflicts; [discriminate|]. by apply optimize_schedule_terminates.
Qed.

Lemma optimize_returns_with_positive_headway_witness :
  exists r self',
    OptimizationEngine.optimize 120 (OptimizationEngine.init Examples.two_tracks)
      (Examples.at_minute 0) (Examples.at_minute 1) Examples.crowded = Ret (r, self').
Proof.
  apply (optimize_returns_with_positive_headway 120
           (OptimizationEngine.init Examples.two_tracks)).
  - vm_compute. reflexivity.
  - lia.
Defined.

(** ** The shape of an accepted slot *)

Lemma search_slot_shape (fuel : nat) (section : Section.t) (tr : Train.t) (seg : string)
    (existing : list TrainScheduler.reservation) (min_headway : timedelta)
    (max_search_time search_time : datetime) (ns : TrainScheduler.slot) :
  TrainScheduler.search_slot fuel section tr seg existing min_headway
                             max_search_time search_time = Ret (Some ns) ->
  exists k : nat,
    TrainScheduler.arrival_time ns = search_time + Z.of_nat k * min_headway
    /\ TrainScheduler.arrival_time ns < max_search_time
    /\ TrainScheduler.departure_time ns
       = TrainScheduler.arrival_time ns + Train.expected_travel_time tr.
Proof.
  revert search_time. induction fuel as [|fuel IH]; intros search_time; simpl;
    case_decide as Hlt; try discriminate.
  intros Hs. apply bind_Ret_inv in Hs as (slot_end & Hend & Hs).
  apply datetime_add_Ret in Hend as [-> _].
  apply bind_Ret_inv in Hs as (free & _ & Hs).
  destruct free.
  - injection Hs as <-. exists 0%nat. simpl. repeat split; lia.
  - apply bind_Ret_inv in Hs as (next & Hnext & Hs).
    apply datetime_add_Ret in Hnext as [-> _].
    apply IH in Hs as (k & Hk & Hmax & Hdep).
    exists (S k). repeat split; [lia|exact Hmax|exact Hdep].
Qed.

(** A slot is the desired interval itself, or the train's expected
    travel time started a whole number of headways after the desired
    arrival and before the two-hour horizon. *)
Lemma find_optimal_slot_shape (fuel : nat) (section : Section.t) (tr : Train.t)
    (reservations resv : gmap string (list TrainScheduler.reservation))
    (ns : TrainScheduler.slot) :
  TrainScheduler._find_optimal_slot fuel section tr reservations = Ret (Some ns, resv) ->
  (TrainScheduler.arrival_time ns = Train.scheduled_arrival tr
   /\ Train.departure_or_expected tr = Ret (TrainScheduler.departure_time ns))
  \/ exists k : nat,
       TrainScheduler.arrival_time ns
       = Train.scheduled_arrival tr
         + Z.of_nat k * (Section.min_headway_minutes section * us_per_minute)
       /\ TrainScheduler.arrival_time ns < Train.scheduled_arrival tr + 120 * us_per_minute
       /\ TrainScheduler.departure_time ns
          = TrainScheduler.arrival_time ns + Train.expected_travel_time tr.
Proof.
  unfold TrainScheduler._find_optimal_slot.
  destruct (truthy _); [|discriminate].
  destruct (Section.get_segment _ _); [|discriminate].
  intros H. apply bind_Ret_inv in H as (desired_end & Hend & H).
  apply bind_Ret_inv in H as (free & _ & H).
  destruct free.
  - injection H as <- <-. left. by split.
  - apply bind_Ret_inv in H as (min_headway & Hh & H).
    apply timedelta_minutes_Ret in Hh as ->.
    apply bind_Ret_inv in H as (max_search_time & Hmax & H).
    apply datetime_add_Ret in Hmax as [-> _].
    apply bind_Ret_inv in H as (found & Hsearch & H).
    injection H as -> <-. right. by apply search_slot_shape in Hsearch.
Qed.

Lemma find_optimal_slot_within_horizon (fuel : nat) (section : Section.t) (tr : Train.t)
    (reservations resv : gmap string (list TrainScheduler.reservation))
    (ns : TrainScheduler.slot) :
  TrainScheduler._find_optimal_slot fuel section tr reservations = Ret (Some ns, resv) ->
  TrainScheduler.arrival_time ns < Train.scheduled_arrival tr + 120 * us_per_minute.
Proof.
  intros H. apply find_optimal_slot_shape in H as [[-> _]|(k & _ & Hlt & _)];
    [unfold us_per_minute; lia|exact Hlt].
Qed.

(** The delay of a shifted slot, in whole minutes. *)
Lemma shifted_delay_minutes (arrival h : Z) (k : nat) :
  let new_arrival := arrival + Z.of_nat k * (h * us_per_minute) in
  (0 < minutes_between new_arrival arrival)%Q ->
  int_of_float (minutes_between new_arrival arrival) = Z.of_nat k * h
  /\ 0 < Z.of_nat k * h.
Proof.
  intros new_arrival Hpos. unfold minutes_between, int_of_float, Qlt in *. simpl in *.
  replace (new_arrival - arrival) with (Z.of_nat k * h * 60000000) in *
    by (unfold new_arrival, us_per_minute; lia).
  rewrite Z.quot_mul by discriminate. split; [reflexivity|lia].
Qed.

(** One iteration of the loop emits an entry made from its train. *)
Lemma schedule_train_entry (fuel : nat) (section : Section.t)
    (st st' : TrainScheduler.loop_state) (tr : Train.t) :
  TrainScheduler.schedule_train fuel section st tr = Ret st' ->
  exists ot rec,
    TrainScheduler.st_optimized_trains st' = TrainScheduler.st_optimized_trains st ++ [ot]
    /\ TrainScheduler.st_recommendations st'
       = TrainScheduler.st_recommendations st ++ [rec]
    /\ TrainScheduler.entry_of section tr (ot, rec).
Proof.
  intros H. apply schedule_train_inv in H as (found & resv & Hfind & H).
  destruct found as [ns|].
  - destruct H as (ot & rec & Hot & Ho & Hr & _ & Hrec).
    exists ot, rec. split; [exact Ho|]. split; [exact Hr|].
    pose proof (find_optimal_slot_within_horizon _ _ _ _ _ _ Hfind) as Hhorizon.
    pose proof (create_optimized_train_fields _ _ _ Hot) as (Hid & _ & Harr & _ & Hcp).
    unfold TrainScheduler.entry_of. split; [exact Hid|].
    destruct Hrec as [(Hd & -> & _)|(Hd & -> & _)]; simpl; (split; [reflexivity|]).
    + unfold TrainScheduler._create_optimized_train in Hot.
      destruct (Qlt_le_dec _ _) as [_|Hle]; [|by apply Qle_not_lt in Hle].
      apply find_optimal_slot_shape in Hfind as [[Heq _]|(k & Hk & _ & _)].
      { rewrite Heq in Hd. unfold minutes_between, Qlt in Hd. simpl in Hd. lia. }
      rewrite Hk in Hd, Hot, Hhorizon |- *.
      destruct (shifted_delay_minutes _ _ k Hd) as [Hint Hpos].
      rewrite Hint in Hot |- *.
      apply set_delay_fields in Hot as (_ & Hst & _). rewrite Hst.
      split; [unfold us_per_minute in *; nia|].
      split; [by apply Z.divide_factor_r|].
      split; [unfold us_per_minute; lia|].
      split; [by rewrite Harr, Hk|]. split; [exact Hcp|].
      case_decide; [reflexivity|lia].
    + unfold TrainScheduler._create_optimized_train in Hot.
      destruct (Qlt_le_dec _ _) as [Hlt|_]; [by apply Qle_not_lt in Hd|].
      injection Hot as <-. simpl. rewrite <- Hcp. simpl.
      repeat split. unfold minutes_between, Qle in Hd. simpl in Hd. lia.
  - subst st'. simpl. eexists _, _. split; [reflexivity|]. split; [reflexivity|].
    unfold TrainScheduler.entry_of. simpl. by repeat split.
Qed.

(** Every entry of a schedule comes from an input train.  A 'delay'
    recommendation delays its train by a whole number of minutes, a
    multiple of the minimum headway between 1 and 119; the new arrival
    is the original arrival plus that delay and the optimized train is
    marked DELAYED.  A 'proceed' train keeps its status and does not
    arrive later than planned; a held train is the input train itself. *)
Theorem schedule_entries_consistent (fuel : nat) (section : Section.t)
    (trains : list Train.t) (conflicts : list Conflict.t) (r : TrainScheduler.result) :
  TrainScheduler.optimize_schedule fuel section trains conflicts = Ret r ->
  length (TrainScheduler.optimized_trains r) = length trains
  /\ length (TrainScheduler.recommendations r) = length trains
  /\ Forall2 (TrainScheduler.entry_of section)
             (TrainScheduler.sort_by_priority trains)
             (zip (TrainScheduler.optimized_trains r) (TrainScheduler.recommendations r)).
Proof.
  intros H. unfold TrainScheduler.optimize_schedule in H.
  apply bind_Ret_inv in H as (st & Hst & [= <-]). simpl.
  assert (Hinv : length (TrainScheduler.st_optimized_trains st)
                 = length (TrainScheduler.st_recommendations st)
                 /\ Forall2 (TrainScheduler.entry_of section)
                      (TrainScheduler.sort_by_priority trains)
                      (zip (TrainScheduler.st_optimized_trains st)
                           (TrainScheduler.st_recommendations st))).
  { revert Hst. unfold TrainScheduler.schedule_all.
    apply (for_each_invariant _
      (fun done s =>
         length (TrainScheduler.st_optimized_trains s)
         = length (TrainScheduler.st_recommendations s)
         /\ Forall2 (TrainScheduler.entry_of section) done
              (zip (TrainScheduler.st_optimized_trains s)
                   (TrainScheduler.st_recommendations s)))).
    - split; [reflexivity|constructor].
    - intros done x acc acc1 [Hlen Hall] Hstep.
      apply schedule_train_entry in Hstep as (ot & rec & -> & -> & Hentry).
      rewrite !length_app, Hlen. split; [reflexivity|].
      rewrite zip_with_app by exact Hlen.
      apply Forall2_app; [exact Hall|]. by constructor. }
  destruct Hinv as [Hlen Hall].
  pose proof (Forall2_length _ _ _ Hall) as Hzip.
  rewrite length_zip_with, <- Hlen, Nat.min_id in Hzip.
  assert (Hsorted : length (TrainScheduler.sort_by_priority trains) = length trains)
    by (apply Permutation_length, stable_sort_Permutation).
  repeat split; [lia|lia|exact Hall].
Qed.

Lemma schedule_entries_consistent_witness :
  exists r,
    TrainScheduler.optimize_schedule 200 Examples.two_tracks Examples.crowded [] = Ret r
    /\ length (TrainScheduler.recommendations r) = 3%nat
    /\ Forall2 (TrainScheduler.entry_of Examples.two_tracks)
         (TrainScheduler.sort_by_priority Examples.crowded)
         (zip (TrainScheduler.optimized_trains r) (TrainScheduler.recommendations r)).
Proof.
  destruct (TrainScheduler.optimize_schedule 200 Examples.two_tracks Examples.crowded [])
    as [r| |] eqn:E; try (vm_compute in E; discriminate).
  exists r. split; [reflexivity|].
  destruct (schedule_entries_consistent 200 Examples.two_tracks Examples.crowded [] r E)
    as (_ & Hlen & Hall).
  split; [exact Hlen|exact Hall].
Defined.

(** ** The total delay *)

Lemma slot_delay_below_horizon (new_arrival arrival : datetime) :
  new_arrival < arrival + 120 * us_per_minute ->
  (minutes_between new_arrival arrival < 120)%Q.
Proof.
  intros H. unfold minutes_between, Qlt, us_per_minute in *. simpl. lia.
Qed.

(** The total delay is at most 120 minutes per train, and it is zero
    exactly when every recommendation is 'proceed'. *)
Theorem total_delay_bounded (fuel : nat) (section : Section.t)
    (trains : list Train.t) (conflicts : list Conflict.t) (r : TrainScheduler.result) :
  TrainScheduler.optimize_schedule fuel section trains conflicts = Ret r ->
  (TrainScheduler.total_delay_minutes r <= 120 * inject_Z (Z.of_nat (length trains)))%Q
  /\ ((TrainScheduler.total_delay_minutes r == 0)%Q
      <-> Forall (fun rec => TrainScheduler.action rec = "proceed")
                 (TrainScheduler.recommendations r)).
Proof.
  intros H. unfold TrainScheduler.optimize_schedule in H.
  apply bind_Ret_inv in H as (st & Hst & [= <-]). simpl.
  assert (Hlen : length (TrainScheduler.sort_by_priority trains) = length trains)
    by (apply Permutation_length, stable_sort_Permutation).
  rewrite <- Hlen. revert Hst. unfold TrainScheduler.schedule_all.
  intros Hrun.
  assert (Hinv :
    (TrainScheduler.st_total_delay st
     <= 120 * inject_Z (Z.of_nat (length (TrainScheduler.sort_by_priority trains))))%Q
    /\ ((TrainScheduler.st_total_delay st == 0)%Q
        /\ Forall (fun rec => TrainScheduler.action rec = "proceed")
                  (TrainScheduler.st_recommendations st)
        \/ (0 < TrainScheduler.st_total_delay st)%Q
           /\ ~ Forall (fun rec => TrainScheduler.action rec = "proceed")
                       (TrainScheduler.st_recommendations st))).
  { revert Hrun.
    apply (for_each_invariant _
      (fun done s =>
         (TrainScheduler.st_total_delay s <= 120 * inject_Z (Z.of_nat (length done)))%Q
         /\ ((TrainScheduler.st_total_delay s == 0)%Q
             /\ Forall (fun rec => TrainScheduler.action rec = "proceed")
                       (TrainScheduler.st_recommendations s)
             \/ (0 < TrainScheduler.st_total_delay s)%Q
                /\ ~ Forall (fun rec => TrainScheduler.action rec = "proceed")
                            (TrainScheduler.st_recommendations s)))).
    - simpl. split; [unfold Qle; simpl; lia|]. left. split; [reflexivity|constructor].
    - intros done x acc acc1 [Hbound Hzero] Hstep.
      assert (Hnext : (inject_Z (Z.of_nat (length (done ++ [x])))
                       == inject_Z (Z.of_nat (length done)) + 1)%Q).
      { rewrite length_app. simpl. rewrite Nat2Z.inj_add, inject_Z_plus. reflexivity. }
      rewrite Hnext.
      apply schedule_train_inv in Hstep as (found & resv & Hfind & H).
      destruct found as [ns|].
      + destruct H as (ot & rec & _ & _ & -> & _ & Hrec).
        apply find_optimal_slot_within_horizon, slot_delay_below_horizon in Hfind.
        destruct Hrec as [(Hd & -> & ->)|(Hd & -> & ->)].
        * split; [lra|]. right. split; [destruct Hzero as [[? _]|[? _]]; lra|].
          intros Hall. apply Forall_app in Hall as [_ Hall].
          apply Forall_cons_1 in Hall as [Hall _]. discriminate.
        * split; [lra|].
          destruct Hzero as [[Hz Hall]|[Hz Hall]]; [left|right]; (split; [exact Hz|]).
          -- apply Forall_app. split; [exact Hall|]. by repeat constructor.
          -- intros Hall'. apply Hall. by apply Forall_app in Hall' as [? _].
      + subst acc1. simpl. split; [lra|].
        right. split; [destruct Hzero as [[? _]|[? _]]; lra|].
        intros Hall. apply Forall_app in Hall as [_ Hall].
        apply Forall_cons_1 in Hall as [Hall _]. discriminate. }
  destruct Hinv as [Hbound Hzero]. split; [exact Hbound|].
  split.
  - intros Hz. destruct Hzero as [[_ Hall]|[Hpos _]]; [exact Hall|].
    rewrite Hz in Hpos. by apply Qlt_irrefl in Hpos.
  - intros Hall. destruct Hzero as [[Hz _]|[_ Hnot]]; [exact Hz|contradiction].
Qed.

Lemma total_delay_bounded_witness :
  exists r,
    TrainScheduler.optimize_schedule 200 Examples.two_tracks Examples.crowded [] = Ret r
    /\ (TrainScheduler.total_delay_minutes r <= 120 * inject_Z 3)%Q.
Proof.
  destruct (TrainScheduler.optimize_schedule 200 Examples.two_tracks Examples.crowded [])
    as [r| |] eqn:E; try (vm_compute in E; discriminate).
  exists r. split; [reflexivity|].
  exact (proj1 (total_delay_bounded 200 Examples.two_tracks Examples.crowded [] r E)).
Defined.

(** ** What the detector reports *)

Lemma chain_overlap_from (acc : list Train.t) (current_end : datetime)
    (rest : list ConflictDetector.occupancy) :
  exists more,
    ConflictDetector.chain_overlap acc current_end rest = acc ++ more
    /\ Forall (fun tr => exists e, e ∈ rest /\ ConflictDetector.train e = tr) more.
Proof.
  revert acc current_end. induction rest as [|e rest IH]; intros acc current_end; simpl.
  - exists []. by rewrite app_nil_r.
  - case_decide; [|exists []; by rewrite app_nil_r].
    destruct (IH (acc ++ [ConflictDetector.train e])
                 (Z.max current_end (ConflictDetector.end_ e))) as (more & -> & Hmore).
    exists (ConflictDetector.train e :: more). split; [by rewrite <- app_assoc|].
    constructor.
    + exists e. split; [by left|reflexivity].
    + eapply Forall_impl; [exact Hmore|]. intros tr (e' & He' & <-).
      exists e'. split; [by right|reflexivity].
Qed.

Lemma segment_conflicts_reported (section : Section.t) (trains : list Train.t)
    (sid : string) (segment : TrackSegment.t) (schedule : list ConflictDetector.occupancy) :
  Section.get_segment section sid = Some segment ->
  Forall (fun e => ConflictDetector.train e ∈ trains
                   /\ Train.current_position (ConflictDetector.train e) = Some sid)
         schedule ->
  Forall (ConflictDetector.reported_for section trains)
         (ConflictDetector.segment_conflicts sid segment schedule).
Proof.
  intros Hseg. induction schedule as [|e rest IH]; intros Hall; simpl; [constructor|].
  apply Forall_cons_1 in Hall as [[He Hpos] Hrest].
  apply Forall_app. split; [|by apply IH].
  case_decide as Hover; [|constructor]. constructor; [|constructor].
  destruct (chain_overlap_from [ConflictDetector.train e] (ConflictDetector.end_ e) rest)
    as (more & Hchain & Hmore).
  rewrite Hchain in Hover |- *.
  unfold ConflictDetector.reported_for. simpl. rewrite length_map.
  split; [reflexivity|]. split; [simpl; lia|].
  exists sid, segment. repeat split; try assumption; try lia.
  constructor.
  - exists (ConflictDetector.train e). by repeat split.
  - apply Forall_map. eapply Forall_impl; [exact Hmore|].
    intros tr (e' & He' & <-). rewrite Forall_forall in Hrest.
    destruct (Hrest e' He') as [Hin Hp].
    exists (ConflictDetector.train e'). by repeat split.
Qed.

Lemma schedule_append_entries (P : string -> ConflictDetector.occupancy -> Prop)
    (schedules : list (string * list ConflictDetector.occupancy))
    (sid : string) (entry : ConflictDetector.occupancy) :
  Forall (fun '(k, sched) => Forall (P k) sched) schedules ->
  P sid entry ->
  Forall (fun '(k, sched) => Forall (P k) sched)
         (ConflictDetector.schedule_append schedules sid entry).
Proof.
  intros Hall Hentry. induction Hall as [|[k sched] rest Hk Hrest IH]; simpl.
  - repeat constructor. exact Hentry.
  - case_decide as Heq.
    + constructor; [|assumption]. subst k. apply Forall_app. split; [exact Hk|].
      by repeat constructor.
    + constructor; [exact Hk|exact IH].
Qed.

Lemma track_conflicts_reported (section : Section.t) (trains sorted : list Train.t)
    (conflicts : list Conflict.t) :
  (forall tr, tr ∈ sorted -> tr ∈ trains) ->
  ConflictDetector._detect_track_conflicts section sorted = Ret conflicts ->
  Forall (ConflictDetector.reported_for section trains) conflicts.
Proof.
  intros Hsub H. unfold ConflictDetector._detect_track_conflicts in H.
  apply bind_Ret_inv in H as (schedules & Hcollect & [= <-]).
  assert (Hentries :
    Forall (fun '(k, sched) =>
              Forall (fun e => ConflictDetector.train e ∈ trains
                               /\ Train.current_position (ConflictDetector.train e)
                                  = Some k) sched) schedules).
  { cut ((forall tr, tr ∈ sorted -> tr ∈ trains) ->
         Forall (fun '(k, sched) =>
                   Forall (fun e => ConflictDetector.train e ∈ trains
                                    /\ Train.current_position (ConflictDetector.train e)
                                       = Some k) sched) schedules); [by auto|].
    revert Hcollect.
    apply (for_each_invariant ConflictDetector.collect_schedule
      (fun done s =>
         (forall tr, tr ∈ done -> tr ∈ trains) ->
         Forall (fun '(k, sched) =>
                   Forall (fun e => ConflictDetector.train e ∈ trains
                                    /\ Train.current_position (ConflictDetector.train e)
                                       = Some k) sched) s)).
    - intros _. constructor.
    - intros done x acc acc1 IH Hstep Hdone.
      assert (Hacc : Forall (fun '(k, sched) =>
                Forall (fun e => ConflictDetector.train e ∈ trains
                                 /\ Train.current_position (ConflictDetector.train e)
                                    = Some k) sched) acc).
      { apply IH. intros tr Htr. apply Hdone, elem_of_app. by left. }
      unfold ConflictDetector.collect_schedule in Hstep.
      destruct (Train.current_position x) as [pos|] eqn:Hpos; simpl in Hstep;
        [|by injection Hstep as <-].
      case_decide; [by injection Hstep as <-|].
      apply bind_Ret_inv in Hstep as (end_time & _ & [= <-]).
      apply (schedule_append_entries
               (fun k e => ConflictDetector.train e ∈ trains
                           /\ Train.current_position (ConflictDetector.train e) = Some k));
        [exact Hacc|]. simpl. split; [|exact Hpos].
      apply Hdone, elem_of_app. right. by apply list_elem_of_singleton. }
  apply Forall_concat, Forall_map.
  eapply Forall_impl; [exact Hentries|]. intros [sid sched] Hsched.
  destruct (Section.get_segment section sid) as [segment|] eqn:Hseg; [|constructor].
  apply segment_conflicts_reported; [exact Hseg|].
  eapply Permutation_Forall; [symmetry; apply stable_sort_Permutation|exact Hsched].
Qed.

Lemma headway_pairs_cons (min_headway : timedelta) (a b : Train.t) (rest : list Train.t) :
  ConflictDetector.headway_pairs min_headway (a :: b :: rest)
  = (here ←
       (if ConflictDetector._trains_on_same_path a b then
          current_departure ← Train.departure_or_expected a;
          Ret (if decide (Train.scheduled_arrival b - current_departure < min_headway)
               then [Conflict.mk HEADWAY [Train.train_id a; Train.train_id b]
                       None (Some (Train.scheduled_arrival b)) 3 false None]
               else [])
        else Ret []);
     later ← ConflictDetector.headway_pairs min_headway (b :: rest);
     Ret (here ++ later)).
Proof. reflexivity. Qed.

Lemma headway_pairs_reported (section : Section.t) (trains : list Train.t)
    (min_headway : timedelta) (sorted : list Train.t) (conflicts : list Conflict.t) :
  (forall tr, tr ∈ sorted -> tr ∈ trains) ->
  StronglySorted (fun a b => Train.scheduled_arrival a <= Train.scheduled_arrival b) sorted ->
  ConflictDetector.headway_pairs min_headway sorted = Ret conflicts ->
  Forall (ConflictDetector.reported_for section trains) conflicts.
Proof.
  revert conflicts. induction sorted as [|a sorted IH]; intros conflicts Hsub Hsorted H.
  - injection H as <-. constructor.
  - destruct sorted as [|b rest]; [injection H as <-; constructor|].
    rewrite headway_pairs_cons in H.
    apply bind_Ret_inv in H as (here & Hhere & H).
    apply bind_Ret_inv in H as (later & Hlater & [= <-]).
    apply StronglySorted_inv in Hsorted as [Hsorted Hle].
    apply Forall_app. split.
    + destruct (ConflictDetector._trains_on_same_path a b); [|injection Hhere as <-; constructor].
      apply bind_Ret_inv in Hhere as (dep & _ & [= <-]).
      case_decide; [|constructor]. constructor; [|constructor].
      unfold ConflictDetector.reported_for. simpl.
      split; [reflexivity|]. split; [lia|]. split; [reflexivity|]. split; [reflexivity|].
      exists a, b. apply Forall_cons_1 in Hle as [Hab _].
      repeat split; try assumption; try reflexivity.
      * apply Hsub. by left.
      * apply Hsub. right. by left.
    + apply IH; [|exact Hsorted|exact Hlater].
      intros tr Htr. apply Hsub. by right.
Qed.

Lemma platform_conflicts_reported (section : Section.t) (trains sorted : list Train.t) :
  (forall tr, tr ∈ sorted -> tr ∈ trains) ->
  Forall (ConflictDetector.reported_for section trains)
         (ConflictDetector._detect_platform_conflicts section sorted).
Proof.
  intros Hsub. unfold ConflictDetector._detect_platform_conflicts.
  apply Forall_concat, Forall_map, Forall_forall. intros platform Hplatform.
  unfold Section.get_platform_segments in Hplatform.
  apply list_elem_of_In, filter_In in Hplatform as [Hin Hflag].
  apply list_elem_of_In in Hin.
  case_decide as Hover; [|constructor]. constructor; [|constructor].
  unfold ConflictDetector.reported_for. simpl. rewrite length_map.
  split; [reflexivity|]. split; [lia|].
  exists platform. repeat split; try assumption; try lia.
  apply Forall_map, Forall_forall. intros tr Htr.
  apply list_elem_of_In, filter_In in Htr as [Htr Hpos].
  apply bool_decide_eq_true in Hpos. apply list_elem_of_In in Htr.
  exists tr. repeat split; [by apply Hsub|exact Hpos].
Qed.

Lemma detect_conflicts_all_reported (section : Section.t) (trains : list Train.t)
    (conflicts : list Conflict.t) :
  ConflictDetector.detect_conflicts section trains = Ret conflicts ->
  Forall (ConflictDetector.reported_for section trains) conflicts.
Proof.
  unfold ConflictDetector.detect_conflicts.
  set (le := fun x y => bool_decide (Train.scheduled_arrival x <= Train.scheduled_arrival y)).
  set (sorted := stable_sort le trains).
  assert (Hsub : forall tr, tr ∈ sorted -> tr ∈ trains).
  { intros tr. unfold sorted. by rewrite stable_sort_Permutation. }
  assert (Hsorted : StronglySorted
            (fun a b => Train.scheduled_arrival a <= Train.scheduled_arrival b) sorted).
  { eapply StronglySorted_weaken; [|apply (stable_sort_sorted le)].
    - intros a b Hab. unfold le in Hab. by apply bool_decide_eq_true in Hab.
    - intros x y. unfold le.
      destruct (Z.le_ge_cases (Train.scheduled_arrival x) (Train.scheduled_arrival y));
        [left|right]; apply bool_decide_eq_true; lia.
    - intros x y z Hxy Hyz. unfold le in *. apply bool_decide_eq_true in Hxy, Hyz.
      apply bool_decide_eq_true. lia. }
  intros H. apply bind_Ret_inv in H as (track & Htrack & H).
  apply bind_Ret_inv in H as (headway & Hheadway & [= <-]).
  apply Forall_app. split; [by eapply track_conflicts_reported|].
  apply Forall_app. split; [|by apply platform_conflicts_reported].
  unfold ConflictDetector._detect_headway_conflicts in Hheadway.
  apply bind_Ret_inv in Hheadway as (min_headway & _ & Hpairs).
  by eapply headway_pairs_reported.
Qed.

(** Every conflict the detector returns is unresolved and has a severity
    between 1 and 5.  A SAME_TRACK conflict names more trains than the
    plain capacity of its segment, all positioned on that segment, with
    severity min(5, number of trains); a HEADWAY conflict names two
    input trains in arrival order, has severity 3 and no segment; a
    PLATFORM conflict names more trains than the platform capacity of a
    platform segment, all positioned there, with severity 4.  No
    CROSSING conflict is ever reported. *)
Theorem detected_conflicts_reported (section : Section.t) (trains : list Train.t)
    (conflicts : list Conflict.t) :
  ConflictDetector.detect_conflicts section trains = Ret conflicts ->
  Forall (ConflictDetector.reported_for section trains) conflicts.
Proof. apply detect_conflicts_all_reported. Qed.

Lemma detected_conflicts_reported_witness :
  exists conflicts,
    ConflictDetector.detect_conflicts Examples.two_tracks Examples.crowded = Ret conflicts
    /\ length conflicts = 4%nat
    /\ Forall (ConflictDetector.reported_for Examples.two_tracks Examples.crowded) conflicts.
Proof.
  destruct (ConflictDetector.detect_conflicts Examples.two_tracks Examples.crowded)
    as [conflicts| |] eqn:E; try (vm_compute in E; discriminate).
  exists conflicts. split; [reflexivity|].
  split; [vm_compute in E; injection E as <-; reflexivity|].
  exact (detected_conflicts_reported Examples.two_tracks Examples.crowded conflicts E).
Defined.

(** ** The conflict summary *)

Lemma count_if_split (p : Conflict.t -> bool) (conflicts : list Conflict.t) :
  (ConflictDetector.count_if p conflicts
   + ConflictDetector.count_if (fun c => negb (p c)) conflicts)%nat
  = length conflicts.
Proof.
  unfold ConflictDetector.count_if.
  induction conflicts as [|c conflicts IH]; simpl; [reflexivity|].
  destruct (p c); simpl; lia.
Qed.

(** The counts of the summary add up: resolved and pending conflicts,
    the three severity bands, and the four conflict types each partition
    the conflict list. *)
Theorem conflict_summary_partitions (conflicts : list Conflict.t) :
  let s := ConflictDetector.get_conflict_summary conflicts in
  ConflictDetector.total_conflicts s = length conflicts
  /\ (ConflictDetector.resolved_conflicts s + ConflictDetector.pending_conflicts s
      = ConflictDetector.total_conflicts s)%nat
  /\ (ConflictDetector.high_severity s + ConflictDetector.medium_severity s
      + ConflictDetector.low_severity s = ConflictDetector.total_conflicts s)%nat
  /\ (ConflictDetector.same_track_conflicts s + ConflictDetector.crossing_conflicts s
      + ConflictDetector.platform_conflicts s + ConflictDetector.headway_conflicts s
      = ConflictDetector.total_conflicts s)%nat.
Proof.
  simpl. split; [reflexivity|]. split; [apply count_if_split|].
  unfold ConflictDetector.count_if. split.
  - induction conflicts as [|c conflicts IH]; simpl; [reflexivity|].
    repeat case_bool_decide; simpl; lia.
  - induction conflicts as [|c conflicts IH]; simpl; [reflexivity|].
    destruct (Conflict.conflict_type c); repeat case_bool_decide; simpl;
      (congruence || lia).
Qed.

(** ** The segment picked for an unpositioned train *)

Lemma filter_first {A : Type} (p : A -> bool) (l : list A) (x : A) (rest : list A) :
  List.filter p l = x :: rest -> x ∈ l /\ p x = true.
Proof.
  intros H.
  assert (Hin : In x (List.filter p l)) by (rewrite H; by left).
  apply filter_In in Hin as [Hin Hp]. split; [by apply list_elem_of_In|exact Hp].
Qed.

Lemma filter_none {A : Type} (p : A -> bool) (l : list A) :
  List.filter p l = [] -> Forall (fun x => p x = false) l.
Proof.
  induction l as [|x l IH]; simpl; [constructor|].
  destruct (p x) eqn:Hp; [discriminate|]. intros H. constructor; [exact Hp|by apply IH].
Qed.

(** [_get_best_segment_for_train] returns [None] exactly when no segment
    has room; otherwise it names a segment of the section that has room.
    An express gets a non-platform segment whenever one has room, a
    passenger train a platform segment whenever one has room. *)
Theorem best_segment_has_room (section : Section.t) (tr : Train.t) :
  match TrainScheduler._get_best_segment_for_train section tr with
  | None =>
      Forall (fun seg => TrackSegment.is_available seg = false)
             (Section.track_segments section)
  | Some sid =>
      exists seg,
        seg ∈ Section.track_segments section
        /\ TrackSegment.segment_id seg = sid
        /\ TrackSegment.is_available seg = true
        /\ (Train.train_type tr = EXPRESS ->
            TrackSegment.is_platform seg = true ->
            Forall (fun s => TrackSegment.is_available s = true ->
                             TrackSegment.is_platform s = true)
                   (Section.track_segments section))
        /\ (Train.train_type tr = PASSENGER ->
            TrackSegment.is_platform seg = false ->
            Forall (fun s => TrackSegment.is_available s = true ->
                             TrackSegment.is_platform s = false)
                   (Section.track_segments section))
  end.
Proof.
  unfold TrainScheduler._get_best_segment_for_train, Section.get_available_segments.
  destruct (List.filter TrackSegment.is_available (Section.track_segments section))
    as [|first rest] eqn:Havail; [by apply filter_none|].
  destruct (filter_first _ _ _ _ Havail) as [Hfirst_in Hfirst].
  assert (Hroom : forall s, In s (first :: rest) ->
                       s ∈ Section.track_segments section
                       /\ TrackSegment.is_available s = true).
  { intros s Hs. rewrite <- Havail in Hs. apply filter_In in Hs as [Hs Hp].
    split; [by apply list_elem_of_In|exact Hp]. }
  assert (Hall : forall (p : TrackSegment.t -> bool),
             List.filter p (first :: rest) = [] ->
             Forall (fun s => TrackSegment.is_available s = true -> p s = false)
                    (Section.track_segments section)).
  { intros p Hp. apply Forall_forall. intros s Hs Hs_room.
    apply filter_none in Hp. rewrite Forall_forall in Hp. apply Hp.
    rewrite <- Havail. apply list_elem_of_In, filter_In.
    split; [by apply list_elem_of_In|exact Hs_room]. }
  destruct (Train.train_type tr) eqn:Hty.
  - exists first. repeat split; try assumption; discriminate.
  - destruct (List.filter TrackSegment.is_platform (first :: rest)) as [|s more] eqn:Hplat.
    + exists first. repeat split; try assumption; [discriminate|].
      intros _ _. by apply Hall.
    + destruct (filter_first _ _ _ _ Hplat) as [Hs_in Hs_plat].
      destruct (Hroom s) as [Hs Hs_room]; [by apply list_elem_of_In|].
      exists s. repeat split; try assumption; [discriminate|].
      intros _ Hno. congruence.
  - destruct (List.filter (fun s => negb (TrackSegment.is_platform s)) (first :: rest))
      as [|s more] eqn:Hnon.
    + exists first. repeat split; try assumption; [|discriminate].
      intros _ _. apply Hall in Hnon.
      eapply Forall_impl; [exact Hnon|]. intros s Hs Hs_room.
      apply Hs in Hs_room. by apply negb_false_iff in Hs_room.
    + destruct (filter_first _ _ _ _ Hnon) as [Hs_in Hs_non].
      destruct (Hroom s) as [Hs Hs_room]; [by apply list_elem_of_In|].
      exists s. repeat split; try assumption; [|discriminate].
      intros _ Hyes. rewrite Hyes in Hs_non. discriminate.
Qed.

(** ** Delay bookkeeping of a train *)

(** [set_delay] with a positive delay on a train without an actual
    arrival: the train then reports itself delayed by exactly that many
    minutes.  An actual arrival recorded earlier is never overwritten. *)
Theorem set_delay_then_delay_minutes (tr tr' : Train.t) (d : Z) :
  Train.set_delay tr d = Ret tr' ->
  0 < d ->
  Train.status tr' = DELAYED
  /\ match Train.actual_arrival tr with
     | None =>
         Train.actual_arrival tr' = Some (Train.scheduled_arrival tr + d * us_per_minute)
         /\ Train.is_delayed tr' = true
         /\ Train.delay_minutes tr' = d
     | Some a =>
         Train.actual_arrival tr' = Some a
         /\ Train.is_delayed tr' = Train.is_delayed tr
         /\ Train.delay_minutes tr' = Train.delay_minutes tr
     end.
Proof.
  unfold Train.set_delay. intros H Hd. case_decide; [|lia].
  destruct (Train.actual_arrival tr) as [a|] eqn:Ha; simpl in H; rewrite Ha in H.
  - injection H as <-. unfold Train.delay_minutes, Train.is_delayed. simpl.
    by rewrite !Ha.
  - apply bind_Ret_inv in H as (td & Htd & H).
    apply timedelta_minutes_Ret in Htd as ->.
    apply bind_Ret_inv in H as (a & Hadd & [= <-]).
    apply datetime_add_Ret in Hadd as [-> _]. simpl.
    unfold Train.is_delayed, Train.delay_minutes, Train.is_delayed. simpl.
    split; [reflexivity|]. split; [reflexivity|].
    rewrite bool_decide_eq_true_2 by (unfold us_per_minute; lia).
    split; [reflexivity|].
    unfold int_of_float, minutes_between. simpl.
    replace (Train.scheduled_arrival tr + d * us_per_minute - Train.scheduled_arrival tr)
      with (d * 60000000) by (unfold us_per_minute; lia).
    apply Z.quot_mul. discriminate.
Qed.

Lemma set_delay_then_delay_minutes_witness :
  exists tr',
    Train.set_delay Examples.freight_on_time 10 = Ret tr'
    /\ Train.is_delayed tr' = true
    /\ Train.delay_minutes tr' = 10.
Proof.
  destruct (Train.set_delay Examples.freight_on_time 10) as [tr'| |] eqn:E;
    try (vm_compute in E; discriminate).
  exists tr'. split; [reflexivity|].
  destruct (set_delay_then_delay_minutes Examples.freight_on_time tr' 10 E ltac:(lia))
    as (_ & _ & Hdelayed & Hminutes).
  split; [exact Hdelayed|exact Hminutes].
Defined.

(** For an actual arrival less than 2^51 microseconds (about 71 years)
    after the scheduled one, the delay a train reports is the lateness
    of its actual arrival in whole minutes, rounded down: it is never
    negative, it is 0 without an actual arrival or with an arrival on
    time, and it is positive only for a train that reports itself
    delayed.  A train less than a minute late is delayed by 0
    minutes. *)
Theorem delay_minutes_truncates (tr : Train.t) :
  (forall a, Train.actual_arrival tr = Some a ->
             a - Train.scheduled_arrival tr < 2 ^ 51) ->
  0 <= Train.delay_minutes tr
  /\ (0 < Train.delay_minutes tr -> Train.is_delayed tr = true)
  /\ match Train.actual_arrival tr with
     | Some a =>
         let late := Z.max 0 (a - Train.scheduled_arrival tr) in
         Train.delay_minutes tr * us_per_minute <= late
         < (Train.delay_minutes tr + 1) * us_per_minute
     | None => Train.delay_minutes tr = 0
     end.
Proof.
  intros _. unfold Train.delay_minutes, Train.is_delayed.
  destruct (Train.actual_arrival tr) as [a|]; [|repeat split; lia].
  case_bool_decide as Hlate.
  - unfold int_of_float, minutes_between, us_per_minute. simpl.
    rewrite Z.quot_div_nonneg by lia.
    pose proof (Z.div_mod (a - Train.scheduled_arrival tr) 60000000 ltac:(lia)) as Hdiv.
    pose proof (Z.mod_pos_bound (a - Train.scheduled_arrival tr) 60000000 ltac:(lia)) as Hmod.
    assert (0 <= (a - Train.scheduled_arrival tr) / 60000000)
      by (apply Z.div_pos; lia).
    repeat split; lia.
  - unfold us_per_minute. repeat split; lia.
Qed.

Lemma delay_minutes_truncates_witness :
  Train.is_delayed Examples.ninety_seconds_late = true
  /\ Train.delay_minutes Examples.ninety_seconds_late = 1.
Proof.
  destruct (delay_minutes_truncates Examples.ninety_seconds_late) as (_ & _ & Hfloor).
  - intros a [= <-]. vm_compute. reflexivity.
  - split; [reflexivity|].
    change (Train.actual_arrival Examples.ninety_seconds_late)
      with (Some (Examples.at_minute 0 + 90000000)) in Hfloor.
    cbv zeta in Hfloor. unfold us_per_minute in Hfloor.
    assert (Hlate : Z.max 0 (Examples.at_minute 0 + 90000000
                             - Train.scheduled_arrival Examples.ninety_seconds_late)
                    = 90000000) by reflexivity.
    rewrite Hlate in Hfloor. lia.
Defined.

(** ** Occupancy of a track segment *)

Lemma remove_first_snoc (x : string) (l : list string) :
  x ∉ l -> remove_first x (l ++ [x]) = l.
Proof.
  induction l as [|y l IH]; intros Hx; simpl.
  - by case_decide.
  - apply not_elem_of_cons in Hx as [Hne Hx].
    case_decide; [congruence|]. by rewrite IH.
Qed.

Lemma remove_first_length (x : string) (l : list string) :
  x ∈ l -> S (length (remove_first x l)) = length l.
Proof.
  induction l as [|y l IH]; intros Hx; simpl; [by apply elem_of_nil in Hx|].
  case_decide as Heq; [reflexivity|].
  apply elem_of_cons in Hx as [->|Hx]; [contradiction|]. simpl. by rewrite IH.
Qed.

Lemma remove_first_subset (x y : string) (l : list string) :
  y ∈ remove_first x l -> y ∈ l.
Proof.
  induction l as [|z l IH]; simpl; [done|].
  case_decide; intros Hy; [by right|].
  apply elem_of_cons in Hy as [->|Hy]; [by left|right; by apply IH].
Qed.

Lemma remove_first_NoDup (x : string) (l : list string) :
  NoDup l -> NoDup (remove_first x l).
Proof.
  induction 1 as [|y l Hy Hl IH]; simpl; [constructor|].
  case_decide; [exact Hl|]. constructor; [|exact IH].
  intros Hin. apply Hy. by eapply remove_first_subset.
Qed.

(** [add_train] accepts a train exactly when the segment has room and
    does not hold it yet; it then appends the train and nothing else
    changes.  It never takes the occupancy beyond the effective capacity
    and never stores a train twice. *)
Theorem add_train_respects_capacity (self : TrackSegment.t) (train_id : string) :
  let '(self', ok) := TrackSegment.add_train self train_id in
  (ok = true <-> TrackSegment.is_available self = true
                 /\ train_id ∉ TrackSegment.current_occupancy self)
  /\ (if ok
      then TrackSegment.current_occupancy self'
           = TrackSegment.current_occupancy self ++ [train_id]
      else self' = self)
  /\ TrackSegment.segment_id self' = TrackSegment.segment_id self
  /\ TrackSegment.max_capacity self' = TrackSegment.max_capacity self
  /\ (Z.of_nat (length (TrackSegment.current_occupancy self))
      <= TrackSegment.max_capacity self ->
      Z.of_nat (length (TrackSegment.current_occupancy self'))
      <= TrackSegment.max_capacity self')
  /\ (NoDup (TrackSegment.current_occupancy self) ->
      NoDup (TrackSegment.current_occupancy self')).
Proof.
  unfold TrackSegment.add_train.
  destruct (TrackSegment.is_available self) eqn:Hroom; simpl.
  - case_bool_decide as Hin; simpl.
    + repeat split; try done. intros [_ Hnot]. contradiction.
    + repeat split; try done.
      * intros _. unfold TrackSegment.is_available in Hroom.
        apply bool_decide_eq_true in Hroom. rewrite length_app. simpl.
        unfold TrackSegment.max_capacity in *. simpl. lia.
      * intros Hnd. apply NoDup_app. repeat split; [exact Hnd| |apply NoDup_singleton].
        intros x Hx Hx'. apply list_elem_of_singleton in Hx'. by subst x.
  - repeat split; try done. intros [? _]. discriminate.
Qed.

(** Removing a train that was just added gives back the segment as it
    was; removing a train that is not there changes nothing and reports
    failure. *)
Theorem remove_train_undoes_add (self : TrackSegment.t) (train_id : string) :
  (forall self',
     TrackSegment.add_train self train_id = (self', true) ->
     TrackSegment.remove_train self' train_id = (self, true))
  /\ (train_id ∉ TrackSegment.current_occupancy self ->
      TrackSegment.remove_train self train_id = (self, false))
  /\ (train_id ∈ TrackSegment.current_occupancy self ->
      exists self',
        TrackSegment.remove_train self train_id = (self', true)
        /\ S (length (TrackSegment.current_occupancy self'))
           = length (TrackSegment.current_occupancy self)
        /\ (NoDup (TrackSegment.current_occupancy self) ->
            train_id ∉ TrackSegment.current_occupancy self')).
Proof.
  split; [|split].
  - intros self'. unfold TrackSegment.add_train, TrackSegment.remove_train.
    destruct (TrackSegment.is_available self); simpl; [|discriminate].
    case_bool_decide as Hin; simpl; [discriminate|]. intros [= <-]. simpl.
    rewrite bool_decide_eq_true_2 by (apply elem_of_app; right; by left).
    rewrite remove_first_snoc by exact Hin. by destruct self.
  - intros Hnot. unfold TrackSegment.remove_train. by rewrite bool_decide_eq_false_2.
  - intros Hin. unfold TrackSegment.remove_train. rewrite bool_decide_eq_true_2 by exact Hin.
    eexists. split; [reflexivity|]. simpl. split; [by apply remove_first_length|].
    intros Hnd. clear Hin. induction Hnd as [|y l Hy Hl IH]; simpl; [apply not_elem_of_nil|].
    case_decide as Heq; [by subst y|].
    apply not_elem_of_cons. split; [congruence|exact IH].
Qed.

Lemma remove_train_undoes_add_witness :
  TrackSegment.remove_train
    (TrackSegment.add_train (Examples.track "S1" 1) "T1").1 "T1"
  = (Examples.track "S1" 1, true).
Proof.
  apply (proj1 (remove_train_undoes_add (Examples.track "S1" 1) "T1")).
  vm_compute. reflexivity.
Defined.

(** ** Segments of a section *)

Lemma segment_lookup_fold (sid : string) (segments : list TrackSegment.t)
    (m : gmap string TrackSegment.t) :
  foldl (fun m seg => <[TrackSegment.segment_id seg := seg]> m) m segments !! sid
  = match last (List.filter (fun seg => bool_decide (TrackSegment.segment_id seg = sid))
                            segments) with
    | Some seg => Some seg
    | None => m !! sid
    end.
Proof.
  revert m. induction segments as [|x segments IH]; intros m; simpl; [reflexivity|].
  rewrite IH. case_bool_decide as Hx.
  - rewrite last_cons. destruct (last _); [reflexivity|].
    by rewrite Hx, lookup_insert_eq.
  - destruct (last _); [reflexivity|]. by rewrite lookup_insert_ne.
Qed.

Lemma get_segment_last (self : Section.t) (sid : string) :
  Section.get_segment self sid
  = last (List.filter (fun seg => bool_decide (TrackSegment.segment_id seg = sid))
                      (Section.track_segments self)).
Proof.
  unfold Section.get_segment, Section._segment_lookup. rewrite segment_lookup_fold.
  by destruct (last _).
Qed.

(** Where the last segment with a given id sits in the list. *)
Lemma last_match_split (sid : string) (segments : list TrackSegment.t) :
  match last (List.filter (fun seg => bool_decide (TrackSegment.segment_id seg = sid))
                          segments) with
  | Some x =>
      exists l1 l2,
        segments = l1 ++ x :: l2
        /\ TrackSegment.segment_id x = sid
        /\ Forall (fun s => TrackSegment.segment_id s <> sid) l2
  | None => Forall (fun s => TrackSegment.segment_id s <> sid) segments
  end.
Proof.
  induction segments as [|y segments IH]; simpl; [constructor|].
  case_bool_decide as Hy.
  - rewrite last_cons. destruct (last _) as [x|].
    + destruct IH as (l1 & l2 & -> & Hx & Hl2). exists (y :: l1), l2. by repeat split.
    + exists [], segments. by repeat split.
  - destruct (last _) as [x|].
    + destruct IH as (l1 & l2 & -> & Hx & Hl2). exists (y :: l1), l2. by repeat split.
    + by constructor.
Qed.

Lemma update_last_no_match (sid : string) (f : TrackSegment.t -> TrackSegment.t)
    (segments : list TrackSegment.t) :
  Forall (fun s => TrackSegment.segment_id s <> sid) segments ->
  Section.update_last sid f segments = (segments, false).
Proof.
  induction 1 as [|y l Hy _ IH]; simpl; [reflexivity|].
  rewrite IH. by case_decide.
Qed.

Lemma update_last_split (sid : string) (f : TrackSegment.t -> TrackSegment.t)
    (l1 l2 : list TrackSegment.t) (x : TrackSegment.t) :
  TrackSegment.segment_id x = sid ->
  Forall (fun s => TrackSegment.segment_id s <> sid) l2 ->
  Section.update_last sid f (l1 ++ x :: l2) = (l1 ++ f x :: l2, true).
Proof.
  intros Hx Hl2. induction l1 as [|y l1 IH]; simpl.
  - rewrite (update_last_no_match _ _ _ Hl2). by case_decide.
  - by rewrite IH.
Qed.

(** [get_segment] returns a segment of the section with the requested
    id, the last one when several share it, and [None] exactly when no
    segment has that id. *)
Theorem get_segment_finds_last (self : Section.t) (sid : string) :
  match Section.get_segment self sid with
  | Some seg =>
      exists l1 l2,
        Section.track_segments self = l1 ++ seg :: l2
        /\ TrackSegment.segment_id seg = sid
        /\ Forall (fun s => TrackSegment.segment_id s <> sid) l2
  | None =>
      Forall (fun s => TrackSegment.segment_id s <> sid) (Section.track_segments self)
  end.
Proof. rewrite get_segment_last. apply last_match_split. Qed.

Lemma occupancy_sum_app (l1 l2 : list TrackSegment.t) :
  foldr Z.add 0
    (map (fun seg => Z.of_nat (length (TrackSegment.current_occupancy seg))) (l1 ++ l2))
  = foldr Z.add 0
      (map (fun seg => Z.of_nat (length (TrackSegment.current_occupancy seg))) l1)
    + foldr Z.add 0
        (map (fun seg => Z.of_nat (length (TrackSegment.current_occupancy seg))) l2).
Proof. induction l1 as [|x l1 IH]; simpl; lia. Qed.

Lemma add_train_cases (self : TrackSegment.t) (train_id : string) :
  TrackSegment.add_train self train_id = (self, false)
  \/ TrackSegment.is_available self = true
     /\ (train_id ∉ TrackSegment.current_occupancy self)
     /\ TrackSegment.add_train self train_id
        = (TrackSegment.mk (TrackSegment.segment_id self) (TrackSegment.name self)
             (TrackSegment.length_km self) (TrackSegment.capacity self)
             (TrackSegment.is_platform self) (TrackSegment.platform_capacity self)
             (TrackSegment.current_occupancy self ++ [train_id]), true).
Proof.
  unfold TrackSegment.add_train.
  destruct (TrackSegment.is_available self); simpl; [|by left].
  case_bool_decide; simpl; [by left|right; by repeat split].
Qed.

Lemma find_none_prefix {A : Type} (p : A -> bool) (l1 l2 : list A) :
  List.find p (l1 ++ l2) = None -> List.find p l1 = None.
Proof.
  induction l1 as [|y l1 IH]; simpl; [reflexivity|].
  destruct (p y); [discriminate|exact IH].
Qed.

Lemma find_after_prefix {A : Type} (p : A -> bool) (l1 : list A) (x : A) (l2 : list A) :
  List.find p l1 = None -> p x = true -> List.find p (l1 ++ x :: l2) = Some x.
Proof.
  induction l1 as [|y l1 IH]; simpl; intros Hnone Hx; [by rewrite Hx|].
  destruct (p y); [discriminate|by apply IH].
Qed.

(** Assigning a train to a segment, on the values of the lists: an
    unknown segment id changes nothing and reports failure.  Otherwise
    the verdict is that of the segment's [add_train]; the ids of the
    segments stay as they are, the occupancy grows by one on success
    and stays the same on failure, segments within their effective
    capacity stay within it, and a train that was nowhere in the
    section is afterwards found on the segment it was assigned to. *)
Lemma assign_by_value (self : Section.t) (train_id sid : string) :
  let '(self', ok) := Section.assign_train_to_segment self train_id sid in
  (Section.get_segment self sid = None -> self' = self /\ ok = false)
  /\ (ok = true -> Section.can_accommodate_train self sid = true)
  /\ map TrackSegment.segment_id (Section.track_segments self')
     = map TrackSegment.segment_id (Section.track_segments self)
  /\ Section.current_occupancy self'
     = Section.current_occupancy self + (if ok then 1 else 0)
  /\ (Forall (fun seg => Z.of_nat (length (TrackSegment.current_occupancy seg))
                         <= TrackSegment.max_capacity seg)
             (Section.track_segments self) ->
      Forall (fun seg => Z.of_nat (length (TrackSegment.current_occupancy seg))
                         <= TrackSegment.max_capacity seg)
             (Section.track_segments self'))
  /\ (ok = true ->
      Section.find_train_position self train_id = None ->
      Section.find_train_position self' train_id = Some sid).
Proof.
  unfold Section.assign_train_to_segment, Section.can_accommodate_train.
  pose proof (last_match_split sid (Section.track_segments self)) as Hlast.
  rewrite <- get_segment_last in Hlast.
  destruct (Section.get_segment self sid) as [seg|] eqn:Hseg.
  2:{ repeat split; try done. lia. }
  destruct Hlast as (l1 & l2 & Hsplit & Hid & Hl2).
  rewrite Hsplit, (update_last_split sid _ l1 l2 seg Hid Hl2). simpl.
  destruct (add_train_cases seg train_id) as [Hno|(Hroom & Hnot & Hyes)].
  - rewrite Hno. simpl. split; [discriminate|]. split; [discriminate|].
    unfold Section.current_occupancy. simpl. rewrite Hsplit.
    repeat split; try done. lia.
  - rewrite Hyes. simpl. split; [discriminate|]. split; [by intros _|].
    split; [by rewrite !map_app|].
    split.
    { unfold Section.current_occupancy. simpl. rewrite Hsplit, !occupancy_sum_app. simpl.
      rewrite length_app. simpl. lia. }
    split.
    { intros Hall. apply Forall_app in Hall as [H1 Hall].
      apply Forall_cons_1 in Hall as [Hx H2].
      apply Forall_app. split; [exact H1|]. constructor; [|exact H2].
      unfold TrackSegment.is_available in Hroom. apply bool_decide_eq_true in Hroom.
      unfold TrackSegment.max_capacity in *. simpl. rewrite length_app. simpl. lia. }
    intros _. unfold Section.find_train_position. simpl. rewrite Hsplit.
    intros Hnowhere. apply fmap_None, find_none_prefix in Hnowhere.
    rewrite (find_after_prefix _ l1 _ l2 Hnowhere).
    + simpl. by rewrite Hid.
    + simpl. apply bool_decide_eq_true_2, elem_of_app. right. by left.
Qed.

(** ** The bounded history *)

Lemma store_spec (history : list OptimizationEngine.result) (r : OptimizationEngine.result) :
  (length history <= 100)%nat ->
  OptimizationEngine.store history r
  = (if decide (length history = 100%nat) then drop 1 history else history) ++ [r]
  /\ (length (OptimizationEngine.store history r) <= 100)%nat.
Proof.
  intros Hlen. unfold OptimizationEngine.store. rewrite length_app. simpl.
  destruct (decide (length history = 100%nat)) as [Hfull|Hroom].
  - rewrite decide_True by lia.
    replace (length history + 1 - 100)%nat with 1%nat by lia.
    rewrite drop_app_le by lia. split; [reflexivity|].
    rewrite length_app, length_drop. simpl. lia.
  - rewrite decide_False by lia. split; [reflexivity|].
    rewrite length_app. simpl. lia.
Qed.

Lemma reachable_history_bounded (sec : Section.t) (self : OptimizationEngine.t) :
  OptimizationEngine.reachable sec self ->
  (length (OptimizationEngine.optimization_history self) <= 100)%nat
  /\ OptimizationEngine.section self = sec.
Proof.
  induction 1 as [|fuel self self' start_time now trains r _ [IHlen IHsec] Hrun].
  - simpl. split; [lia|reflexivity].
  - unfold OptimizationEngine.optimize, OptimizationEngine.optimize_with in Hrun.
    destruct (OptimizationEngine.try_optimize _ _ _ _ _ _) as [[r0 s0]|e|] eqn:Htry;
      try discriminate.
    + injection Hrun as -> ->.
      apply try_optimize_success in Htry as (_ & Hsec & Hh).
      rewrite Hsec, Hh. split; [|exact IHsec]. by apply store_spec.
    + injection Hrun as <- <-. by split.
Qed.

(** The history of an engine never holds more than 100 results.  A
    successful call appends its result at the end, after dropping the
    oldest entry when 100 are already stored; the engine then reports
    the start time of that call as its last optimization, and its
    optimization count stays at 100 once the history is full. *)
Theorem history_keeps_last_hundred (sec : Section.t) (fuel : nat)
    (self self' : OptimizationEngine.t) (start_time now : datetime)
    (trains : list Train.t) (r : OptimizationEngine.result) :
  OptimizationEngine.reachable sec self ->
  OptimizationEngine.optimize fuel self start_time now trains = Ret (r, self') ->
  OptimizationEngine.status r = "success" ->
  OptimizationEngine.optimization_history self'
  = (if decide (length (OptimizationEngine.optimization_history self) = 100%nat)
     then drop 1 (OptimizationEngine.optimization_history self)
     else OptimizationEngine.optimization_history self) ++ [r]
  /\ (OptimizationEngine.optimization_count self <= 100)%nat
  /\ (OptimizationEngine.optimization_count self' <= 100)%nat
  /\ OptimizationEngine.last_optimization self' = Some start_time.
Proof.
  intros Hreach Hrun Hok.
  pose proof (reachable_history_bounded sec self Hreach) as [Hlen _].
  unfold OptimizationEngine.optimize, OptimizationEngine.optimize_with in Hrun.
  destruct (OptimizationEngine.try_optimize _ _ _ _ _ _) as [[r0 s0]|e|] eqn:Htry;
    try discriminate.
  2:{ injection Hrun as <- <-. discriminate. }
  injection Hrun as -> ->.
  assert (Hts : OptimizationEngine.timestamp r = start_time).
  { unfold OptimizationEngine.try_optimize in Htry.
    apply bind_Ret_inv in Htry as (conflicts & _ & Htry).
    apply bind_Ret_inv in Htry as (res & _ & Htry). by injection Htry as <- <-. }
  apply try_optimize_success in Htry as (_ & _ & Hh).
  destruct (store_spec (OptimizationEngine.optimization_history self) r Hlen)
    as [Hstore Hbound].
  unfold OptimizationEngine.optimization_count, OptimizationEngine.last_optimization.
  rewrite Hh. split; [exact Hstore|]. split; [exact Hlen|]. split; [exact Hbound|].
  rewrite Hstore, last_snoc. simpl. by rewrite Hts.
Qed.

Lemma history_keeps_last_hundred_witness :
  exists r self',
    OptimizationEngine.optimize 0 (OptimizationEngine.init Examples.two_tracks)
      (Examples.at_minute 0) (Examples.at_minute 1) Examples.spaced = Ret (r, self')
    /\ OptimizationEngine.optimization_history self' = [r]
    /\ OptimizationEngine.last_optimization self' = Some (Examples.at_minute 0).
Proof.
  destruct (OptimizationEngine.optimize 0 (OptimizationEngine.init Examples.two_tracks)
              (Examples.at_minute 0) (Examples.at_minute 1) Examples.spaced)
    as [[r self']| |] eqn:E; try (vm_compute in E; discriminate).
  exists r, self'. split; [reflexivity|].
  assert (Hok : OptimizationEngine.status r = "success").
  { vm_compute in E. injection E as <- _. reflexivity. }
  destruct (history_keeps_last_hundred Examples.two_tracks 0
              (OptimizationEngine.init Examples.two_tracks) self'
              (Examples.at_minute 0) (Examples.at_minute 1) Examples.spaced r
              (OptimizationEngine.reachable_init Examples.two_tracks) E Hok)
    as (Hh & _ & _ & Hlast).
  split; [exact Hh|exact Hlast].
Defined.

(** [get_optimization_history]: a positive limit returns the newest
    entries, at most [limit] of them and exactly [limit] when that many
    are stored; a limit of 0 returns the whole history, not none of it;
    a negative limit drops that many of the oldest entries. *)
Theorem history_slice (self : OptimizationEngine.t) (limit : Z) :
  let history := OptimizationEngine.optimization_history self in
  let recent := OptimizationEngine.get_optimization_history self limit in
  (exists older, history = older ++ recent)
  /\ (0 < limit ->
      Z.of_nat (length recent) = Z.min limit (Z.of_nat (length history)))
  /\ (limit = 0 -> recent = history)
  /\ (limit < 0 ->
      Z.of_nat (length recent) = Z.max 0 (Z.of_nat (length history) + limit)).
Proof.
  intros history recent. unfold recent, OptimizationEngine.get_optimization_history.
  fold history. split; [|split; [|split]].
  - case_decide.
    + exists (take (length history - Z.to_nat limit) history). by rewrite take_drop.
    + exists (take (Z.to_nat (- limit)) history). by rewrite take_drop.
  - intros Hpos. rewrite decide_True by lia. rewrite length_drop. lia.
  - intros ->. by rewrite decide_False by lia.
  - intros Hneg. rewrite decide_False by lia. rewrite length_drop. lia.
Qed.

(** ** The figures of a successful result *)

Lemma count_action_partition (recs : list TrainScheduler.recommendation) :
  (OptimizationEngine.count_action "proceed" recs
   + OptimizationEngine.count_action "delay" recs
   + OptimizationEngine.count_action "hold" recs)%nat = length recs.
Proof.
  unfold OptimizationEngine.count_action.
  induction recs as [|rec recs IH]; simpl; [reflexivity|].
  destruct rec; simpl; repeat case_bool_decide; simpl; (congruence || lia).
Qed.

Lemma percentage_bounds (part whole : nat) :
  (part <= whole)%nat ->
  (0 <= OptimizationEngine.percentage part whole <= 100)%Q.
Proof.
  intros Hle. unfold OptimizationEngine.percentage.
  case_decide as Hpos; [|split; discriminate].
  assert (Hp : 0 <= Z.of_nat part <= Z.of_nat whole) by lia.
  destruct (Z.of_nat whole) as [|w|w] eqn:Hw; [lia| |lia].
  revert Hp. generalize (Z.of_nat part). intros p Hp.
  unfold Qle, Qdiv, Qmult, Qinv, inject_Z; simpl. split; nia.
Qed.

Lemma default_recommendations_length (trains : list Train.t) :
  length (TrainScheduler.recommendations
            (OptimizationEngine._generate_default_recommendations trains))
  = length trains.
Proof. simpl. apply length_map. Qed.

Lemma optimize_schedule_length (fuel : nat) (section : Section.t) (trains : list Train.t)
    (conflicts : list Conflict.t) (res : TrainScheduler.result) :
  TrainScheduler.optimize_schedule fuel section trains conflicts = Ret res ->
  length (TrainScheduler.recommendations res) = length trains.
Proof.
  intros H. unfold TrainScheduler.optimize_schedule in H.
  apply bind_Ret_inv in H as (st & Hst & [= <-]). simpl.
  apply schedule_all_order in Hst as (_ & _ & Hrecs).
  apply (f_equal length) in Hrecs. rewrite !length_map in Hrecs. rewrite Hrecs.
  apply Permutation_length, stable_sort_Permutation.
Qed.

Lemma reported_unresolved (section : Section.t) (trains : list Train.t)
    (conflicts : list Conflict.t) :
  Forall (ConflictDetector.reported_for section trains) conflicts ->
  List.filter Conflict.is_resolved conflicts = [].
Proof.
  induction 1 as [|c cs Hc _ IH]; simpl; [reflexivity|].
  destruct Hc as [-> _]. exact IH.
Qed.

(** A successful result is consistent with its input: it carries the
    conflicts the detector found and one recommendation per train; in
    its metrics the proceed, delay and hold counts add up to the number
    of trains, no conflict is counted as resolved (so the resolution
    rate is 0 as soon as there is a conflict, and 100 when there is
    none), and the on-time percentage lies between 0 and 100. *)
Theorem success_result_consistent (fuel : nat) (self self' : OptimizationEngine.t)
    (start_time now : datetime) (trains : list Train.t) (r : OptimizationEngine.result) :
  OptimizationEngine.optimize fuel self start_time now trains = Ret (r, self') ->
  OptimizationEngine.status r = "success" ->
  exists conflicts res m,
    r = OptimizationEngine.Success start_time
          (Section.section_id (OptimizationEngine.section self)) (length trains)
          conflicts (ConflictDetector.get_conflict_summary conflicts) res m
          (OptimizationEngine.elapsed_ms start_time now)
          (TrainScheduler.recommendations res)
    /\ ConflictDetector.detect_conflicts (OptimizationEngine.section self) trains
       = Ret conflicts
    /\ length (TrainScheduler.recommendations res) = length trains
    /\ OptimizationEngine.total_trains m = length trains
    /\ (OptimizationEngine.proceed_recommendations m
        + OptimizationEngine.delay_recommendations m
        + OptimizationEngine.hold_recommendations m)%nat
       = OptimizationEngine.total_trains m
    /\ OptimizationEngine.total_conflicts m = length conflicts
    /\ OptimizationEngine.resolved_conflicts m = 0%nat
    /\ (OptimizationEngine.resolution_rate m
        == match conflicts with [] => 100 | _ :: _ => 0 end)%Q
    /\ (0 <= OptimizationEngine.on_time_percentage m <= 100)%Q.
Proof.
  intros Hrun Hok.
  unfold OptimizationEngine.optimize, OptimizationEngine.optimize_with in Hrun.
  destruct (OptimizationEngine.try_optimize _ _ _ _ _ _) as [[r0 s0]|e|] eqn:Htry;
    try discriminate.
  2:{ injection Hrun as <- <-. discriminate. }
  injection Hrun as -> ->. unfold OptimizationEngine.try_optimize in Htry.
  apply bind_Ret_inv in Htry as (conflicts & Hdetect & Htry).
  apply bind_Ret_inv in Htry as (res & Hres & Htry).
  injection Htry as <- _.
  assert (Hlen : length (TrainScheduler.recommendations res) = length trains).
  { destruct conflicts; [injection Hres as <-; apply default_recommendations_length|].
    by eapply optimize_schedule_length. }
  assert (Hunresolved : List.filter Conflict.is_resolved conflicts = []).
  { by eapply reported_unresolved, detect_conflicts_all_reported. }
  eexists conflicts, res, _. split; [reflexivity|]. split; [exact Hdetect|].
  split; [exact Hlen|]. unfold OptimizationEngine._calculate_metrics. simpl.
  split; [reflexivity|]. split; [by rewrite count_action_partition|].
  split; [reflexivity|]. rewrite Hunresolved. simpl. split; [reflexivity|].
  split.
  - destruct conflicts; [reflexivity|].
    unfold OptimizationEngine.percentage. rewrite decide_True by (simpl; lia).
    unfold Qeq, Qdiv, Qmult, Qinv, inject_Z. simpl. reflexivity.
  - apply percentage_bounds. lia.
Qed.

Lemma success_result_consistent_witness :
  exists r self',
    OptimizationEngine.optimize 200 (OptimizationEngine.init Examples.two_tracks)
      (Examples.at_minute 0) (Examples.at_minute 1) Examples.crowded = Ret (r, self')
    /\ length (OptimizationEngine.recommendations r) = 3%nat.
Proof.
  destruct (OptimizationEngine.optimize 200 (OptimizationEngine.init Examples.two_tracks)
              (Examples.at_minute 0) (Examples.at_minute 1) Examples.crowded)
    as [[r self']| |] eqn:E; try (vm_compute in E; discriminate).
  exists r, self'. split; [reflexivity|].
  assert (Hok : OptimizationEngine.status r = "success").
  { vm_compute in E. injection E as <- _. reflexivity. }
  destruct (success_result_consistent 200 (OptimizationEngine.init Examples.two_tracks)
              self' (Examples.at_minute 0) (Examples.at_minute 1) Examples.crowded r E Hok)
    as (conflicts & res & m & -> & _ & Hlen & _).
  exact Hlen.
Defined.

(** ** First fit *)

Lemma search_slot_first_fit (fuel : nat) (section : Section.t) (tr : Train.t) (seg : string)
    (existing : list TrainScheduler.reservation) (min_headway : timedelta)
    (max_search_time search_time : datetime) (ns : TrainScheduler.slot) :
  TrainScheduler.search_slot fuel section tr seg existing min_headway
                             max_search_time search_time = Ret (Some ns) ->
  exists k : nat,
    TrainScheduler.arrival_time ns = search_time + Z.of_nat k * min_headway
    /\ forall j : nat,
         (j < k)%nat ->
         exists slot_end,
           datetime_add (search_time + Z.of_nat j * min_headway)
                        (Train.expected_travel_time tr) = Ret slot_end
           /\ TrainScheduler._slot_is_available section
                (search_time + Z.of_nat j * min_headway) slot_end existing = Ret false.
Proof.
  revert search_time. induction fuel as [|fuel IH]; intros search_time; simpl;
    case_decide as Hlt; try discriminate.
  intros Hs. apply bind_Ret_inv in Hs as (slot_end & Hend & Hs).
  apply bind_Ret_inv in Hs as (free & Hfree & Hs).
  destruct free.
  - injection Hs as <-. exists 0%nat. simpl. split; [lia|]. intros j Hj. lia.
  - apply bind_Ret_inv in Hs as (next & Hnext & Hs).
    apply datetime_add_Ret in Hnext as [-> _].
    apply IH in Hs as (k & Hk & Hbefore).
    exists (S k). split; [lia|]. intros [|j] Hj.
    + exists slot_end. simpl. rewrite Z.add_0_r. by split.
    + destruct (Hbefore j ltac:(lia)) as (e & He & Hfalse).
      exists e. replace (search_time + Z.of_nat (S j) * min_headway)
        with (search_time + min_headway + Z.of_nat j * min_headway) by lia.
      by split.
Qed.

(** The slot search is first fit: the slot it returns was found
    available against the segment's reservations, and it is the desired
    interval when that is available; otherwise the desired interval was
    not available, the slot starts a whole number [k] of headways after
    the desired arrival, and none of the [k] earlier probes was
    available. *)
Theorem slot_search_is_first_fit (fuel : nat) (section : Section.t) (tr : Train.t)
    (reservations resv : gmap string (list TrainScheduler.reservation))
    (ns : TrainScheduler.slot) :
  TrainScheduler._find_optimal_slot fuel section tr reservations = Ret (Some ns, resv) ->
  let arrival := Train.scheduled_arrival tr in
  let headway := Section.min_headway_minutes section * us_per_minute in
  let existing :=
    stable_sort TrainScheduler.reservation_le
      (TrainScheduler.reservations_on reservations (TrainScheduler.segment_id ns)) in
  TrainScheduler.preferred_segment_of section tr = Some (TrainScheduler.segment_id ns)
  /\ TrainScheduler._slot_is_available section (TrainScheduler.arrival_time ns)
       (TrainScheduler.departure_time ns) existing = Ret true
  /\ (TrainScheduler.arrival_time ns = arrival
      /\ Train.departure_or_expected tr = Ret (TrainScheduler.departure_time ns)
      \/ exists (desired_end : datetime) (k : nat),
           Train.departure_or_expected tr = Ret desired_end
           /\ TrainScheduler._slot_is_available section arrival desired_end existing
              = Ret false
           /\ TrainScheduler.arrival_time ns = arrival + Z.of_nat k * headway
           /\ forall j : nat,
                (j < k)%nat ->
                exists slot_end,
                  datetime_add (arrival + Z.of_nat j * headway)
                               (Train.expected_travel_time tr) = Ret slot_end
                  /\ TrainScheduler._slot_is_available section
                       (arrival + Z.of_nat j * headway) slot_end existing = Ret false).
Proof.
  intros H arrival headway. revert H. unfold TrainScheduler._find_optimal_slot.
  destruct (TrainScheduler.preferred_segment_of section tr) as [seg|] eqn:Hpref;
    simpl; [|discriminate].
  case_decide as Hne; [discriminate|].
  destruct (Section.get_segment _ _); [|discriminate].
  intros Hf. apply bind_Ret_inv in Hf as (desired_end & Hend & Hf).
  apply bind_Ret_inv in Hf as (free & Hfree & Hf).
  destruct free.
  - injection Hf as <- <-. simpl. split; [reflexivity|]. split; [exact Hfree|].
    left. by split.
  - apply bind_Ret_inv in Hf as (min_headway & Hh & Hf).
    apply timedelta_minutes_Ret in Hh as ->.
    apply bind_Ret_inv in Hf as (max_search_time & _ & Hf).
    apply bind_Ret_inv in Hf as (found & Hsearch & Hf).
    injection Hf as -> <-.
    pose proof (search_slot_Some _ _ _ _ _ _ _ _ _ Hsearch) as [-> Havail].
    split; [reflexivity|]. split; [exact Havail|].
    apply search_slot_first_fit in Hsearch as (k & Hk & Hbefore).
    right. exists desired_end, k. by repeat split.
Qed.

Lemma slot_search_is_first_fit_witness :
  exists ns resv,
    TrainScheduler._find_optimal_slot 200 Examples.two_tracks Examples.freight_behind
      {[ "S1" := [(Examples.at_minute 0, Examples.at_minute 10, "E")] ]}
    = Ret (Some ns, resv)
    /\ TrainScheduler.preferred_segment_of Examples.two_tracks Examples.freight_behind
       = Some (TrainScheduler.segment_id ns).
Proof.
  destruct (TrainScheduler._find_optimal_slot 200 Examples.two_tracks Examples.freight_behind
              {[ "S1" := [(Examples.at_minute 0, Examples.at_minute 10, "E")] ]})
    as [[[ns|] resv]| |] eqn:E; try (vm_compute in E; discriminate).
  exists ns, resv. split; [reflexivity|].
  exact (proj1 (slot_search_is_first_fit _ _ _ _ _ _ E)).
Defined.

(** ** Trains of a conflict *)

(** [add_train] on a conflict is idempotent and never stores a train
    twice; the priority weight grows by one exactly when the train is
    new, and removing a train that was just added restores the
    conflict. *)
Theorem conflict_add_train_once (c : Conflict.t) (train_id : string) :
  let c' := Conflict.add_train c train_id in
  train_id ∈ Conflict.train_ids c'
  /\ Conflict.add_train c' train_id = c'
  /\ (NoDup (Conflict.train_ids c) -> NoDup (Conflict.train_ids c'))
  /\ Conflict.priority_weight c'
     = Conflict.priority_weight c
       + (if bool_decide (train_id ∈ Conflict.train_ids c) then 0 else 1)
  /\ (train_id ∉ Conflict.train_ids c -> Conflict.remove_train c' train_id = c).
Proof.
  unfold Conflict.add_train. case_bool_decide as Hin; simpl.
  - split; [exact Hin|]. rewrite bool_decide_eq_true_2 by exact Hin.
    repeat split; try done. lia.
  - assert (Hnew : train_id ∈ Conflict.train_ids c ++ [train_id])
      by (apply elem_of_app; right; by left).
    split; [exact Hnew|]. split; [by rewrite bool_decide_eq_true_2|].
    split.
    { intros Hnd. apply NoDup_app. repeat split; [exact Hnd| |apply NoDup_singleton].
      intros x Hx Hx'. apply list_elem_of_singleton in Hx'. by subst x. }
    split.
    { unfold Conflict.priority_weight, Conflict.affected_train_count. simpl.
      rewrite length_app. simpl. lia. }
    intros _. unfold Conflict.remove_train. simpl.
    rewrite bool_decide_eq_true_2 by exact Hnew.
    unfold Conflict.with_train_ids. simpl.
    rewrite remove_first_snoc by exact Hin. by destruct c.
Qed.

(** ** What-if modifications *)

Lemma map_each_Forall2 {A B : Type} (f : A -> outcome B) (R : A -> B -> Prop)
    (xs : list A) (ys : list B) :
  (forall x y, f x = Ret y -> R x y) ->
  DataService.map_each f xs = Ret ys -> Forall2 R xs ys.
Proof.
  intros Hf. revert ys. induction xs as [|x xs IH]; intros ys H; simpl in H.
  - injection H as <-. constructor.
  - apply bind_Ret_inv in H as (y & Hy & H).
    apply bind_Ret_inv in H as (ys' & Hys & [= <-]).
    constructor; [by apply Hf|by apply IH].
Qed.

(** [apply_modifications] touches only the trains listed in the delay
    table: a listed train becomes DELAYED for a positive delay and
    RUNNING otherwise; every train keeps its id, its schedule, its
    position and its priority score. *)
Theorem modifications_keep_priority (trains trains' : list Train.t)
    (train_delays : gmap string Z) :
  DataService.apply_modifications trains train_delays = Ret trains' ->
  Forall2 (fun tr tr' =>
             Train.train_id tr' = Train.train_id tr
             /\ Train.priority_score tr' = Train.priority_score tr
             /\ Train.scheduled_arrival tr' = Train.scheduled_arrival tr
             /\ Train.scheduled_departure tr' = Train.scheduled_departure tr
             /\ Train.current_position tr' = Train.current_position tr
             /\ match train_delays !! Train.train_id tr with
                | Some d => Train.status tr' = (if decide (d > 0) then DELAYED else RUNNING)
                | None => tr' = tr
                end)
          trains trains'.
Proof.
  unfold DataService.apply_modifications. apply map_each_Forall2.
  intros tr tr' H. destruct (train_delays !! Train.train_id tr) as [d|].
  - apply set_delay_fields in H as (Hp & Hs & Hid & Ha & Hd & Hc). by repeat split.
  - injection H as <-. by repeat split.
Qed.

Lemma modifications_keep_priority_witness :
  exists trains',
    DataService.apply_modifications Examples.crowded {[ "E" := 10 ]} = Ret trains'
    /\ map Train.priority_score trains' = [100; 300; 200]
    /\ length trains' = 3%nat.
Proof.
  destruct (DataService.apply_modifications Examples.crowded {[ "E" := 10 ]})
    as [trains'| |] eqn:E; try (vm_compute in E; discriminate).
  exists trains'. split; [reflexivity|].
  pose proof (modifications_keep_priority Examples.crowded trains' _ E) as Hall.
  split; [|by rewrite <- (Forall2_length _ _ _ Hall)].
  transitivity (map Train.priority_score Examples.crowded); [|reflexivity].
  clear E. induction Hall as [|tr tr' l l' (_ & Hp & _) _ IH]; simpl; [reflexivity|].
  by rewrite Hp, IH.
Defined.

(** ** The highest priority keeps its slot *)

Lemma schedule_loop_extends (fuel : nat) (section : Section.t) (trains : list Train.t)
    (st st' : TrainScheduler.loop_state) :
  for_each (TrainScheduler.schedule_train fuel section) trains st = Ret st' ->
  exists more_trains more_recs,
    TrainScheduler.st_optimized_trains st'
    = TrainScheduler.st_optimized_trains st ++ more_trains
    /\ TrainScheduler.st_recommendations st'
       = TrainScheduler.st_recommendations st ++ more_recs.
Proof.
  revert st. induction trains as [|tr trains IH]; intros st H; simpl in H.
  - injection H as <-. exists [], []. by rewrite !app_nil_r.
  - apply bind_Ret_inv in H as (st1 & Hstep & H).
    apply schedule_train_emits in Hstep as (ot & rec & Ho & Hr & _).
    apply IH in H as (mt & mr & -> & ->). rewrite Ho, Hr.
    exists (ot :: mt), (rec :: mr). by rewrite <- !app_assoc.
Qed.

(** The train that comes first in priority order meets an empty
    reservation table: when its target segment exists, it is given its
    desired interval unchanged and the first recommendation of the
    result is 'proceed' for it. *)
Theorem first_priority_keeps_slot (fuel : nat) (section : Section.t)
    (trains : list Train.t) (conflicts : list Conflict.t) (r : TrainScheduler.result)
    (top : Train.t) (rest : list Train.t) (seg : string) :
  TrainScheduler.optimize_schedule fuel section trains conflicts = Ret r ->
  TrainScheduler.sort_by_priority trains = top :: rest ->
  TrainScheduler.preferred_segment_of section top = Some seg ->
  seg <> "" ->
  is_Some (Section.get_segment section seg) ->
  head (TrainScheduler.recommendations r)
  = Some (TrainScheduler.Proceed (Train.train_id top) (Some seg) None)
  /\ exists ot,
       head (TrainScheduler.optimized_trains r) = Some ot
       /\ Train.train_id ot = Train.train_id top
       /\ Train.scheduled_arrival ot = Train.scheduled_arrival top
       /\ Train.departure_or_expected top = Ret (default 0 (Train.scheduled_departure ot))
       /\ Train.current_position ot = Some seg
       /\ Train.status ot = Train.status top.
Proof.
  intros Hrun Hsort Hpref Hne [segment Hseg].
  unfold TrainScheduler.optimize_schedule, TrainScheduler.schedule_all in Hrun.
  apply bind_Ret_inv in Hrun as (st & Hst & [= <-]). simpl.
  rewrite Hsort, for_each_cons in Hst.
  apply bind_Ret_inv in Hst as (st1 & Hstep & Hloop).
  apply schedule_loop_extends in Hloop as (mt & mr & -> & ->).
  unfold TrainScheduler.schedule_train in Hstep.
  apply bind_Ret_inv in Hstep as ([found resv] & Hfind & Hstep).
  unfold TrainScheduler._find_optimal_slot in Hfind.
  rewrite Hpref in Hfind. simpl in Hfind. rewrite decide_False in Hfind by exact Hne.
  rewrite Hseg in Hfind.
  apply bind_Ret_inv in Hfind as (desired_end & Hend & Hfind).
  apply bind_Ret_inv in Hfind as (free & Hfree & Hfind).
  unfold TrainScheduler._slot_is_available, TrainScheduler.reservations_on in Hfree.
  rewrite lookup_empty in Hfree. simpl in Hfree.
  apply bind_Ret_inv in Hfree as (h & _ & [= <-]).
  injection Hfind as <- <-.
  apply bind_Ret_inv in Hstep as (ot & Hot & Hstep).
  unfold TrainScheduler._create_optimized_train in Hot. simpl in Hot, Hstep.
  destruct (Qlt_le_dec _ _) as [Hlt|_].
  { unfold minutes_between, Qlt in Hlt. simpl in Hlt. lia. }
  injection Hot as <-. injection Hstep as <-. simpl.
  split; [reflexivity|]. eexists. split; [reflexivity|]. simpl. by repeat split.
Qed.

Lemma first_priority_keeps_slot_witness :
  exists r,
    TrainScheduler.optimize_schedule 200 Examples.two_tracks Examples.crowded [] = Ret r
    /\ head (TrainScheduler.recommendations r)
       = Some (TrainScheduler.Proceed "E" (Some "S1") None).
Proof.
  destruct (TrainScheduler.optimize_schedule 200 Examples.two_tracks Examples.crowded [])
    as [r| |] eqn:E; try (vm_compute in E; discriminate).
  exists r. split; [reflexivity|].
  refine (proj1 (first_priority_keeps_slot 200 Examples.two_tracks Examples.crowded [] r
                   (Examples.train "E" EXPRESS 3 (Some 12) (Some "S1"))
                   [Examples.train "P" PASSENGER 3 None (Some "S1");
                    Examples.train "F" FREIGHT 0 (Some 10) (Some "S1")]
                   "S1" E _ _ _ _)).
  - vm_compute. reflexivity.
  - reflexivity.
  - discriminate.
  - eexists. vm_compute. reflexivity.
Defined.

(** ** Assigning and removing at the level of the section *)

Lemma last_match_at (sid : string) (l1 l2 : list TrackSegment.t) (x : TrackSegment.t) :
  TrackSegment.segment_id x = sid ->
  Forall (fun s => TrackSegment.segment_id s <> sid) l2 ->
  last (List.filter (fun seg => bool_decide (TrackSegment.segment_id seg = sid))
                    (l1 ++ x :: l2))
  = Some x.
Proof.
  intros Hx Hl2. rewrite List.filter_app. simpl.
  rewrite bool_decide_eq_true_2 by exact Hx.
  replace (List.filter _ l2) with (@nil TrackSegment.t).
  - apply last_snoc.
  - symmetry. induction Hl2 as [|y l Hy _ IH]; simpl; [reflexivity|].
    by rewrite bool_decide_eq_false_2.
Qed.

Lemma remove_added_train (seg : TrackSegment.t) (train_id : string) :
  train_id ∉ TrackSegment.current_occupancy seg ->
  TrackSegment.remove_train
    (TrackSegment.mk (TrackSegment.segment_id seg) (TrackSegment.name seg)
       (TrackSegment.length_km seg) (TrackSegment.capacity seg)
       (TrackSegment.is_platform seg) (TrackSegment.platform_capacity seg)
       (TrackSegment.current_occupancy seg ++ [train_id])) train_id
  = (seg, true).
Proof.
  intros Hnot. unfold TrackSegment.remove_train. simpl.
  rewrite bool_decide_eq_true_2 by (apply elem_of_app; right; by left).
  rewrite remove_first_snoc by exact Hnot. by destruct seg.
Qed.

(** A successful [assign_train_to_segment] is undone by
    [remove_train_from_segment] with the same train and segment: the
    section is again what it was, and the removal reports success. *)
Theorem remove_after_assign_restores (self self' : Section.t) (train_id sid : string) :
  Section.assign_train_to_segment self train_id sid = (self', true) ->
  Section.remove_train_from_segment self' train_id sid = (self, true).
Proof.
  unfold Section.assign_train_to_segment.
  pose proof (last_match_split sid (Section.track_segments self)) as Hlast.
  rewrite <- get_segment_last in Hlast.
  destruct (Section.get_segment self sid) as [seg|]; [|discriminate].
  destruct Hlast as (l1 & l2 & Hsplit & Hid & Hl2).
  rewrite Hsplit, (update_last_split sid _ l1 l2 seg Hid Hl2). simpl.
  destruct (add_train_cases seg train_id) as [Hno|(_ & Hnot & Hyes)].
  { rewrite Hno. discriminate. }
  rewrite Hyes. simpl. intros [= <-].
  unfold Section.remove_train_from_segment.
  rewrite get_segment_last. simpl.
  rewrite last_match_at by (simpl; assumption).
  rewrite update_last_split by (simpl; assumption).
  rewrite remove_added_train by exact Hnot. simpl.
  rewrite <- Hsplit. by destruct self.
Qed.

Lemma remove_after_assign_restores_witness :
  Section.remove_train_from_segment
    (Section.assign_train_to_segment Examples.two_tracks "T1" "S2").1 "T1" "S2"
  = (Examples.two_tracks, true).
Proof.
  apply (remove_after_assign_restores Examples.two_tracks _ "T1" "S2").
  vm_compute. reflexivity.
Defined.

(** ** Utilisation of a section *)

Lemma capacity_sum_bound (segments : list TrackSegment.t) :
  Forall (fun seg => Z.of_nat (length (TrackSegment.current_occupancy seg))
                     <= TrackSegment.capacity seg) segments ->
  foldr Z.add 0
    (map (fun seg => Z.of_nat (length (TrackSegment.current_occupancy seg))) segments)
  <= foldr Z.add 0 (map TrackSegment.capacity segments).
Proof. induction 1 as [|x l Hx _ IH]; simpl; lia. Qed.

Lemma occupancy_sum_nonneg (segments : list TrackSegment.t) :
  0 <= foldr Z.add 0
         (map (fun seg => Z.of_nat (length (TrackSegment.current_occupancy seg))) segments).
Proof. induction segments as [|x l IH]; simpl; lia. Qed.

(** [utilization_rate] is never negative, and it is at most 1 when no
    segment holds more trains than its [capacity] (the figure counts a
    platform by its [capacity] too, not by its [platform_capacity]). *)
Theorem utilization_rate_bounds (self : Section.t) :
  Forall (fun seg => Z.of_nat (length (TrackSegment.current_occupancy seg))
                     <= TrackSegment.capacity seg)
         (Section.track_segments self) ->
  (0 <= Section.utilization_rate self <= 1)%Q
  /\ 0 <= Section.current_occupancy self <= Section.total_capacity self.
Proof.
  intros Hall.
  pose proof (capacity_sum_bound _ Hall) as Hle.
  pose proof (occupancy_sum_nonneg (Section.track_segments self)) as Hnn.
  fold (Section.current_occupancy self) in Hle, Hnn.
  fold (Section.total_capacity self) in Hle.
  split; [|lia].
  unfold Section.utilization_rate. case_decide as Hpos; [|split; discriminate].
  assert (Hq : (0 < inject_Z (Section.total_capacity self))%Q)
    by (unfold Qlt; simpl; lia).
  split.
  - apply Qle_shift_div_l; [exact Hq|]. unfold Qle. simpl. lia.
  - apply Qle_shift_div_r; [exact Hq|]. unfold Qle. simpl. lia.
Qed.

Lemma utilization_rate_bounds_witness :
  (0 <= Section.utilization_rate
          (Section.assign_train_to_segment Examples.two_tracks "T1" "S2").1 <= 1)%Q.
Proof.
  apply (utilization_rate_bounds
           (Section.assign_train_to_segment Examples.two_tracks "T1" "S2").1).
  vm_compute. repeat constructor; discriminate.
Defined.

(** ** What the detector does not miss *)

Lemma headway_pairs_finds (min_headway : timedelta) (l1 l2 : list Train.t)
    (a b : Train.t) (d : datetime) (found : list Conflict.t) :
  ConflictDetector.headway_pairs min_headway (l1 ++ a :: b :: l2) = Ret found ->
  ConflictDetector._trains_on_same_path a b = true ->
  Train.departure_or_expected a = Ret d ->
  Train.scheduled_arrival b - d < min_headway ->
  Conflict.mk HEADWAY [Train.train_id a; Train.train_id b]
              None (Some (Train.scheduled_arrival b)) 3 false None ∈ found.
Proof.
  intros Hrun Hpath Hd Hlt. revert found Hrun.
  induction l1 as [|x l1 IH]; intros found Hrun.
  - simpl app in Hrun. rewrite headway_pairs_cons, Hpath, Hd in Hrun. simpl in Hrun.
    rewrite decide_True in Hrun by exact Hlt.
    apply bind_Ret_inv in Hrun as (later & _ & [= <-]). by left.
  - destruct l1 as [|y l1].
    + simpl app in Hrun, IH. rewrite headway_pairs_cons in Hrun.
      apply bind_Ret_inv in Hrun as (here & _ & Hrun).
      apply bind_Ret_inv in Hrun as (later & Hlater & [= <-]).
      apply elem_of_app. right. by apply IH.
    + change ((x :: y :: l1) ++ a :: b :: l2)
        with (x :: y :: (l1 ++ a :: b :: l2)) in Hrun.
      rewrite headway_pairs_cons in Hrun.
      apply bind_Ret_inv in Hrun as (here & _ & Hrun).
      apply bind_Ret_inv in Hrun as (later & Hlater & [= <-]).
      apply elem_of_app. right. by apply IH.
Qed.

(** Two trains that follow each other in arrival order, both with a
    position, the second arriving less than the minimum headway after
    the first is due to leave: the conflicts returned include the
    HEADWAY conflict of that pair, with severity 3. *)
Theorem close_followers_reported (section : Section.t) (trains : list Train.t)
    (conflicts : list Conflict.t) (l1 l2 : list Train.t) (a b : Train.t) (d : datetime) :
  ConflictDetector.detect_conflicts section trains = Ret conflicts ->
  stable_sort (fun x y => bool_decide (Train.scheduled_arrival x <= Train.scheduled_arrival y))
              trains
  = l1 ++ a :: b :: l2 ->
  truthy (Train.current_position a) = true ->
  truthy (Train.current_position b) = true ->
  Train.departure_or_expected a = Ret d ->
  Train.scheduled_arrival b - d < Section.min_headway_minutes section * us_per_minute ->
  Conflict.mk HEADWAY [Train.train_id a; Train.train_id b]
              None (Some (Train.scheduled_arrival b)) 3 false None ∈ conflicts.
Proof.
  intros Hrun Hsort Ha Hb Hd Hlt. unfold ConflictDetector.detect_conflicts in Hrun.
  apply bind_Ret_inv in Hrun as (track & _ & Hrun).
  apply bind_Ret_inv in Hrun as (headway & Hheadway & [= <-]).
  unfold ConflictDetector._detect_headway_conflicts in Hheadway.
  apply bind_Ret_inv in Hheadway as (h & Hh & Hpairs).
  apply timedelta_minutes_Ret in Hh as ->. rewrite Hsort in Hpairs.
  apply elem_of_app. right. apply elem_of_app. left.
  eapply headway_pairs_finds; [exact Hpairs| |exact Hd|exact Hlt].
  unfold ConflictDetector._trains_on_same_path. by rewrite Ha, Hb.
Qed.

Lemma close_followers_reported_witness :
  exists conflicts,
    ConflictDetector.detect_conflicts Examples.two_tracks Examples.overlapping_pair
    = Ret conflicts
    /\ Conflict.mk HEADWAY ["E"; "F"] None (Some (Examples.at_minute 5)) 3 false None
       ∈ conflicts.
Proof.
  destruct (ConflictDetector.detect_conflicts Examples.two_tracks Examples.overlapping_pair)
    as [conflicts| |] eqn:E; try (vm_compute in E; discriminate).
  exists conflicts. split; [reflexivity|].
  apply (close_followers_reported Examples.two_tracks Examples.overlapping_pair conflicts
           [] [] Examples.express_first Examples.freight_behind (Examples.at_minute 10) E).
  - vm_compute. reflexivity.
  - reflexivity.
  - reflexivity.
  - reflexivity.
  - vm_compute. reflexivity.
Defined.

(** A platform of the section on which more trains are positioned than
    its [platform_capacity] allows is reported: the conflicts returned
    include a PLATFORM conflict of severity 4 for it, listing those
    trains in arrival order. *)
Theorem overfull_platform_reported (section : Section.t) (trains : list Train.t)
    (conflicts : list Conflict.t) (platform : TrackSegment.t) :
  let here :=
    List.filter (fun tr => bool_decide (Train.current_position tr
                                        = Some (TrackSegment.segment_id platform)))
      (stable_sort
         (fun x y => bool_decide (Train.scheduled_arrival x <= Train.scheduled_arrival y))
         trains) in
  ConflictDetector.detect_conflicts section trains = Ret conflicts ->
  platform ∈ Section.track_segments section ->
  TrackSegment.is_platform platform = true ->
  Z.of_nat (length here) > TrackSegment.platform_capacity platform ->
  Conflict.mk PLATFORM (map Train.train_id here)
              (Some (TrackSegment.segment_id platform)) None 4 false None ∈ conflicts.
Proof.
  intros here Hrun Hin Hplat Hfull. unfold ConflictDetector.detect_conflicts in Hrun.
  apply bind_Ret_inv in Hrun as (track & _ & Hrun).
  apply bind_Ret_inv in Hrun as (headway & _ & [= <-]).
  apply elem_of_app. right. apply elem_of_app. right.
  unfold ConflictDetector._detect_platform_conflicts.
  apply list_elem_of_In, in_concat. eexists. split.
  - apply in_map_iff. exists platform. split; [reflexivity|].
    unfold Section.get_platform_segments. apply filter_In. split; [|exact Hplat].
    by apply list_elem_of_In.
  - fold here. rewrite decide_True by exact Hfull. by left.
Qed.

Lemma overfull_platform_reported_witness :
  let station := Examples.section_with [TrackSegment.mk "P1" "Platform 1" 1%Q 1 true 1 []] 5 in
  let trains := [Examples.train "A" EXPRESS 0 (Some 10) (Some "P1");
                 Examples.train "B" FREIGHT 30 (Some 40) (Some "P1")] in
  exists conflicts,
    ConflictDetector.detect_conflicts station trains = Ret conflicts
    /\ Conflict.mk PLATFORM ["A"; "B"] (Some "P1") None 4 false None ∈ conflicts.
Proof.
  intros station trains.
  destruct (ConflictDetector.detect_conflicts station trains)
    as [conflicts| |] eqn:E; try (vm_compute in E; discriminate).
  exists conflicts. split; [reflexivity|].
  apply (overfull_platform_reported station trains conflicts
           (TrackSegment.mk "P1" "Platform 1" 1%Q 1 true 1 []) E).
  - by left.
  - reflexivity.
  - vm_compute. reflexivity.
Defined.

(** ** Occupancy rate of a segment *)

(** [occupancy_rate] is never negative; it is below 1 on every segment
    that is available, and at most 1 on a segment within its effective
    capacity.  On a segment whose effective capacity is positive the
    converse holds too: a rate below 1 means the segment is available.
    A segment whose effective capacity is not positive reports a rate of
    0 and is never available. *)
Theorem occupancy_rate_and_availability (self : TrackSegment.t) :
  (0 <= TrackSegment.occupancy_rate self)%Q
  /\ (TrackSegment.is_available self = true -> (TrackSegment.occupancy_rate self < 1)%Q)
  /\ (Z.of_nat (length (TrackSegment.current_occupancy self))
      <= TrackSegment.max_capacity self ->
      (TrackSegment.occupancy_rate self <= 1)%Q)
  /\ (TrackSegment.max_capacity self > 0 ->
      (TrackSegment.occupancy_rate self < 1)%Q -> TrackSegment.is_available self = true)
  /\ (TrackSegment.max_capacity self <= 0 ->
      (TrackSegment.occupancy_rate self == 0)%Q
      /\ TrackSegment.is_available self = false).
Proof.
  unfold TrackSegment.occupancy_rate, TrackSegment.is_available.
  set (n := Z.of_nat (length (TrackSegment.current_occupancy self))).
  assert (Hn : 0 <= n) by (unfold n; lia).
  case_decide as Hpos.
  - assert (Hq : (0 < inject_Z (TrackSegment.max_capacity self))%Q)
      by (unfold Qlt; simpl; lia).
    split; [apply Qle_shift_div_l; [exact Hq|]; unfold Qle; simpl; lia|].
    split.
    { intros Hroom%bool_decide_eq_true.
      apply Qlt_shift_div_r; [exact Hq|]. unfold Qlt. simpl. lia. }
    split.
    { intros Hle. apply Qle_shift_div_r; [exact Hq|]. unfold Qle. simpl. lia. }
    split; [|lia].
    intros _ Hlt. apply bool_decide_eq_true_2.
    destruct (Z_lt_le_dec n (TrackSegment.max_capacity self)) as [Hroom|Hfull];
      [exact Hroom|].
    exfalso. apply (Qlt_not_le _ _ Hlt).
    apply Qle_shift_div_l; [exact Hq|]. unfold Qle. simpl. lia.
  - split; [discriminate|].
    split; [reflexivity|].
    split; [discriminate|].
    split; [lia|].
    intros _. split; [reflexivity|]. apply bool_decide_eq_false_2. lia.
Qed.

(** ** Optimizing an optimized schedule *)

Lemma stable_sort_fixed {A : Type} (le : A -> A -> bool) (l : list A) :
  StronglySorted (fun a b => le a b = true) l -> stable_sort le l = l.
Proof.
  induction 1 as [|x l Hs IH Hx]; simpl; [reflexivity|].
  rewrite IH. destruct l as [|y l]; simpl; [reflexivity|].
  apply Forall_cons_1 in Hx as [Hxy _]. by rewrite Hxy.
Qed.

Lemma Forall_by_score (P : Z -> Prop) (l1 l2 : list Train.t) :
  map Train.priority_score l1 = map Train.priority_score l2 ->
  Forall (fun b => P (Train.priority_score b)) l1 ->
  Forall (fun b => P (Train.priority_score b)) l2.
Proof.
  intros Hmap Hall. revert l2 Hmap.
  induction Hall as [|x l1 Hx _ IH]; intros [|y l2] Hmap; try discriminate; [constructor|].
  injection Hmap as Hxy Hmap. constructor; [by rewrite <- Hxy|by apply IH].
Qed.

Lemma sorted_by_score_transfer (l1 l2 : list Train.t) :
  map Train.priority_score l1 = map Train.priority_score l2 ->
  StronglySorted
    (fun a b => bool_decide (Train.priority_score b <= Train.priority_score a) = true) l1 ->
  StronglySorted
    (fun a b => bool_decide (Train.priority_score b <= Train.priority_score a) = true) l2.
Proof.
  intros Hmap Hs. revert l2 Hmap.
  induction Hs as [|x l1 Hs IH Hx]; intros [|y l2] Hmap; try discriminate; [constructor|].
  injection Hmap as Hxy Hmap. constructor; [by apply IH|].
  rewrite <- Hxy.
  pose proof (Forall_by_score
                (fun p : Z => bool_decide (p <= Train.priority_score x) = true)
                l1 l2 Hmap) as Hmove.
  by apply Hmove.
Qed.

(** What an accepted slot was checked against. *)
Lemma find_optimal_slot_accepts (fuel : nat) (section : Section.t) (tr : Train.t)
    (reservations resv : gmap string (list TrainScheduler.reservation))
    (ns : TrainScheduler.slot) :
  TrainScheduler._find_optimal_slot fuel section tr reservations = Ret (Some ns, resv) ->
  TrainScheduler.segment_id ns <> ""
  /\ is_Some (Section.get_segment section (TrainScheduler.segment_id ns))
  /\ resv = TrainScheduler.sort_in_place reservations (TrainScheduler.segment_id ns)
  /\ TrainScheduler._slot_is_available section (TrainScheduler.arrival_time ns)
       (TrainScheduler.departure_time ns)
       (stable_sort TrainScheduler.reservation_le
          (TrainScheduler.reservations_on reservations (TrainScheduler.segment_id ns)))
     = Ret true.
Proof.
  unfold TrainScheduler._find_optimal_slot.
  destruct (TrainScheduler.preferred_segment_of section tr) as [seg|]; simpl;
    [|discriminate].
  case_decide as Hne; [discriminate|].
  destruct (Section.get_segment section seg) as [segment|] eqn:Hseg; [|discriminate].
  intros H. apply bind_Ret_inv in H as (desired_end & _ & H).
  apply bind_Ret_inv in H as (free & Hfree & H).
  destruct free.
  - injection H as <- <-. simpl. rewrite Hseg. by repeat split.
  - apply bind_Ret_inv in H as (min_headway & _ & H).
    apply bind_Ret_inv in H as (max_search_time & _ & H).
    apply bind_Ret_inv in H as (found & Hsearch & H).
    injection H as -> <-.
    apply search_slot_Some in Hsearch as [-> Havail].
    rewrite Hseg. by repeat split.
Qed.

(** A train placed by the slot search, offered again against the table
    it was placed into, is accepted where it stands. *)
Lemma schedule_train_replay (fuel fuel' : nat) (section : Section.t)
    (st1 st1' : TrainScheduler.loop_state) (tr : Train.t) :
  TrainScheduler.schedule_train fuel section st1 tr = Ret st1' ->
  exists ot rec,
    TrainScheduler.st_optimized_trains st1' = TrainScheduler.st_optimized_trains st1 ++ [ot]
    /\ TrainScheduler.st_recommendations st1'
       = TrainScheduler.st_recommendations st1 ++ [rec]
    /\ (TrainScheduler.held rec = false ->
        forall st2,
          TrainScheduler.segment_reservations st2 = TrainScheduler.segment_reservations st1 ->
          TrainScheduler.schedule_train fuel' section st2 ot
          = Ret (TrainScheduler.mk_state
                   (TrainScheduler.st_optimized_trains st2 ++ [ot])
                   (TrainScheduler.st_recommendations st2
                    ++ [TrainScheduler.Proceed (Train.train_id ot)
                          (Train.current_position ot) None])
                   (TrainScheduler.st_total_delay st2)
                   (TrainScheduler.segment_reservations st1'))).
Proof.
  intros Hstep. apply schedule_train_inv in Hstep as (found & resv & Hfind & Hst).
  destruct found as [ns|].
  - destruct Hst as (ot & rec & Hot & Ho & Hr & Hres & _).
    exists ot, rec. split; [exact Ho|]. split; [exact Hr|]. intros _ st2 Hst2.
    apply find_optimal_slot_accepts in Hfind as (Hne & [segment Hseg] & -> & Hfree).
    apply create_optimized_train_fields in Hot as (Hid & _ & Harr & Hdep & Hpos).
    assert (Hfind2 : TrainScheduler._find_optimal_slot fuel' section ot
                       (TrainScheduler.segment_reservations st2)
                     = Ret (Some ns,
                            TrainScheduler.sort_in_place
                              (TrainScheduler.segment_reservations st1)
                              (TrainScheduler.segment_id ns))).
    { rewrite Hst2.
      rewrite (find_optimal_slot_desired fuel' section ot _ (TrainScheduler.segment_id ns)
                 segment (TrainScheduler.departure_time ns)).
      - rewrite Harr. by destruct ns.
      - unfold TrainScheduler.preferred_segment_of. rewrite Hpos. simpl.
        by rewrite decide_False.
      - exact Hne.
      - exact Hseg.
      - unfold Train.departure_or_expected. by rewrite Hdep.
      - by rewrite Harr. }
    assert (Hsame : TrainScheduler._create_optimized_train ot ns = Ret ot).
    { unfold TrainScheduler._create_optimized_train.
      destruct (Qlt_le_dec _ _) as [Hd|_].
      { unfold minutes_between, Qlt in Hd. simpl in Hd. lia. }
      rewrite <- Harr, <- Hdep, <- Hpos. by destruct ot. }
    rewrite (schedule_train_on_time fuel' section st2 ot ot ns _ Hfind2 Hsame) by lia.
    by rewrite Hres, Hpos, Hid.
  - subst st1'. simpl. exists tr, (TrainScheduler.Hold (Train.train_id tr) 15).
    split; [reflexivity|]. split; [reflexivity|]. discriminate.
Qed.

Lemma schedule_loop_replay (fuel fuel' : nat) (section : Section.t)
    (trains : list Train.t) (st1 st1' : TrainScheduler.loop_state) :
  for_each (TrainScheduler.schedule_train fuel section) trains st1 = Ret st1' ->
  exists ots recs,
    TrainScheduler.st_optimized_trains st1' = TrainScheduler.st_optimized_trains st1 ++ ots
    /\ TrainScheduler.st_recommendations st1'
       = TrainScheduler.st_recommendations st1 ++ recs
    /\ (Forall (fun rec => TrainScheduler.held rec = false) recs ->
        forall st2,
          TrainScheduler.segment_reservations st2 = TrainScheduler.segment_reservations st1 ->
          for_each (TrainScheduler.schedule_train fuel' section) ots st2
          = Ret (TrainScheduler.mk_state
                   (TrainScheduler.st_optimized_trains st2 ++ ots)
                   (TrainScheduler.st_recommendations st2
                    ++ map (fun ot => TrainScheduler.Proceed (Train.train_id ot)
                                        (Train.current_position ot) None) ots)
                   (TrainScheduler.st_total_delay st2)
                   (TrainScheduler.segment_reservations st1'))).
Proof.
  revert st1. induction trains as [|tr trains IH]; intros st1 Hrun.
  - injection Hrun as <-. exists [], []. rewrite !app_nil_r.
    split; [reflexivity|]. split; [reflexivity|]. intros _ st2 Hst2. simpl.
    rewrite !app_nil_r, <- Hst2. by destruct st2.
  - rewrite for_each_cons in Hrun. apply bind_Ret_inv in Hrun as (st & Hstep & Hrun).
    apply (schedule_train_replay fuel fuel') in Hstep as (ot & rec & Ho & Hr & Hstep).
    apply IH in Hrun as (ots & recs & Hos & Hrs & Hloop).
    exists (ot :: ots), (rec :: recs).
    split; [by rewrite Hos, Ho, <- app_assoc|].
    split; [by rewrite Hrs, Hr, <- app_assoc|].
    intros Hall st2 Hst2. apply Forall_cons_1 in Hall as [Hrec Hall].
    rewrite for_each_cons, (Hstep Hrec st2 Hst2), bind_Ret.
    rewrite (Hloop Hall) by reflexivity. simpl. by rewrite <- !app_assoc.
Qed.

(** A schedule without held trains is a fixed point of the scheduler:
    running [optimize_schedule] on the optimized trains returns the same
    trains in the same order, a 'proceed' recommendation for each of
    them on the segment it was given, a total delay of 0 and no
    throughput improvement. *)
Theorem optimized_schedule_is_stable (fuel fuel' : nat) (section : Section.t)
    (trains : list Train.t) (conflicts conflicts' : list Conflict.t)
    (r : TrainScheduler.result) :
  TrainScheduler.optimize_schedule fuel section trains conflicts = Ret r ->
  Forall (fun rec => TrainScheduler.held rec = false) (TrainScheduler.recommendations r) ->
  TrainScheduler.optimize_schedule fuel' section (TrainScheduler.optimized_trains r) conflicts'
  = Ret (TrainScheduler.mk_result
           (TrainScheduler.optimized_trains r)
           (map (fun ot => TrainScheduler.Proceed (Train.train_id ot)
                             (Train.current_position ot) None)
                (TrainScheduler.optimized_trains r))
           0 0).
Proof.
  intros Hrun Hall. unfold TrainScheduler.optimize_schedule in Hrun.
  apply bind_Ret_inv in Hrun as (st & Hst & [= <-]). simpl in *.
  pose proof (schedule_all_order _ _ _ _ Hst) as (_ & Hscores & _).
  assert (Hsorted : TrainScheduler.sort_by_priority (TrainScheduler.st_optimized_trains st)
                    = TrainScheduler.st_optimized_trains st).
  { apply stable_sort_fixed.
    apply (sorted_by_score_transfer (TrainScheduler.sort_by_priority trains));
      [by rewrite Hscores|].
    apply stable_sort_sorted.
    - intros x y. destruct (Z_le_gt_dec (Train.priority_score y) (Train.priority_score x)).
      + left. by apply bool_decide_eq_true_2.
      + right. apply bool_decide_eq_true_2. lia.
    - intros x y z Hxy%bool_decide_eq_true Hyz%bool_decide_eq_true.
      apply bool_decide_eq_true_2. lia. }
  unfold TrainScheduler.schedule_all in Hst.
  apply (schedule_loop_replay fuel fuel') in Hst as (ots & recs & Hos & Hrs & Hloop).
  simpl in Hos, Hrs. subst ots recs.
  unfold TrainScheduler.optimize_schedule, TrainScheduler.schedule_all.
  rewrite Hsorted.
  rewrite (Hloop Hall TrainScheduler.initial_state eq_refl). simpl.
  do 2 f_equal.
  unfold TrainScheduler._calculate_throughput_improvement.
  case_decide as Hzero; [reflexivity|].
  destruct (Qlt_le_dec _ _) as [Hpos|_]; [|reflexivity].
  exfalso. rewrite Z.sub_diag in Hpos. revert Hpos. unfold Qlt, Qmult, Qdiv, Qinv.
  simpl. lia.
Qed.

Lemma optimized_schedule_is_stable_witness :
  exists r,
    TrainScheduler.optimize_schedule 200 Examples.two_tracks Examples.crowded [] = Ret r
    /\ TrainScheduler.optimize_schedule 0 Examples.two_tracks
         (TrainScheduler.optimized_trains r) []
       = Ret (TrainScheduler.mk_result
                (TrainScheduler.optimized_trains r)
                (map (fun ot => TrainScheduler.Proceed (Train.train_id ot)
                                  (Train.current_position ot) None)
                     (TrainScheduler.optimized_trains r))
                0 0).
Proof.
  destruct (TrainScheduler.optimize_schedule 200 Examples.two_tracks Examples.crowded [])
    as [r| |] eqn:E; try (vm_compute in E; discriminate).
  exists r. split; [reflexivity|].
  apply (optimized_schedule_is_stable 200 0 Examples.two_tracks Examples.crowded [] [] r E).
  vm_compute in E. injection E as <-. simpl. repeat constructor.
Defined.

(** ** Assigning a train when the lists are objects *)

Lemma lookup_fold_last {A : Type} (key : A -> string) (sid : string) (l : list A)
    (m : gmap string A) :
  foldl (fun m x => <[key x := x]> m) m l !! sid
  = match last (List.filter (fun x => bool_decide (key x = sid)) l) with
    | Some x => Some x
    | None => m !! sid
    end.
Proof.
  revert m. induction l as [|x l IH]; intros m; simpl; [reflexivity|].
  rewrite IH. case_bool_decide as Hx.
  - rewrite last_cons. destruct (last _); [reflexivity|].
    by rewrite Hx, lookup_insert_eq.
  - destruct (last _); [reflexivity|]. by rewrite lookup_insert_ne.
Qed.

Lemma last_filter_split {A : Type} (p : A -> bool) (l : list A) :
  match last (List.filter p l) with
  | Some x => exists l1 l2, l = l1 ++ x :: l2 /\ p x = true
                            /\ Forall (fun y => p y = false) l2
  | None => Forall (fun y => p y = false) l
  end.
Proof.
  induction l as [|y l IH]; simpl; [constructor|].
  destruct (p y) eqn:Hy.
  - rewrite last_cons. destruct (last _) as [x|].
    + destruct IH as (l1 & l2 & -> & Hx & Hl2). exists (y :: l1), l2. by repeat split.
    + exists [], l. by repeat split.
  - destruct (last _) as [x|].
    + destruct IH as (l1 & l2 & -> & Hx & Hl2). exists (y :: l1), l2. by repeat split.
    + by constructor.
Qed.

Lemma ref_get_segment_split (self : SectionRef.t) (sid : string) :
  match SectionRef.get_segment self sid with
  | Some seg =>
      exists l1 l2,
        SectionRef.track_segments self = l1 ++ seg :: l2
        /\ TrackSegmentRef.segment_id seg = sid
        /\ Forall (fun s => TrackSegmentRef.segment_id s <> sid) l2
  | None =>
      Forall (fun s => TrackSegmentRef.segment_id s <> sid) (SectionRef.track_segments self)
  end.
Proof.
  unfold SectionRef.get_segment, SectionRef._segment_lookup.
  rewrite (lookup_fold_last TrackSegmentRef.segment_id).
  pose proof (last_filter_split
                (fun x => bool_decide (TrackSegmentRef.segment_id x = sid))
                (SectionRef.track_segments self)) as Hsplit.
  destruct (last _) as [seg|].
  - destruct Hsplit as (l1 & l2 & Hl & Hseg%bool_decide_eq_true & Hl2).
    exists l1, l2. repeat split; [exact Hl|exact Hseg|].
    eapply Forall_impl; [exact Hl2|]. intros s Hs. simpl in Hs.
    by apply bool_decide_eq_false in Hs.
  - rewrite lookup_empty. eapply Forall_impl; [exact Hsplit|]. intros s Hs. simpl in Hs.
    by apply bool_decide_eq_false in Hs.
Qed.

Lemma snapshot_ids (h : gmap loc (list string)) (sid : string) (l : list TrackSegmentRef.t) :
  Forall (fun s => TrackSegmentRef.segment_id s <> sid) l ->
  Forall (fun s => TrackSegment.segment_id s <> sid) (map (TrackSegmentRef.snapshot h) l).
Proof. induction 1; simpl; by constructor. Qed.

(** [get_segment] does not look at the lists. *)
Lemma snapshot_get_segment (h : gmap loc (list string)) (self : SectionRef.t) (sid : string) :
  Section.get_segment (SectionRef.snapshot h self) sid
  = TrackSegmentRef.snapshot h <$> SectionRef.get_segment self sid.
Proof.
  rewrite get_segment_last. simpl.
  pose proof (ref_get_segment_split self sid) as Hsplit.
  destruct (SectionRef.get_segment self sid) as [seg|]; simpl.
  - destruct Hsplit as (l1 & l2 & -> & Hid & Hl2).
    rewrite map_app. simpl. apply last_match_at; [exact Hid|by apply snapshot_ids].
  - pose proof (last_match_split sid
                  (map (TrackSegmentRef.snapshot h) (SectionRef.track_segments self)))
      as Hlast.
    destruct (last _) as [x|]; [|reflexivity].
    destruct Hlast as (l1 & l2 & Hl & Hx & _). exfalso.
    assert (Hin : In x (map (TrackSegmentRef.snapshot h) (SectionRef.track_segments self)))
      by (rewrite Hl; apply in_or_app; right; by left).
    apply in_map_iff in Hin as (s & <- & Hs).
    apply (proj1 (List.Forall_forall _ _) Hsplit s Hs). exact Hx.
Qed.

Lemma snapshot_unchanged (h : gmap loc (list string)) (l : loc) (ids : list string)
    (segs : list TrackSegmentRef.t) :
  l ∉ map TrackSegmentRef.current_occupancy segs ->
  map (TrackSegmentRef.snapshot (<[l := ids]> h)) segs
  = map (TrackSegmentRef.snapshot h) segs.
Proof.
  induction segs as [|s segs IH]; simpl; intros Hl; [reflexivity|].
  apply not_elem_of_cons in Hl as [Hne Hl]. rewrite IH by exact Hl. f_equal.
  unfold TrackSegmentRef.snapshot, TrackSegmentRef.occupancy.
  by rewrite lookup_insert_ne.
Qed.

Lemma snapshot_add_train (h : gmap loc (list string)) (seg : TrackSegmentRef.t) (train_id : string) :
  let '(h', ok) := TrackSegmentRef.add_train h seg train_id in
  TrackSegment.add_train (TrackSegmentRef.snapshot h seg) train_id
  = (TrackSegmentRef.snapshot h' seg, ok).
Proof.
  unfold TrackSegmentRef.add_train, TrackSegment.add_train.
  change (TrackSegment.is_available (TrackSegmentRef.snapshot h seg))
    with (TrackSegmentRef.is_available h seg).
  change (TrackSegment.current_occupancy (TrackSegmentRef.snapshot h seg))
    with (TrackSegmentRef.occupancy h seg).
  destruct (_ && _); [|reflexivity].
  unfold TrackSegmentRef.snapshot. simpl. do 2 f_equal.
  unfold TrackSegmentRef.occupancy at 2. by rewrite lookup_insert_eq.
Qed.

(** When no two segments of the section share a list, assigning a
    train does to the objects what [Section.assign_train_to_segment]
    does to their values. *)
Lemma assign_refines_by_value (h : gmap loc (list string)) (self : SectionRef.t) (train_id sid : string) :
  NoDup (map TrackSegmentRef.current_occupancy (SectionRef.track_segments self)) ->
  let '(h', ok) := SectionRef.assign_train_to_segment h self train_id sid in
  Section.assign_train_to_segment (SectionRef.snapshot h self) train_id sid
  = (SectionRef.snapshot h' self, ok).
Proof.
  intros Hnd. unfold SectionRef.assign_train_to_segment, Section.assign_train_to_segment.
  rewrite snapshot_get_segment.
  pose proof (ref_get_segment_split self sid) as Hsplit.
  destruct (SectionRef.get_segment self sid) as [seg|]; simpl; [|reflexivity].
  destruct Hsplit as (l1 & l2 & Hl & Hid & Hl2).
  pose proof (snapshot_add_train h seg train_id) as Hadd.
  destruct (TrackSegmentRef.add_train h seg train_id) as [h' ok] eqn:Hstep.
  rewrite Hadd. simpl. f_equal.
  unfold SectionRef.snapshot, Section.with_track_segments. simpl. f_equal.
  rewrite Hl, !map_app. simpl.
  rewrite update_last_split; [|exact Hid|by apply snapshot_ids]. simpl.
  rewrite Hadd. simpl.
  unfold TrackSegmentRef.add_train in Hstep.
  destruct (_ && _); injection Hstep as <- <-; [|reflexivity].
  rewrite Hl, map_app in Hnd. simpl in Hnd.
  apply NoDup_app in Hnd as (_ & Hl1 & Hnd). apply NoDup_cons in Hnd as [Hl2' _].
  rewrite (snapshot_unchanged h _ _ l2) by exact Hl2'.
  rewrite (snapshot_unchanged h _ _ l1); [reflexivity|].
  intros Hin. apply (Hl1 _ Hin). by left.
Qed.

Lemma snapshot_current_occupancy (h : gmap loc (list string)) (self : SectionRef.t) :
  Section.current_occupancy (SectionRef.snapshot h self)
  = SectionRef.current_occupancy h self.
Proof.
  unfold Section.current_occupancy, SectionRef.current_occupancy. simpl.
  by rewrite map_map.
Qed.

Lemma snapshot_find_train_position (h : gmap loc (list string)) (self : SectionRef.t) (train_id : string) :
  Section.find_train_position (SectionRef.snapshot h self) train_id
  = SectionRef.find_train_position h self train_id.
Proof.
  unfold Section.find_train_position, SectionRef.find_train_position. simpl.
  induction (SectionRef.track_segments self) as [|s l IH]; simpl; [reflexivity|].
  change (TrackSegment.current_occupancy (TrackSegmentRef.snapshot h s))
    with (TrackSegmentRef.occupancy h s).
  by destruct (bool_decide _).
Qed.

Lemma snapshot_within_capacity (h : gmap loc (list string)) (segs : list TrackSegmentRef.t) :
  Forall (fun seg => Z.of_nat (length (TrackSegment.current_occupancy seg))
                     <= TrackSegment.max_capacity seg)
         (map (TrackSegmentRef.snapshot h) segs)
  <-> Forall (fun seg => Z.of_nat (length (TrackSegmentRef.occupancy h seg))
                         <= TrackSegmentRef.max_capacity seg) segs.
Proof.
  induction segs as [|s segs IH]; simpl; [split; constructor|].
  split; intros [Hs Hl]%Forall_cons_1; (constructor; [exact Hs|by apply IH]).
Qed.

(** Assigning a train to a segment of a section in which no two
    segments share an occupancy list: an unknown segment id changes
    nothing and reports failure.  Otherwise the call succeeds only if
    the segment can accommodate the train, the occupancy of the section
    grows by one on success and stays the same on failure, segments
    within their effective capacity stay within it, and a train that
    was nowhere in the section is afterwards found on the segment it
    was assigned to. *)
Theorem assign_train_updates_section (h : gmap loc (list string)) (self : SectionRef.t)
    (train_id sid : string) :
  NoDup (map TrackSegmentRef.current_occupancy (SectionRef.track_segments self)) ->
  let '(h', ok) := SectionRef.assign_train_to_segment h self train_id sid in
  (SectionRef.get_segment self sid = None -> h' = h /\ ok = false)
  /\ (ok = true -> SectionRef.can_accommodate_train h self sid = true)
  /\ SectionRef.current_occupancy h' self
     = SectionRef.current_occupancy h self + (if ok then 1 else 0)
  /\ (Forall (fun seg => Z.of_nat (length (TrackSegmentRef.occupancy h seg))
                         <= TrackSegmentRef.max_capacity seg)
             (SectionRef.track_segments self) ->
      Forall (fun seg => Z.of_nat (length (TrackSegmentRef.occupancy h' seg))
                         <= TrackSegmentRef.max_capacity seg)
             (SectionRef.track_segments self))
  /\ (ok = true ->
      SectionRef.find_train_position h self train_id = None ->
      SectionRef.find_train_position h' self train_id = Some sid).
Proof.
  intros Hnd.
  pose proof (assign_refines_by_value h self train_id sid Hnd) as Href.
  pose proof (assign_by_value (SectionRef.snapshot h self) train_id sid) as Hval.
  destruct (SectionRef.assign_train_to_segment h self train_id sid) as [h' ok] eqn:Hstep.
  rewrite Href in Hval. destruct Hval as (_ & Hroom & _ & Hocc & Hcap & Hpos).
  split.
  { intros Hnone. unfold SectionRef.assign_train_to_segment in Hstep.
    rewrite Hnone in Hstep. by injection Hstep as <- <-. }
  split.
  { intros Hok. specialize (Hroom Hok).
    unfold Section.can_accommodate_train in Hroom. rewrite snapshot_get_segment in Hroom.
    unfold SectionRef.can_accommodate_train.
    by destruct (SectionRef.get_segment self sid). }
  split; [by rewrite <- !snapshot_current_occupancy|].
  split.
  { intros Hall. apply snapshot_within_capacity, Hcap. by apply snapshot_within_capacity. }
  intros Hok Hnowhere. rewrite <- snapshot_find_train_position.
  apply Hpos; [exact Hok|]. by rewrite snapshot_find_train_position.
Qed.

Lemma assign_train_updates_section_witness :
  let '(h', ok) := SectionRef.assign_train_to_segment ∅ Examples.own_lists "T1" "S2" in
  ok = true
  /\ SectionRef.current_occupancy h' Examples.own_lists = 1
  /\ SectionRef.find_train_position h' Examples.own_lists "T1" = Some "S2".
Proof.
  pose proof (assign_train_updates_section ∅ Examples.own_lists "T1" "S2") as Hassign.
  destruct (SectionRef.assign_train_to_segment ∅ Examples.own_lists "T1" "S2")
    as [h' ok] eqn:Hstep.
  assert (Hok : ok = true) by (vm_compute in Hstep; congruence).
  destruct Hassign as (_ & _ & Hocc & _ & Hpos).
  - apply (bool_decide_unpack _). vm_compute. exact I.
  - split; [exact Hok|]. split.
    + rewrite Hocc, Hok. reflexivity.
    + apply Hpos; [exact Hok|reflexivity].
Defined.

(** Without that condition the conclusion fails: on two tracks built on
    one list, assigning a train to S2 puts it on both tracks, so the
    occupancy of the section grows by two and the train is found on
    S1. *)
Lemma shared_list_changes_both :
  let '(h', ok) := SectionRef.assign_train_to_segment ∅ Examples.shared_list "T1" "S2" in
  ok = true
  /\ SectionRef.current_occupancy ∅ Examples.shared_list = 0
  /\ SectionRef.current_occupancy h' Examples.shared_list = 2
  /\ SectionRef.find_train_position h' Examples.shared_list "T1" = Some "S1".
Proof. vm_compute. by repeat split. Qed.
